(** * Glue transform job: validation, pseudonymisation and curated writes

    A shallow embedding of [scripts/glue_transform/transform.py] together
    with the properties of the repository's specification that concern it.

    Layout:
    - [Unicode]   Python [str] values and [str.encode("utf-8")];
    - [SHA256]    [hashlib.sha256(...).hexdigest()] (FIPS 180-4);
    - [Spark]     the part of the PySpark DataFrame API that the job calls;
    - [Transform] the job itself, function by function;
    - [StreamGenerate] the sensor generator,
      [scripts/stream_generate/lambda_function.py];
    - [BatchIngest] the weather ingest,
      [scripts/batch_ingest/lambda_function.py];
    - [Properties] the theorems. *)

From Stdlib Require Import ZArith QArith Qabs Qfield List String Ascii Lia.
From Stdlib Require Import Qround.
From Stdlib Require DecimalString.
From stdpp Require Import base option list strings gmap.

Local Open Scope Z_scope.

(** ** Python strings *)
Module Unicode.

(** A Python [str] that came through Spark is a sequence of Unicode scalar
    values: code points below [0x110000] that are not surrogates. *)
Definition is_scalar (c : N) : bool :=
  ((c <? 0xD800) || ((0xDFFF <? c) && (c <? 0x110000)))%N.

Record uchar : Type := UChar {
  code : N;
  code_scalar : is_scalar code = true
}.

Definition ustring : Type := list uchar.

(** Every character of a Rocq string (a byte) is a scalar value. *)
Definition ascii_scalar (a : ascii) : is_scalar (N_of_ascii a) = true.
Proof. destruct a as [[] [] [] [] [] [] [] []]; reflexivity. Qed.

Definition uchar_of_ascii (a : ascii) : uchar :=
  UChar (N_of_ascii a) (ascii_scalar a).

(** Literals of the source are written as Rocq strings. *)
Definition ustr (s : string) : ustring :=
  map uchar_of_ascii (list_ascii_of_string s).

(** [str.encode("utf-8")], one code point at a time; bytes are integers
    in [0, 256). *)
Definition utf8_encode_char (u : uchar) : list Z :=
  let c := Z.of_N (code u) in
  if c <? 0x80 then [c]
  else if c <? 0x800 then
    [Z.lor 0xC0 (Z.shiftr c 6); Z.lor 0x80 (Z.land c 0x3F)]
  else if c <? 0x10000 then
    [Z.lor 0xE0 (Z.shiftr c 12);
     Z.lor 0x80 (Z.land (Z.shiftr c 6) 0x3F);
     Z.lor 0x80 (Z.land c 0x3F)]
  else
    [Z.lor 0xF0 (Z.shiftr c 18);
     Z.lor 0x80 (Z.land (Z.shiftr c 12) 0x3F);
     Z.lor 0x80 (Z.land (Z.shiftr c 6) 0x3F);
     Z.lor 0x80 (Z.land c 0x3F)].

Definition utf8_encode (s : ustring) : list Z :=
  flat_map utf8_encode_char s.

End Unicode.

(** ** SHA-256 and its hexadecimal digest *)
Module SHA256.
Import Unicode.

Definition w32 (x : Z) : Z := x mod 2 ^ 32.
Definition add32 (x y : Z) : Z := w32 (x + y).
Definition rotr (n x : Z) : Z :=
  Z.lor (Z.shiftr x n) (w32 (Z.shiftl x (32 - n))).
Definition not32 (x : Z) : Z := Z.lxor x 0xFFFFFFFF.

Definition Ch (x y z : Z) : Z := Z.lxor (Z.land x y) (Z.land (not32 x) z).
Definition Maj (x y z : Z) : Z :=
  Z.lxor (Z.lxor (Z.land x y) (Z.land x z)) (Z.land y z).
Definition Sigma0 (x : Z) : Z :=
  Z.lxor (Z.lxor (rotr 2 x) (rotr 13 x)) (rotr 22 x).
Definition Sigma1 (x : Z) : Z :=
  Z.lxor (Z.lxor (rotr 6 x) (rotr 11 x)) (rotr 25 x).
Definition sigma0 (x : Z) : Z :=
  Z.lxor (Z.lxor (rotr 7 x) (rotr 18 x)) (Z.shiftr x 3).
Definition sigma1 (x : Z) : Z :=
  Z.lxor (Z.lxor (rotr 17 x) (rotr 19 x)) (Z.shiftr x 10).

(** The first 64 primes. *)
Definition primes : list Z :=
  [2; 3; 5; 7; 11; 13; 17; 19; 23; 29; 31; 37; 41; 43; 47; 53; 59; 61; 67; 71;
   73; 79; 83; 89; 97; 101; 103; 107; 109; 113; 127; 131; 137; 139; 149; 151;
   157; 163; 167; 173; 179; 181; 191; 193; 197; 199; 211; 223; 227; 229; 233;
   239; 241; 251; 257; 263; 269; 271; 277; 281; 283; 293; 307; 311].

(** Integer cube root, one bit at a time from bit [n - 1] down. *)
Fixpoint cube_root (n : nat) (x acc : Z) : Z :=
  match n with
  | O => acc
  | S n' =>
      let c := acc + 2 ^ Z.of_nat n' in
      if c * c * c <=? x then cube_root n' x c else cube_root n' x acc
  end.

(** The round constants: the first 32 bits of the fractional part of the
    cube root of each prime. *)
Definition K : list Z :=
  map (fun p => w32 (cube_root 40 (p * 2 ^ 96) 0)) primes.

(** The initial hash value: the same for the square roots of the first
    eight primes. *)
Definition H0 : list Z :=
  map (fun p => w32 (Z.sqrt (p * 2 ^ 64))) (firstn 8 primes).

(** Big-endian serialisation of the low [n] bytes of [x]. *)
Fixpoint be_bytes (n : nat) (x : Z) : list Z :=
  match n with
  | O => []
  | S n' => Z.land (Z.shiftr x (8 * Z.of_nat n')) 0xFF :: be_bytes n' x
  end.

Definition be_word (bs : list Z) : Z :=
  fold_left (fun acc b => acc * 256 + b) bs 0.

(** Padding: a [0x80] byte, zero bytes up to 56 modulo 64, and the bit
    length on 8 bytes. *)
Definition pad (msg : list Z) : list Z :=
  let len := Z.of_nat (length msg) in
  let zeros := Z.to_nat ((55 - len) mod 64) in
  msg ++ [0x80] ++ repeat 0 zeros ++ be_bytes 8 (8 * len).

Fixpoint chunks (fuel : nat) (n : nat) (l : list Z) : list (list Z) :=
  match fuel with
  | O => []
  | S fuel' =>
      match l with
      | [] => []
      | _ => firstn n l :: chunks fuel' n (skipn n l)
      end
  end.

Definition words_of_block (block : list Z) : list Z :=
  map be_word (chunks 16 4 block).

Definition wnth (l : list Z) (i : nat) : Z := nth i l 0.

(** The message schedule, extended one word at a time. *)
Fixpoint schedule (n : nat) (w : list Z) : list Z :=
  match n with
  | O => w
  | S n' =>
      let t := length w in
      let x := add32 (add32 (sigma1 (wnth w (t - 2))) (wnth w (t - 7)))
                     (add32 (sigma0 (wnth w (t - 15))) (wnth w (t - 16))) in
      schedule n' (w ++ [x])
  end.

Definition round (st : list Z) (kw : Z * Z) : list Z :=
  match st with
  | [a; b; c; d; e; f; g; h] =>
      let t1 := add32 (add32 (add32 h (Sigma1 e)) (add32 (Ch e f g) (fst kw)))
                      (snd kw) in
      let t2 := add32 (Sigma0 a) (Maj a b c) in
      [add32 t1 t2; a; b; c; add32 d t1; e; f; g]
  | _ => st
  end.

Definition compress (h : list Z) (block : list Z) : list Z :=
  let w := schedule 48 (words_of_block block) in
  let st := fold_left round (combine K w) h in
  map (fun p => add32 (fst p) (snd p)) (combine h st).

(** [hashlib.sha256(msg).digest()]: 32 bytes. *)
Definition digest (msg : list Z) : list Z :=
  let p := pad msg in
  let h := fold_left compress (chunks (length p) 64 p) H0 in
  flat_map (be_bytes 4) h.

Definition hex_digit (n : Z) : uchar :=
  nth (Z.to_nat n) (ustr "0123456789abcdef") (uchar_of_ascii "0").

Definition hex_of_byte (b : Z) : ustring :=
  [hex_digit (Z.land (Z.shiftr b 4) 0xF); hex_digit (Z.land b 0xF)].

(** [hashlib.sha256(msg).hexdigest()]. *)
Definition hexdigest (msg : list Z) : ustring :=
  flat_map hex_of_byte (digest msg).

End SHA256.

(** ** The PySpark operations used by the job *)
Module Spark.
Import Unicode.

(** *** Exceptions and fallible results *)
Inductive exn : Type :=
| AnalysisException (what : string)   (* unresolved column, missing path *)
| AttributeError (what : string)      (* raised inside a Python UDF *)
| Py4JJavaError (cause : exn)         (* a job that failed while an action
                                         ran it, with what failed in it *)
| OtherError (what : string).         (* any other [Exception] *)

Inductive result (A : Type) : Type :=
| Ok (a : A)
| Raise (e : exn).
Arguments Ok {A} a.
Arguments Raise {A} e.

#[global] Instance result_ret : MRet result := fun A a => Ok a.
#[global] Instance result_bind : MBind result := fun A B f m =>
  match m with Ok a => f a | Raise e => Raise e end.

Fixpoint traverse {A B : Type} (f : A -> result B) (l : list A)
  : result (list B) :=
  match l with
  | [] => Ok []
  | x :: l' => y ← f x; ys ← traverse f l'; Ok (y :: ys)
  end.

(** *** Cells, rows and data frames

    A cell is null, a string, or a number of one of the two numeric types
    that [spark.read.json] infers: [VLong] is a cell of a [long] column
    (all its numbers are integers), [VNum] a cell of a [double] column, its
    finite value taken as a rational. *)
Inductive value : Type :=
| VNull
| VNum (q : Q)
| VLong (n : Z)
| VStr (s : ustring).

Abbreviation row := (gmap string value).

(** A data frame has a schema (its column names, in order) and rows; a
    field that a record lacks reads as null.

    What [spark.read.json] returns has more structure than the record
    keeps: every column has one type, so its cells are nulls and values of
    one constructor (a field that is a number in one record and a string
    in another is read as a string column), and no two columns have names
    that differ only by case (the reader refuses such data). The
    properties that depend on it say so. *)
Record DataFrame : Type := mkDataFrame {
  columns : list string;
  rows : list row
}.

Definition cell (r : row) (c : string) : value := default VNull (r !! c).

Definition count (df : DataFrame) : Z := Z.of_nat (length (rows df)).
Definition isEmpty (df : DataFrame) : bool :=
  match rows df with [] => true | _ => false end.

(** A Python scalar on the right of a [Column] operator. *)
Inductive literal : Type :=
| IntLit (z : Z)
| DoubleLit (q : Q).

Definition lit_num (l : literal) : Q :=
  match l with IntLit z => inject_Z z | DoubleLit q => q end.

Inductive numtype : Type := IntegerType | DoubleType.

Definition lit_type (l : literal) : numtype :=
  match l with IntLit _ => IntegerType | DoubleLit _ => DoubleType end.

(** *** Column names

    With the session's default settings a name matches a column when the
    two are equal ignoring case. A name without non-ASCII characters is
    [plain], and [lowered] puts the letters [A]-[Z] in lower case. *)
Definition is_plain (name : string) : bool :=
  forallb (fun a => (N_of_ascii a <? 128)%N) (list_ascii_of_string name).

Definition lowered_char (a : ascii) : ascii :=
  let n := N_of_ascii a in
  if ((65 <=? n) && (n <=? 90))%N then ascii_of_N (n + 32) else a.

Definition lowered (name : string) : string :=
  string_of_list_ascii (map lowered_char (list_ascii_of_string name)).

(** *** What belongs to Spark

    - Implicit casts. Spark casts a string operand of an arithmetic or
      comparison operator to the numeric type of the other side, a [long]
      that is compared with a [double] to the nearest [double], and a
      numeric argument of a string function to a string; the parsing,
      rounding and printing rules are Spark's.
    - Arithmetic. [*], [/] and [+] with a Python scalar and [round] work on
      64-bit integers, which wrap around, and on binary floating point,
      which rounds each result; [/] gives a [double] also for two
      integers, and [round] goes through the decimal expansion of the
      [double]. What they give for an operand that is not null is Spark's.
    - Case folding. [fold_name] maps a name to a representative of the
      names equal to it ignoring case (Java's [equalsIgnoreCase] compares
      the characters after [toUpperCase] and [toLowerCase]). For plain
      names this is the comparison of the lowered names; on other
      characters it follows the Unicode tables.

    These are left abstract. *)
Class SparkSession : Type := {
  cast_string_to_num : numtype -> ustring -> option Q;
  cast_num_to_string : Q -> ustring;
  cast_long_to_string : Z -> ustring;
  cast_long_to_double : Z -> Q;
  spark_multiply : value -> literal -> value;
  spark_divide : value -> literal -> value;
  spark_add : value -> literal -> value;
  spark_round : value -> Z -> value;
  fold_name : string -> string;
  fold_name_plain : forall a b : string,
    is_plain a = true -> is_plain b = true ->
    fold_name a = fold_name b -> lowered a = lowered b
}.

(** *** Column expressions *)
Inductive Column : Type :=
| Col (name : string)                        (* F.col(name) *)
| LitStr (s : ustring)                       (* a Python str used as value *)
| Multiply (a : Column) (b : literal)        (* a * b *)
| Divide (a : Column) (b : literal)          (* a / b *)
| Add (a : Column) (b : literal)             (* a + b *)
| Round (a : Column) (scale : Z)             (* F.round(a, scale) *)
| Substring (a : Column) (pos len : Z)       (* F.substring(a, pos, len) *)
| PythonUDF (f : value -> result value) (a : Column)
| CaseWhen (c : Cond) (a : Column) (otherwise : Column)
                                             (* F.when(c, a) ... otherwise *)
with Cond : Type :=
| LessThan (a : Column) (b : literal)            (* a < b *)
| GreaterThan (a : Column) (b : literal)         (* a > b *)
| GreaterThanOrEqual (a : Column) (b : literal)  (* a >= b *)
| Or (a b : Cond)                                (* a | b *)
| And (a b : Cond)                               (* a & b *)
| IsNull (a : Column)
| IsNotNull (a : Column).

(** The columns an expression names. *)
Fixpoint refs (e : Column) : list string :=
  match e with
  | Col c => [c]
  | LitStr _ => []
  | Multiply a _ | Divide a _ | Add a _ | Round a _ | Substring a _ _
  | PythonUDF _ a => refs a
  | CaseWhen c a o => refs_cond c ++ refs a ++ refs o
  end
with refs_cond (c : Cond) : list string :=
  match c with
  | LessThan a _ | GreaterThan a _ | GreaterThanOrEqual a _
  | IsNull a | IsNotNull a => refs a
  | Or a b | And a b => refs_cond a ++ refs_cond b
  end.

(** *** Evaluation on one row *)
Definition Q_leb (x y : Q) : bool := Qle_bool x y.
Definition Q_ltb (x y : Q) : bool := negb (Qle_bool y x).

(** SQL's three-valued connectives; [None] is the null truth value. *)
Definition or3 (a b : option bool) : option bool :=
  match a, b with
  | Some true, _ | _, Some true => Some true
  | Some false, Some false => Some false
  | _, _ => None
  end.
Definition and3 (a b : option bool) : option bool :=
  match a, b with
  | Some false, _ | _, Some false => Some false
  | Some true, Some true => Some true
  | _, _ => None
  end.

(** [substring(s, pos, len)]: positions count characters from 1; position
    0 reads as 1 and a negative position counts from the end. *)
Definition substring_sql (s : ustring) (pos len : Z) : ustring :=
  let n := Z.of_nat (length s) in
  let start := if 0 <? pos then pos - 1
               else if pos <? 0 then n + pos else 0 in
  let stop := start + len in
  if (stop <=? start) || (n <=? start) then []
  else
    let from := Z.max start 0 in
    firstn (Z.to_nat (stop - from)) (skipn (Z.to_nat from) s).

Definition is_null (v : value) : bool :=
  match v with VNull => true | _ => false end.

Section Eval.
Context `{SparkSession}.

(** The operand of a comparison, as a number of the type of the literal
    it is compared with, which is the wider of the two types. *)
Definition as_num (t : numtype) (v : value) : option Q :=
  match v with
  | VNull => None
  | VNum q => Some q
  | VLong n =>
      Some (match t with
            | IntegerType => inject_Z n
            | DoubleType => cast_long_to_double n
            end)
  | VStr s => cast_string_to_num t s
  end.

Definition as_str (v : value) : option ustring :=
  match v with
  | VNull => None
  | VNum q => Some (cast_num_to_string q)
  | VLong n => Some (cast_long_to_string n)
  | VStr s => Some s
  end.

Definition of_str (o : option ustring) : value :=
  match o with Some s => VStr s | None => VNull end.

Definition compare (f : Q -> Q -> bool) (v : value) (b : literal)
  : option bool :=
  x ← as_num (lit_type b) v; Some (f x (lit_num b)).

(** The arithmetic operators and [round]: null for a null operand,
    Spark's result otherwise. *)
Definition times (v : value) (b : literal) : value :=
  if is_null v then VNull else spark_multiply v b.
Definition over (v : value) (b : literal) : value :=
  if is_null v then VNull else spark_divide v b.
Definition plus (v : value) (b : literal) : value :=
  if is_null v then VNull else spark_add v b.
Definition rounded (v : value) (scale : Z) : value :=
  if is_null v then VNull else spark_round v scale.

Fixpoint eval (e : Column) (r : row) : result value :=
  match e with
  | Col c => Ok (cell r c)
  | LitStr s => Ok (VStr s)
  | Multiply a b => v ← eval a r; Ok (times v b)
  | Divide a b => v ← eval a r; Ok (over v b)
  | Add a b => v ← eval a r; Ok (plus v b)
  | Round a scale => v ← eval a r; Ok (rounded v scale)
  | Substring a pos len =>
      v ← eval a r;
      Ok (of_str (s ← as_str v; Some (substring_sql s pos len)))
  | PythonUDF f a => v ← eval a r; f v
  | CaseWhen c a o =>
      b ← eval_cond c r;
      match b with Some true => eval a r | _ => eval o r end
  end
with eval_cond (c : Cond) (r : row) : result (option bool) :=
  match c with
  | LessThan a b => v ← eval a r; Ok (compare Q_ltb v b)
  | GreaterThan a b =>
      v ← eval a r; Ok (compare (fun x y => Q_ltb y x) v b)
  | GreaterThanOrEqual a b =>
      v ← eval a r; Ok (compare (fun x y => Q_leb y x) v b)
  | Or a b => x ← eval_cond a r; y ← eval_cond b r; Ok (or3 x y)
  | And a b => x ← eval_cond a r; y ← eval_cond b r; Ok (and3 x y)
  | IsNull a => v ← eval a r; Ok (Some (is_null v))
  | IsNotNull a => v ← eval a r; Ok (Some (negb (is_null v)))
  end.

(** *** Name resolution

    A name resolves to the column equal to it, or else to a column equal
    to it ignoring case. In the schema of a data frame that
    [spark.read.json] returned no two columns are equal ignoring case, and
    the transformations below keep it so; there a name has at most one
    match, which is what [resolve] gives. *)
Definition same_name (a b : string) : bool :=
  String.eqb (fold_name a) (fold_name b).

Definition resolve (cols : list string) (name : string) : option string :=
  if decide (name ∈ cols) then Some name
  else List.find (same_name name) cols.

(** An expression is analysed against the schema when the transformation
    is called: a name that resolves to no column raises
    [AnalysisException], and the others stand for the columns they
    resolve to. *)
Definition unresolved (names cols : list string) : list string :=
  List.filter (fun c => match resolve cols c with
                        | Some _ => false
                        | None => true
                        end) names.

Definition analyse (names cols : list string) : result unit :=
  match unresolved names cols with
  | [] => Ok tt
  | c :: _ => Raise (AnalysisException c)
  end.

Definition bound_name (cols : list string) (c : string) : string :=
  default c (resolve cols c).

Fixpoint bound (cols : list string) (e : Column) : Column :=
  match e with
  | Col c => Col (bound_name cols c)
  | LitStr s => LitStr s
  | Multiply a b => Multiply (bound cols a) b
  | Divide a b => Divide (bound cols a) b
  | Add a b => Add (bound cols a) b
  | Round a scale => Round (bound cols a) scale
  | Substring a pos len => Substring (bound cols a) pos len
  | PythonUDF f a => PythonUDF f (bound cols a)
  | CaseWhen c a o =>
      CaseWhen (bound_cond cols c) (bound cols a) (bound cols o)
  end
with bound_cond (cols : list string) (c : Cond) : Cond :=
  match c with
  | LessThan a b => LessThan (bound cols a) b
  | GreaterThan a b => GreaterThan (bound cols a) b
  | GreaterThanOrEqual a b => GreaterThanOrEqual (bound cols a) b
  | Or a b => Or (bound_cond cols a) (bound_cond cols b)
  | And a b => And (bound_cond cols a) (bound_cond cols b)
  | IsNull a => IsNull (bound cols a)
  | IsNotNull a => IsNotNull (bound cols a)
  end.

(** *** Data frame transformations and actions *)
Definition keep (c : Cond) (r : row) : result (list row) :=
  b ← eval_cond c r;
  Ok (match b with Some true => [r] | _ => [] end).

(** [df.filter(c)], on which the job calls [count()] at once: the rows on
    which [c] is true (not false, not null). *)
Definition filter (df : DataFrame) (c : Cond) : result DataFrame :=
  _ ← analyse (refs_cond c) (columns df);
  rs ← traverse (keep (bound_cond (columns df) c)) (rows df);
  Ok (mkDataFrame (columns df) (concat rs)).

(** [withColumn] and [drop] are lazy. They analyse the names when they are
    called and return a plan: the schema of the result, known at once, and
    its rows, which are computed when an action runs the plan. An error
    of the computation (a Python UDF that raises) is not raised by the
    transformation; it surfaces in the action. *)
Record Plan : Type := mkPlan {
  schema : list string;
  run : result (list row)
}.

Definition scan (df : DataFrame) : Plan := mkPlan (columns df) (Ok (rows df)).

(** The data frame an action gets from a plan. *)
Definition collect (p : Plan) : result DataFrame :=
  rs ← run p; Ok (mkDataFrame (schema p) rs).

(** [withColumn(name, e)] puts the new column, under the given name, in
    the place of every column the name matches, or appends it when there
    is none. *)
Definition renamed (name : string) (cols : list string) : list string :=
  if existsb (same_name name) cols
  then map (fun f => if same_name name f then name else f) cols
  else cols ++ [name].

Definition without (name : string) (r : row) : row :=
  base.filter (fun kv => same_name name (fst kv) = false) r.

Definition put (name : string) (v : value) (r : row) : row :=
  <[name := v]> (without name r).

Definition withColumn (p : Plan) (name : string) (e : Column)
  : result Plan :=
  _ ← analyse (refs e) (schema p);
  Ok (mkPlan (renamed name (schema p))
        (rs ← run p;
         traverse (fun r => v ← eval (bound (schema p) e) r;
                            Ok (put name v r)) rs)).

(** [drop(name)] removes the columns the name matches: no effect when
    there is none. *)
Definition drop (p : Plan) (name : string) : Plan :=
  mkPlan (List.filter (fun f => negb (same_name name f)) (schema p))
         (rs ← run p; Ok (map (without name) rs)).

End Eval.
End Spark.

(** ** The job: [scripts/glue_transform/transform.py] *)
Module Transform.
Import Unicode Spark.

(** *** Expectation results and the validation report *)

(** A value of a [details] dict. *)
Inductive detail : Type :=
| DStr (s : string)
| DInt (n : Z)
| DFloat (q : Q).

Module ExpectationResult.
Record t : Type := mk {
  expectation_type : string;
  success : bool;
  details : list (string * detail)
}.

(** The dict has the three attributes as its entries; it is kept as the
    same record. *)
Definition to_dict (self : t) : t :=
  {| expectation_type := expectation_type self;
     success := success self;
     details := details self |}.
End ExpectationResult.

(** The dict returned by [DataValidator.validate]. *)
Module Report.
Record t : Type := mk {
  dataset : string;
  expectations_evaluated : Z;
  expectations_passed : Z;
  expectations_failed : Z;
  success : bool;
  results : list ExpectationResult.t
}.
End Report.

Record DataValidator : Type := mkDataValidator {
  df : DataFrame;
  dataset_name : string;
  results : list ExpectationResult.t
}.

(** [DataValidator(df, dataset_name)] *)
Definition DataValidator_init (df : DataFrame) (dataset_name : string)
  : DataValidator :=
  mkDataValidator df dataset_name [].

(** [self.results.append(r); return self] *)
Definition append (self : DataValidator) (r : ExpectationResult.t)
  : DataValidator :=
  mkDataValidator (df self) (dataset_name self) (results self ++ [r]).

Section Validator.
Context `{SparkSession}.

Definition expect_column_values_to_not_be_null
    (self : DataValidator) (column : string) : result DataValidator :=
  let total := count (df self) in
  nulls_df ← filter (df self) (IsNull (Col column));
  let nulls := count nulls_df in
  let success := nulls =? 0 in
  Ok (append self
        (ExpectationResult.mk "expect_column_values_to_not_be_null" success
           [("column", DStr column); ("null_count", DInt nulls);
            ("total_count", DInt total)])).

Definition expect_column_values_to_be_between
    (self : DataValidator) (column : string) (min_value max_value : Q)
  : result DataValidator :=
  let total := count (df self) in
  out_df ← filter (df self)
             (Or (LessThan (Col column) (DoubleLit min_value))
                 (GreaterThan (Col column) (DoubleLit max_value)));
  let out_of_range := count out_df in
  let success := out_of_range =? 0 in
  Ok (append self
        (ExpectationResult.mk "expect_column_values_to_be_between" success
           [("column", DStr column); ("min", DFloat min_value);
            ("max", DFloat max_value); ("out_of_range_count", DInt out_of_range);
            ("total_count", DInt total)])).

Definition expect_table_row_count_to_be_greater_than
    (self : DataValidator) (value : Z) : result DataValidator :=
  let count := count (df self) in
  let success := value <? count in
  Ok (append self
        (ExpectationResult.mk "expect_table_row_count_to_be_greater_than"
           success [("row_count", DInt count); ("min_expected", DInt value)])).

(** [validate]: the summary of the results accumulated so far. *)
Definition validate (self : DataValidator) : Report.t :=
  let passed :=
    Z.of_nat (length (List.filter ExpectationResult.success (results self))) in
  let failed := Z.of_nat (length (results self)) - passed in
  {| Report.dataset := dataset_name self;
     Report.expectations_evaluated := Z.of_nat (length (results self));
     Report.expectations_passed := passed;
     Report.expectations_failed := failed;
     Report.success := failed =? 0;
     Report.results := map ExpectationResult.to_dict (results self) |}.

End Validator.

(** *** Pseudonymisation *)

(** [None] stays [None]; a [str] is hashed; a number (which is what the UDF
    receives from a numeric column, an [int] or a [float]) has no [encode]
    attribute. *)
Definition pseudonymize_column (value : Spark.value) : result Spark.value :=
  match value with
  | VNull => Ok VNull
  | VStr s => Ok (VStr (SHA256.hexdigest (utf8_encode s)))
  | VNum _ | VLong _ => Raise (AttributeError "encode")
  end.

Definition pseudonymize_udf (c : Column) : Column :=
  PythonUDF pseudonymize_column c.

(** *** The world the job runs in

    The external collaborators are part of the state: what
    [spark.read.json] answers for a path, what has been written as Parquet,
    how the catalog answers a statement and which statements were issued,
    the log, and whether the Glue job was committed. *)
Inductive level : Type := INFO | WARNING | ERROR.

Inductive log_arg : Type :=
| ArgStr (s : string)
| ArgExn (e : exn)
| ArgJson (r : Report.t).          (* json.dumps(validation_result) *)

Record log_record : Type := mkLog {
  logger_name : string;
  log_level : level;
  log_format : string;
  log_args : list log_arg
}.

(** What [df.write.mode("overwrite").partitionBy(...).option("compression",
    ...).parquet(path)] leaves at [path]. *)
Record ParquetDataset : Type := mkParquet {
  partition_by : list string;
  compression : string;
  data : DataFrame
}.

Record World : Type := mkWorld {
  json_source : string -> result DataFrame;
  written : gmap string ParquetDataset;
  sql_answer : string -> result unit;
  issued : list string;
  log : list log_record;
  committed : bool
}.

(** State and exceptions: a raised exception keeps the effects done so far. *)
Definition M (A : Type) : Type := World -> World * result A.

#[global] Instance M_ret : MRet M := fun A a w => (w, Ok a).
#[global] Instance M_bind : MBind M := fun A B f m w =>
  match m w with
  | (w', Ok a) => f a w'
  | (w', Raise e) => (w', Raise e)
  end.

Definition lift {A : Type} (r : result A) : M A := fun w => (w, r).

(** [try: body except Exception as e: handler(e)] *)
Definition try_except {A : Type} (body : M A) (handler : exn -> M A) : M A :=
  fun w =>
    match body w with
    | (w', Ok a) => (w', Ok a)
    | (w', Raise e) => handler e w'
    end.

Definition emit (name : string) (l : level) (fmt : string)
    (args : list log_arg) : M unit :=
  fun w =>
    (mkWorld (json_source w) (written w) (sql_answer w) (issued w)
             (log w ++ [mkLog name l fmt args]) (committed w),
     Ok tt).

(** [spark.read.json(path)] *)
Definition read_json (path : string) : M DataFrame :=
  fun w => (w, json_source w path).

(** The write is the action that runs the plan. The overwrite mode removes
    whatever was at [path] before the job runs; when the job fails the
    write raises, with the error of the job as its cause, and nothing
    takes the place of what was removed. *)
Definition write_parquet (curated_df : Plan) (partition : string)
    (codec : string) (path : string) : M unit :=
  fun w =>
    match run curated_df with
    | Ok rs =>
        (mkWorld (json_source w)
           (<[path := mkParquet [partition] codec
                        (mkDataFrame (schema curated_df) rs)]> (written w))
           (sql_answer w) (issued w) (log w) (committed w),
         Ok tt)
    | Raise e =>
        (mkWorld (json_source w) (delete path (written w))
           (sql_answer w) (issued w) (log w) (committed w),
         Raise (Py4JJavaError e))
    end.

(** [spark.sql(statement)] *)
Definition sql (statement : string) : M unit :=
  fun w =>
    (mkWorld (json_source w) (written w) (sql_answer w)
             (issued w ++ [statement]) (log w) (committed w),
     sql_answer w statement).

(** [job.commit()] *)
Definition commit : M unit :=
  fun w =>
    (mkWorld (json_source w) (written w) (sql_answer w) (issued w) (log w) true,
     Ok tt).

Section Pipeline.
Context `{SparkSession}.

(** *** Weather *)

(** Lines 153-162: the weather rule set and its report. *)
Definition validate_weather (raw_df : DataFrame) : result Report.t :=
  let validator := DataValidator_init raw_df "raw_weather" in
  validator ← expect_column_values_to_not_be_null validator "city";
  validator ← expect_column_values_to_not_be_null validator "timestamp";
  validator ← expect_column_values_to_not_be_null validator "temperature_c";
  validator ← expect_column_values_to_be_between validator "temperature_c"
                (-90) 60;
  validator ← expect_column_values_to_be_between validator "humidity_pct"
                0 100;
  validator ← expect_table_row_count_to_be_greater_than validator 0;
  Ok (validate validator).

(** Lines 171-177: the Fahrenheit column and the date column. *)
Definition weather_plan (raw_df : DataFrame) : result Plan :=
  curated_df ← withColumn (scan raw_df) "temperature_f"
    (Round (Add (Divide (Multiply (Col "temperature_c") (IntLit 9)) (IntLit 5))
                (IntLit 32)) 2);
  withColumn curated_df "date" (Substring (Col "timestamp") 1 10).

(** The curated data frame: what running that plan gives. *)
Definition curate_weather (raw_df : DataFrame) : result DataFrame :=
  curated_df ← weather_plan raw_df; collect curated_df.

(** Lines 163-190: everything after [validator.validate()], with the report
    it returned as an argument. *)
Definition finish_weather (curated_path database_name : string)
    (raw_df : DataFrame) (validation_result : Report.t) : M unit :=
  let logger := emit "transform_weather" in
  _ ← logger INFO "Weather validation: %s" [ArgJson validation_result];
  _ ← (if negb (Report.success validation_result)
       then logger ERROR
              "Weather data validation FAILED. Check validation details." []
       else mret tt);
  curated_df ← lift (weather_plan raw_df);
  _ ← write_parquet curated_df "date" "snappy" curated_path;
  _ ← sql ("MSCK REPAIR TABLE `" +:+ database_name +:+ "`.curated_weather");
  logger INFO "Weather transform complete. Wrote to %s" [ArgStr curated_path].

Definition transform_weather (datalake_bucket database_name : string)
  : M unit :=
  let logger := emit "transform_weather" in
  _ ← logger INFO "Starting weather transform" [];
  let raw_path := "s3://" +:+ datalake_bucket +:+ "/raw/weather/" in
  let curated_path := "s3://" +:+ datalake_bucket +:+ "/curated/weather/" in
  (* [None] stands for the two early [return]s. *)
  raw ← try_except
          (raw_df ← read_json raw_path;
           if isEmpty raw_df
           then _ ← logger WARNING "No raw weather data found at %s"
                      [ArgStr raw_path];
                mret None
           else mret (Some raw_df))
          (fun e =>
             _ ← logger ERROR "Failed to read raw weather data: %s" [ArgExn e];
             mret None);
  match raw with
  | None => mret tt
  | Some raw_df =>
      validation_result ← lift (validate_weather raw_df);
      finish_weather curated_path database_name raw_df validation_result
  end.

(** *** IoT sensors *)

(** Lines 212-224: the sensor rule set and its report. *)
Definition validate_iot_sensors (raw_df : DataFrame) : result Report.t :=
  let validator := DataValidator_init raw_df "raw_iot_sensors" in
  validator ← expect_column_values_to_not_be_null validator "sensor_id";
  validator ← expect_column_values_to_not_be_null validator "city";
  validator ← expect_column_values_to_not_be_null validator "timestamp";
  validator ← expect_column_values_to_not_be_null validator "temperature_c";
  validator ← expect_column_values_to_be_between validator "temperature_c"
                (-50) 60;
  validator ← expect_column_values_to_be_between validator "humidity_pct"
                0 100;
  validator ← expect_column_values_to_be_between validator "aqi"
                0 500;
  validator ← expect_column_values_to_be_between validator "battery_level"
                0 100;
  validator ← expect_table_row_count_to_be_greater_than validator 0;
  Ok (validate validator).

(** Lines 241-250: the quality classification, a [CASE WHEN] cascade. *)
Definition quality_score : Column :=
  CaseWhen
    (And (And (And (GreaterThanOrEqual (Col "battery_level") (IntLit 50))
                   (IsNotNull (Col "temperature_c")))
              (IsNotNull (Col "humidity_pct")))
         (IsNotNull (Col "aqi")))
    (LitStr (ustr "PASS"))
    (CaseWhen (GreaterThanOrEqual (Col "battery_level") (IntLit 20))
              (LitStr (ustr "WARN"))
              (LitStr (ustr "FAIL"))).

(** Lines 232-257: pseudonymise, drop the identifier, classify, date. *)
Definition iot_sensors_plan (raw_df : DataFrame) : result Plan :=
  transformed_df ← withColumn (scan raw_df) "sensor_id_hash"
                     (pseudonymize_udf (Col "sensor_id"));
  let transformed_df := drop transformed_df "sensor_id" in
  transformed_df ← withColumn transformed_df "quality_score" quality_score;
  withColumn transformed_df "date" (Substring (Col "timestamp") 1 10).

(** The curated data frame: what running that plan gives. *)
Definition curate_iot_sensors (raw_df : DataFrame) : result DataFrame :=
  transformed_df ← iot_sensors_plan raw_df; collect transformed_df.

(** Lines 225-270, with the report as an argument. *)
Definition finish_iot_sensors (curated_path database_name : string)
    (raw_df : DataFrame) (validation_result : Report.t) : M unit :=
  let logger := emit "transform_iot_sensors" in
  _ ← logger INFO "IoT sensor validation: %s" [ArgJson validation_result];
  _ ← (if negb (Report.success validation_result)
       then logger ERROR
              "IoT sensor data validation FAILED. Check validation details." []
       else mret tt);
  transformed_df ← lift (iot_sensors_plan raw_df);
  _ ← write_parquet transformed_df "date" "snappy" curated_path;
  _ ← sql ("MSCK REPAIR TABLE `" +:+ database_name
           +:+ "`.curated_sensor_readings");
  logger INFO "IoT sensor transform complete. Wrote to %s"
    [ArgStr curated_path].

Definition transform_iot_sensors (datalake_bucket database_name : string)
  : M unit :=
  let logger := emit "transform_iot_sensors" in
  _ ← logger INFO "Starting IoT sensor transform" [];
  let raw_path := "s3://" +:+ datalake_bucket +:+ "/raw/iot-sensors/" in
  let curated_path :=
    "s3://" +:+ datalake_bucket +:+ "/curated/sensor-readings/" in
  raw ← try_except
          (raw_df ← read_json raw_path;
           if isEmpty raw_df
           then _ ← logger WARNING "No raw IoT sensor data found at %s"
                      [ArgStr raw_path];
                mret None
           else mret (Some raw_df))
          (fun e =>
             _ ← logger ERROR "Failed to read raw IoT sensor data: %s"
                   [ArgExn e];
             mret None);
  match raw with
  | None => mret tt
  | Some raw_df =>
      validation_result ← lift (validate_iot_sensors raw_df);
      finish_iot_sensors curated_path database_name raw_df validation_result
  end.

(** *** Entry point *)
Record Args : Type := mkArgs {
  JOB_NAME : string;
  DATALAKE_BUCKET : string;
  ENVIRONMENT : string;
  DATABASE_NAME : string;
  KMS_KEY_ARN : string
}.

(** [main], from the resolved arguments on. *)
Definition main (args : Args) : M unit :=
  let logger := emit "glue_transform" in
  let datalake_bucket := DATALAKE_BUCKET args in
  let database_name := DATABASE_NAME args in
  _ ← logger INFO "Starting Glue transform job. Bucket=%s, DB=%s, Env=%s"
        [ArgStr datalake_bucket; ArgStr database_name;
         ArgStr (ENVIRONMENT args)];
  _ ← sql ("USE `" +:+ database_name +:+ "`");
  _ ← transform_weather datalake_bucket database_name;
  _ ← transform_iot_sensors datalake_bucket database_name;
  _ ← logger INFO "Glue transform job complete" [];
  commit.

End Pipeline.
End Transform.

(** ** The sensor generator: [scripts/stream_generate/lambda_function.py] *)
Module StreamGenerate.
Import Unicode Spark Transform.

(** [str.lower] follows the Unicode case tables, [hash] of a string is
    salted per process, and [+] and [round] on [float] work in binary
    floating point (a finite [float] is taken as the rational it is); they
    are Python's and are left abstract. *)
Class Python : Type := {
  lower : ustring -> ustring;
  hash : ustring -> Z;
  float_add : Q -> Q -> Q;
  float_round : Q -> Z -> Q
}.

(** [s.replace(old, new)] for single characters. *)
Definition replace_char (old new : ascii) (s : ustring) : ustring :=
  map (fun u => if N.eqb (code u) (N_of_ascii old) then uchar_of_ascii new
                else u) s.

(** [str(n)] and [%d] for an integer. *)
Definition decimal (n : Z) : string :=
  DecimalString.NilZero.string_of_int (Z.to_int n).

Definition zero_pad (width : nat) (ds : ustring) : ustring :=
  repeat (uchar_of_ascii "0") (width - length ds) ++ ds.

(** [f"{i:03d}"]: at least three characters, zero-filled after the sign. *)
Definition format_03d (i : Z) : ustring :=
  if i <? 0 then uchar_of_ascii "-" :: zero_pad 2 (ustr (decimal (Z.abs i)))
  else zero_pad 3 (ustr (decimal i)).

(** One record of the log: its level and its format string. *)
Definition entry : Type := level * string.

Section Generator.
Context `{Python}.

Definition generate_sensor_id (city_name : ustring) (sensor_index : Z)
  : ustring :=
  let raw := replace_char " " "_" (lower city_name) ++ ustr "_"
             ++ format_03d sensor_index in
  ustr "sensor-" ++ firstn 12 (SHA256.hexdigest (utf8_encode raw)).

(** A city of [CITIES]; the generator reads its name only. *)
Record City : Type := mkCity {
  name : ustring
}.

(** What one call of [generate_reading] gets from [random]: the results of
    [gauss(0, 3)], of [uniform(20, 95)], of the three [uniform] calls that
    make the population of [choices], the position [choices] selects, and
    the result of [uniform(15, 100)]. *)
Inductive position : Type := First | Second | Third.

Record Random : Type := mkRandom {
  gauss_0_3 : Q;
  uniform_20_95 : Q;
  uniform_0_50 : Q;
  uniform_51_100 : Q;
  uniform_101_200 : Q;
  choices : position;
  uniform_15_100 : Q
}.

(** The four locals of [generate_reading] (lines 42-51). *)
Record Draw : Type := mkDraw {
  temperature_c : Q;
  humidity_pct : Q;
  aqi : Q;
  battery_level : Q
}.

Definition measurements (city : City) (r : Random) : Draw :=
  let base_temp := float_add 15 (inject_Z (hash (name city) mod 30)) in
  let temperature_c := float_round (float_add base_temp (gauss_0_3 r)) 1 in
  let humidity_pct := float_round (uniform_20_95 r) 1 in
  let aqi :=
    float_round (match choices r with
                 | First => uniform_0_50 r
                 | Second => uniform_51_100 r
                 | Third => uniform_101_200 r
                 end) 1 in
  let battery_level := float_round (uniform_15_100 r) 1 in
  mkDraw temperature_c humidity_pct aqi battery_level.

(** [generate_reading], given what it draws and the clock reading. *)
Definition generate_reading (sensor_id : ustring) (city : City) (r : Random)
    (now : ustring) : row :=
  let d := measurements city r in
  {["sensor_id" := VStr sensor_id;
    "city" := VStr (name city);
    "timestamp" := VStr now;
    "temperature_c" := VNum (temperature_c d);
    "humidity_pct" := VNum (humidity_pct d);
    "aqi" := VNum (aqi d);
    "battery_level" := VNum (battery_level d)]}.

(** What surrounds the handler: the draws and clock readings in call order,
    [json.dumps], and the answer of Firehose to a batch (its
    [FailedRecordCount], if the response has one). *)
Record Surroundings : Type := mkSurroundings {
  draws : nat -> Random;
  clock : nat -> ustring;
  dumps : row -> ustring;
  put_record_batch : list ustring -> result (option Z)
}.

Record Summary : Type := mkSummary {
  records_sent : Z;
  cities : Z;
  sensors_per_city : Z;
  environment : ustring
}.

(** What a run of the handler leaves: the batches pushed to Firehose, the
    records it logged, and its result. *)
Record Run : Type := mkRun {
  pushed : list (list ustring);
  logged : list entry;
  outcome : result Summary
}.

(** The [Data] of the records the inner loop appends for one city; [k]
    counts the readings generated before. *)
Fixpoint city_records (s : Surroundings) (city : City) (k : nat)
    (indices : list nat) : list ustring :=
  match indices with
  | [] => []
  | i :: rest =>
      let sensor_id := generate_sensor_id (name city) (Z.of_nat i) in
      let reading := generate_reading sensor_id city (draws s k) (clock s k) in
      (dumps s reading ++ [uchar_of_ascii "010"])
        :: city_records s city (S k) rest
  end.

Fixpoint all_records (s : Surroundings) (CITIES : list City)
    (SENSORS_PER_CITY : Z) (k : nat) : list ustring :=
  match CITIES with
  | [] => []
  | city :: rest =>
      let n := Z.to_nat SENSORS_PER_CITY in
      city_records s city k (seq 0 n)
        ++ all_records s rest SENSORS_PER_CITY (k + n)
  end.

Definition handler (s : Surroundings) (CITIES : list City)
    (SENSORS_PER_CITY : Z) (ENVIRONMENT : ustring) : Run :=
  let started := (INFO, "Generating IoT sensor events for %d cities") in
  let records := all_records s CITIES SENSORS_PER_CITY 0 in
  let summary :=
    mkSummary (Z.of_nat (length records)) (Z.of_nat (length CITIES))
              SENSORS_PER_CITY ENVIRONMENT in
  match records with
  | [] => mkRun [] [started; (WARNING, "No records generated")] (Ok summary)
  | _ =>
      match put_record_batch s records with
      | Raise e => mkRun [records] [started] (Raise e)
      | Ok response =>
          let failed := default 0 response in
          let pushed_log :=
            [started;
             (INFO, "Pushed %d records to Firehose '%s'. Failed: %d")] in
          if 0 <? failed
          then mkRun [records] pushed_log
                 (Raise (OtherError
                    (decimal failed
                     +:+ " records failed to deliver to Firehose")))
          else mkRun [records] pushed_log (Ok summary)
      end
  end.

End Generator.
End StreamGenerate.

(** ** The weather ingest: [scripts/batch_ingest/lambda_function.py] *)
Module BatchIngest.
Import Unicode Spark Transform.
Import StreamGenerate (Python, lower, replace_char, decimal, entry).

Record City : Type := mkCity {
  name : ustring;
  latitude : Q;
  longitude : Q
}.

(** The [hourly] object of a response; a key may be absent. *)
Record Hourly : Type := mkHourly {
  time : option (list value);
  temperature_2m : option (list value);
  relative_humidity_2m : option (list value);
  wind_speed_10m : option (list value);
  precipitation : option (list value)
}.

Record WeatherData : Type := mkWeatherData {
  hourly : option Hourly
}.

(** What [urlopen] and the decoding of the body come to. *)
Inductive fetched : Type :=
| Body (weather_data : WeatherData)
| Unreachable                      (* [URLError] *)
| Failure (e : exn).               (* any other exception *)

(** A reading of the clock: [isoformat()] and [strftime("%Y-%m-%d")]. *)
Record Instant : Type := mkInstant {
  isoformat : ustring;
  ymd : ustring
}.

(** What surrounds the handler, each in call order: the answers to the
    requests, the clock, the random identifiers (as [hex]), and S3. *)
Record Surroundings : Type := mkSurroundings {
  urlopen : nat -> City -> fetched;
  now : nat -> Instant;
  uuid4 : nat -> ustring;
  dumps : row -> ustring;
  put_object : ustring -> list Z -> result unit
}.

(** The objects put so far, the log, and how many requests, clock readings
    and identifiers were used. *)
Record State : Type := mkState {
  objects : list (ustring * list Z);
  log : list entry;
  requests : nat;
  ticks : nat;
  uuids : nat
}.

Definition L (A : Type) : Type := State -> State * result A.

#[global] Instance L_ret : MRet L := fun A a st => (st, Ok a).
#[global] Instance L_bind : MBind L := fun A B f m st =>
  match m st with
  | (st', Ok a) => f a st'
  | (st', Raise e) => (st', Raise e)
  end.

Definition raise {A : Type} (e : exn) : L A := fun st => (st, Raise e).

Definition emit (l : level) (fmt : string) : L unit := fun st =>
  (mkState (objects st) (log st ++ [(l, fmt)]) (requests st) (ticks st)
           (uuids st), Ok tt).

Section Ingest.
Context `{Python} (s : Surroundings).

Definition read_clock : L Instant := fun st =>
  (mkState (objects st) (log st) (requests st) (S (ticks st)) (uuids st),
   Ok (now s (ticks st))).

Definition uuid4_hex : L ustring := fun st =>
  (mkState (objects st) (log st) (requests st) (ticks st) (S (uuids st)),
   Ok (uuid4 s (uuids st))).

Definition request (city : City) : L fetched := fun st =>
  (mkState (objects st) (log st) (S (requests st)) (ticks st) (uuids st),
   Ok (urlopen s (requests st) city)).

Definition s3_put_object (key : ustring) (body : list Z) : L unit := fun st =>
  match put_object s key body with
  | Ok _ =>
      (mkState (objects st ++ [(key, body)]) (log st) (requests st) (ticks st)
               (uuids st), Ok tt)
  | Raise e => (st, Raise e)
  end.

Definition fetch_weather (city : City) : L (option WeatherData) :=
  r ← request city;
  match r with
  | Body weather_data => mret (Some weather_data)
  | Unreachable =>
      _ ← emit ERROR "Failed to fetch weather for %s: %s";
      mret None
  | Failure e => raise e
  end.

(** [xs[i] if i < len(xs) else None]. *)
Definition item_or_none (xs : list value) (i : nat) : value :=
  match xs !! i with Some v => v | None => VNull end.

Fixpoint flatten (city : City) (ingestion_id : ustring)
    (temps humidity wind precip : list value) (i : nat) (times : list value)
  : L (list row) :=
  match times with
  | [] => mret []
  | t :: rest =>
      at_ ← read_clock;
      let record : row :=
        {["ingestion_id" := VStr ingestion_id;
          "city" := VStr (name city);
          "latitude" := VNum (latitude city);
          "longitude" := VNum (longitude city);
          "timestamp" := t;
          "temperature_c" := item_or_none temps i;
          "humidity_pct" := item_or_none humidity i;
          "windspeed_kmh" := item_or_none wind i;
          "precipitation_mm" := item_or_none precip i;
          "ingested_at" := VStr (isoformat at_)]} in
      records ← flatten city ingestion_id temps humidity wind precip (S i) rest;
      mret (record :: records)
  end.

Definition transform_response (city : City) (weather_data : WeatherData)
    (ingestion_id : ustring) : L (list row) :=
  let hourly := default (mkHourly None None None None None)
                        (hourly weather_data) in
  let times := default [] (time hourly) in
  let temps := default [] (temperature_2m hourly) in
  let humidity := default [] (relative_humidity_2m hourly) in
  let wind := default [] (wind_speed_10m hourly) in
  let precip := default [] (precipitation hourly) in
  flatten city ingestion_id temps humidity wind precip 0 times.

(** [sep.join(parts)]. *)
Fixpoint join (sep : ustring) (parts : list ustring) : ustring :=
  match parts with
  | [] => []
  | [p] => p
  | p :: rest => p ++ sep ++ join sep rest
  end.

Definition write_to_s3 (records : list row) (city_name date_str : ustring)
  : L unit :=
  match records with
  | [] => emit WARNING "No records for %s, skipping write"
  | _ =>
      let safe_city := lower (replace_char " " "_" city_name) in
      u ← uuid4_hex;
      let key := ustr "raw/weather/date=" ++ date_str ++ ustr "/" ++ safe_city
                 ++ ustr "_" ++ firstn 8 u ++ ustr ".json" in
      let payload := join [uchar_of_ascii "010"] (map (dumps s) records) in
      _ ← s3_put_object key (utf8_encode payload);
      emit INFO "Wrote %d records to s3://%s/%s"
  end.

Record Summary : Type := mkSummary {
  ingestion_id : ustring;
  date : ustring;
  cities_processed : Z;
  cities_failed : Z;
  total_records : Z;
  environment : ustring
}.

(** The loop over [CITIES], with its two counters. *)
Fixpoint ingest (date_str ingestion_id : ustring) (CITIES : list City)
    (total_records errors : Z) : L (Z * Z) :=
  match CITIES with
  | [] => mret (total_records, errors)
  | city :: rest =>
      weather_data ← fetch_weather city;
      match weather_data with
      | None => ingest date_str ingestion_id rest total_records (errors + 1)
      | Some weather_data =>
          records ← transform_response city weather_data ingestion_id;
          _ ← write_to_s3 records (name city) date_str;
          ingest date_str ingestion_id rest
                 (total_records + Z.of_nat (length records)) errors
      end
  end.

Definition handler (CITIES : list City) (ENVIRONMENT : ustring) : L Summary :=
  _ ← emit INFO "Starting batch ingest for %d cities";
  today ← read_clock;
  let date_str := ymd today in
  ingestion_id ← uuid4_hex;
  counters ← ingest date_str ingestion_id CITIES 0 0;
  let '(total_records, errors) := counters in
  let summary :=
    mkSummary ingestion_id date_str (Z.of_nat (length CITIES) - errors) errors
              total_records ENVIRONMENT in
  _ ← emit INFO "Batch ingest complete: %s";
  if 0 <? errors
  then raise (OtherError ("Batch ingest completed with " +:+ decimal errors
                          +:+ " city failures"))
  else mret summary.

End Ingest.
End BatchIngest.


(** ** Properties *)
Module Properties.
Import Unicode Spark Transform.

(** *** Vocabulary of the specification *)

(** The sixteen lowercase hexadecimal digits. *)
Definition lower_hex : ustring := ustr "0123456789abcdef".

(** The SQL truth value that keeps a row. *)
Definition holds (b : option bool) : bool :=
  match b with Some true => true | _ => false end.

(** Reading one entry of a [details] dict. *)
Fixpoint dict_get (k : string) (d : list (string * detail)) : option detail :=
  match d with
  | [] => None
  | (k', v) :: d' => if String.eqb k k' then Some v else dict_get k d'
  end.

(** How many rows satisfy a test. *)
Definition how_many (p : row -> bool) (df : DataFrame) : Z :=
  Z.of_nat (length (List.filter p (rows df))).

(** The three kinds of rule. *)
Inductive rule : Type :=
| not_null (column : string)
| between (column : string) (min_value max_value : Q)
| row_count_greater_than (value : Z).

(** The three quality scores, as the strings the job writes. *)
Definition PASS : value := VStr (ustr "PASS").
Definition WARN : value := VStr (ustr "WARN").
Definition FAIL : value := VStr (ustr "FAIL").

Section Vocabulary.
Context `{SparkSession}.

(** A builder fed with a sequence of rules, one chained call per rule. *)
Definition add_rule (self : DataValidator) (r : rule) : result DataValidator :=
  match r with
  | not_null c => expect_column_values_to_not_be_null self c
  | between c lo hi => expect_column_values_to_be_between self c lo hi
  | row_count_greater_than n => expect_table_row_count_to_be_greater_than self n
  end.

Fixpoint add_rules (self : DataValidator) (rs : list rule)
  : result DataValidator :=
  match rs with
  | [] => Ok self
  | r :: rs' => self' ← add_rule self r; add_rules self' rs'
  end.

(** A value lies strictly outside [[lo, hi]]: it is a number (null is not)
    below [lo] or above [hi]. *)
Definition out_of_range (lo hi : Q) (v : value) : Prop :=
  exists x, as_num DoubleType v = Some x /\ (x < lo \/ hi < x)%Q.

Definition out_of_rangeb (lo hi : Q) (v : value) : bool :=
  match as_num DoubleType v with
  | Some x => Q_ltb x lo || Q_ltb hi x
  | None => false
  end.

(** The battery level of a record reaches a threshold; a null level reaches
    none. *)
Definition battery_at_least (n : Z) (r : row) : Prop :=
  exists x, as_num IntegerType (cell r "battery_level") = Some x
            /\ (inject_Z n <= x)%Q.

(** Temperature, humidity and air-quality index are all present. *)
Definition complete (r : row) : Prop :=
  cell r "temperature_c" <> VNull /\ cell r "humidity_pct" <> VNull
  /\ cell r "aqi" <> VNull.

(** [round(v * 9 / 5 + 32, 2)] with Spark's operators. *)
Definition fahrenheit (v : value) : value :=
  rounded (plus (over (times v (IntLit 9)) (IntLit 5)) (IntLit 32)) 2.

(** The date part of a timestamp: its first ten characters. *)
Definition date_of (v : value) : value :=
  of_str (s ← as_str v; Some (firstn 10 s)).

(** The schema and the records of the curated weather dataset, from the
    schema and a record of the raw one. A name of the job stands for the
    column it resolves to. *)
Definition weather_schema (cols : list string) : list string :=
  renamed "date" (renamed "temperature_f" cols).

Definition weather_record (cols : list string) (r : row) : row :=
  put "date" (date_of (cell r (bound_name cols "timestamp")))
    (put "temperature_f"
         (fahrenheit (cell r (bound_name cols "temperature_c"))) r).

(** The cascade of the quality score on the four values it reads: the
    first test is an SQL conjunction, the second a plain comparison. *)
Definition classify (battery temperature humidity air : value) : value :=
  match
    and3 (and3 (and3 (compare (fun x y => Q_leb y x) battery (IntLit 50))
                     (Some (negb (is_null temperature))))
               (Some (negb (is_null humidity))))
         (Some (negb (is_null air)))
  with
  | Some true => PASS
  | _ =>
      match compare (fun x y => Q_leb y x) battery (IntLit 20) with
      | Some true => WARN
      | _ => FAIL
      end
  end.

Definition score_of (cols : list string) (r : row) : value :=
  classify (cell r (bound_name cols "battery_level"))
           (cell r (bound_name cols "temperature_c"))
           (cell r (bound_name cols "humidity_pct"))
           (cell r (bound_name cols "aqi")).

(** The schema after [drop]. *)
Definition dropped (name : string) (cols : list string) : list string :=
  List.filter (fun f => negb (same_name name f)) cols.

(** The schema of the curated sensor dataset, and what the plan of the
    sensor transform computes for one record: it raises what the UDF
    raises on the identifier. *)
Definition sensor_schema (cols : list string) : list string :=
  renamed "date"
    (renamed "quality_score"
       (dropped "sensor_id" (renamed "sensor_id_hash" cols))).

Definition sensor_record_with (cols : list string) (h : value) (r : row)
  : row :=
  put "date" (date_of (cell r (bound_name cols "timestamp")))
    (put "quality_score" (score_of cols r)
       (without "sensor_id" (put "sensor_id_hash" h r))).

Definition sensor_step (cols : list string) (r : row) : result row :=
  h ← pseudonymize_column (cell r (bound_name cols "sensor_id"));
  Ok (sensor_record_with cols h r).

(** The curated form of one sensor record, where the UDF does not raise. *)
Definition pseudonym (v : value) : value :=
  match pseudonymize_column v with Ok h => h | Raise _ => VNull end.

Definition sensor_record (cols : list string) (r : row) : row :=
  sensor_record_with cols
    (pseudonym (cell r (bound_name cols "sensor_id"))) r.

(** A name that matches none of the given names. *)
Definition apart_from (names : list string) (c : string) : Prop :=
  Forall (fun name => same_name name c = false) names.

(** The identifiers of a sensor dataset, the cells of the column that
    [sensor_id] names, are strings or nulls. *)
Definition textual (v : value) : Prop :=
  match v with VNull | VStr _ => True | VNum _ | VLong _ => False end.

Definition textual_ids (df : DataFrame) : Prop :=
  Forall (fun r => textual (cell r (bound_name (columns df) "sensor_id")))
         (rows df).

(** The identifiers were read as a numeric column: each is a number or
    null, and some record has one. *)
Definition numeric (v : value) : Prop :=
  match v with VNum _ | VLong _ => True | VNull | VStr _ => False end.

Definition numeric_ids (df : DataFrame) : Prop :=
  Forall (fun r =>
            cell r (bound_name (columns df) "sensor_id") = VNull
            \/ numeric (cell r (bound_name (columns df) "sensor_id")))
         (rows df)
  /\ Exists (fun r => numeric (cell r (bound_name (columns df) "sensor_id")))
            (rows df).

End Vocabulary.

(** The columns the sensor transform reads. *)
Definition sensor_inputs : list string :=
  ["sensor_id"; "timestamp"; "temperature_c"; "humidity_pct"; "aqi";
   "battery_level"].

(** The columns the two rule sets name. *)
Definition weather_inputs : list string :=
  ["city"; "timestamp"; "temperature_c"; "humidity_pct"].

Definition sensor_rule_inputs : list string :=
  ["sensor_id"; "city"; "timestamp"; "temperature_c"; "humidity_pct"; "aqi";
   "battery_level"].

(** The values of [raw_path] and [curated_path] in the two transforms. *)
Definition weather_raw_path (bucket : string) : string :=
  "s3://" +:+ bucket +:+ "/raw/weather/".
Definition weather_curated_path (bucket : string) : string :=
  "s3://" +:+ bucket +:+ "/curated/weather/".
Definition sensor_raw_path (bucket : string) : string :=
  "s3://" +:+ bucket +:+ "/raw/iot-sensors/".
Definition sensor_curated_path (bucket : string) : string :=
  "s3://" +:+ bucket +:+ "/curated/sensor-readings/".

(** A world that differs from [w] by more log records only. *)
Definition logged (w : World) (l : list log_record) : World :=
  mkWorld (json_source w) (written w) (sql_answer w) (issued w) (log w ++ l)
          (committed w).

(** The step that only logs. *)
Definition note (l : list log_record) : M unit :=
  fun w => (logged w l, Ok tt).

(** A raw dataset that has no record or cannot be read. *)
Definition unavailable (raw : result DataFrame) : Prop :=
  match raw with Ok raw_df => rows raw_df = [] | Raise _ => True end.

(** What a skipped variant logs: its start, then a warning for an empty
    dataset or an error for a failed read. *)
Definition weather_skip (bucket : string) (raw : result DataFrame)
  : list log_record :=
  [mkLog "transform_weather" INFO "Starting weather transform" [];
   match raw with
   | Ok _ => mkLog "transform_weather" WARNING
               "No raw weather data found at %s"
               [ArgStr (weather_raw_path bucket)]
   | Raise e => mkLog "transform_weather" ERROR
                  "Failed to read raw weather data: %s" [ArgExn e]
   end].

Definition sensor_skip (bucket : string) (raw : result DataFrame)
  : list log_record :=
  [mkLog "transform_iot_sensors" INFO "Starting IoT sensor transform" [];
   match raw with
   | Ok _ => mkLog "transform_iot_sensors" WARNING
               "No raw IoT sensor data found at %s"
               [ArgStr (sensor_raw_path bucket)]
   | Raise e => mkLog "transform_iot_sensors" ERROR
                  "Failed to read raw IoT sensor data: %s" [ArgExn e]
   end].

(** [main] before and after the two transforms. *)
Definition main_prologue (args : Args) : M unit :=
  _ ← emit "glue_transform" INFO
        "Starting Glue transform job. Bucket=%s, DB=%s, Env=%s"
        [ArgStr (DATALAKE_BUCKET args); ArgStr (DATABASE_NAME args);
         ArgStr (ENVIRONMENT args)];
  sql ("USE `" +:+ DATABASE_NAME args +:+ "`").

Definition main_epilogue : M unit :=
  _ ← emit "glue_transform" INFO "Glue transform job complete" [];
  commit.


(** A step that leaves the raw storage as it found it. *)
Definition keeps_source {A : Type} (m : M A) : Prop :=
  forall w, json_source (fst (m w)) = json_source w.

(** Rounding to [scale] decimals on exact numbers, a tie going away from
    zero. *)
Definition round_half_up (scale : Z) (q : Q) : Q :=
  let p := inject_Z (10 ^ Z.abs scale) in
  let m := Qred (if 0 <=? scale then q * p else q / p)%Q in
  let n := Qnum m in
  let d := Z.pos (Qden m) in
  let r := inject_Z (Z.sgn n * ((2 * Z.abs n + d) / (2 * d))) in
  Qred (if 0 <=? scale then r / p else r * p)%Q.

(** An operation on exact numbers, as an operation on cells. *)
Definition exact (f : Q -> option Q) (v : value) : value :=
  match v with
  | VNum q => match f q with Some x => VNum (Qred x) | None => VNull end
  | VLong n =>
      match f (inject_Z n) with Some x => VNum (Qred x) | None => VNull end
  | VNull | VStr _ => VNull
  end.

(** A session for the worked examples. None of them relies on a cast: no
    string reads as a number and every number prints as the empty string.
    Their names are plain, and are folded by [lowered]. Their numbers are
    small integers, on which binary floating point is exact: an integer
    is the [double] of the same value, and the arithmetic is the exact
    one, with [round] rounding half up. *)
Definition no_casts : SparkSession :=
  {| cast_string_to_num := fun _ _ => None;
     cast_num_to_string := fun _ => [];
     cast_long_to_string := fun _ => [];
     cast_long_to_double := inject_Z;
     spark_multiply := fun v b => exact (fun x => Some (x * lit_num b)%Q) v;
     spark_divide := fun v b =>
       exact (fun x => if Qeq_bool (lit_num b) 0 then None
                       else Some (x / lit_num b)%Q) v;
     spark_add := fun v b => exact (fun x => Some (x + lit_num b)%Q) v;
     spark_round := fun v scale =>
       exact (fun x => Some (round_half_up scale x)) v;
     fold_name := lowered;
     fold_name_plain := fun a b _ _ E => E |}.

(** The weather record of the specification's end-to-end example. *)
Definition austin : row :=
  {["city" := VStr (ustr "Austin");
    "timestamp" := VStr (ustr "2024-01-01T00:00:00Z");
    "temperature_c" := VNum 20;
    "humidity_pct" := VNum 50]}.

Definition austin_df : DataFrame :=
  mkDataFrame ["city"; "timestamp"; "temperature_c"; "humidity_pct"] [austin].

(** A weather dataset that fails validation: 61 degrees is out of range. *)
Definition hot_df : DataFrame :=
  mkDataFrame ["city"; "timestamp"; "temperature_c"; "humidity_pct"]
    [<["temperature_c" := VNum 61]> austin].

(** Two sensor records: a complete one with a good battery, and one with no
    air-quality reading and no battery level. *)
Definition sensor_a : row :=
  {["sensor_id" := VStr (ustr "sensor-0123456789ab");
    "city" := VStr (ustr "Austin");
    "timestamp" := VStr (ustr "2024-01-01T00:05:00+00:00");
    "temperature_c" := VNum 20;
    "humidity_pct" := VNum 50;
    "aqi" := VNum 42;
    "battery_level" := VNum 60]}.

Definition sensor_b : row :=
  delete "battery_level" (delete "aqi" sensor_a).

Definition sensors_df : DataFrame :=
  mkDataFrame ["sensor_id"; "city"; "timestamp"; "temperature_c";
               "humidity_pct"; "aqi"; "battery_level"]
    [sensor_a; sensor_b].

(** A world with the two raw datasets of bucket [lake], nothing written yet
    and a catalog that accepts every statement. *)
Definition lake (weather sensors : result DataFrame) : World :=
  mkWorld
    (fun path =>
       if String.eqb path (weather_raw_path "lake") then weather
       else if String.eqb path (sensor_raw_path "lake") then sensors
       else Raise (AnalysisException "Path does not exist"))
    ∅ (fun _ => Ok tt) [] [] false.

Definition lake_args : Args := mkArgs "transform" "lake" "dev" "db" "key".

(** A world in which the weather dataset is empty and the sensor dataset
    cannot be read. *)
Definition dry_lake : World :=
  lake (Ok (mkDataFrame weather_inputs [])) (Raise (OtherError "read failed")).



(** *** Vocabulary for the further properties *)


Definition sensor_rules : list rule :=
  [not_null "sensor_id"; not_null "city"; not_null "timestamp";
   not_null "temperature_c"; between "temperature_c" (-50) 60;
   between "humidity_pct" 0 100; between "aqi" 0 500;
   between "battery_level" 0 100; row_count_greater_than 0].

(** The column a rule names, if it names one. *)
Definition rule_column (r : rule) : option string :=
  match r with
  | not_null c | between c _ _ => Some c
  | row_count_greater_than _ => None
  end.


(** The value of a report's counters and flag. *)
Definition verdict (report : Report.t) : Z * Z * Z * bool :=
  (Report.expectations_evaluated report, Report.expectations_passed report,
   Report.expectations_failed report, Report.success report).

Section RuleVocabulary.
Context `{SparkSession}.

(** The column of the first rule, in order, whose column resolves to none
    of the schema. *)
Fixpoint first_missing (cols : list string) (rs : list rule) : option string :=
  match rs with
  | [] => None
  | r :: rs' =>
      match rule_column r with
      | Some c =>
          match resolve cols c with
          | Some _ => first_missing cols rs'
          | None => Some c
          end
      | None => first_missing cols rs'
      end
  end.

(** The result a rule gives on a dataset, whatever the builder holds. *)
Definition yields (df : DataFrame) (r : rule) (x : ExpectationResult.t)
  : Prop :=
  add_rule (DataValidator_init df "") r
  = Ok (append (DataValidator_init df "") x).

End RuleVocabulary.


Section CleanRecords.
Context `{SparkSession}.

(** A weather record that no weather rule objects to. Humidity may be null:
    no rule asks for it to be present. *)
Definition weather_clean (r : row) : Prop :=
  cell r "city" <> VNull /\ cell r "timestamp" <> VNull
  /\ cell r "temperature_c" <> VNull
  /\ ~ out_of_range (-90) 60 (cell r "temperature_c")
  /\ ~ out_of_range 0 100 (cell r "humidity_pct").

(** A sensor record that no sensor rule objects to. *)
Definition sensor_clean (r : row) : Prop :=
  cell r "sensor_id" <> VNull /\ cell r "city" <> VNull
  /\ cell r "timestamp" <> VNull /\ cell r "temperature_c" <> VNull
  /\ ~ out_of_range (-50) 60 (cell r "temperature_c")
  /\ ~ out_of_range 0 100 (cell r "humidity_pct")
  /\ ~ out_of_range 0 500 (cell r "aqi")
  /\ ~ out_of_range 0 100 (cell r "battery_level").

End CleanRecords.


(** Two worlds that give the job the same inputs: the same raw storage and
    the same catalog. *)
Definition same_inputs (w w' : World) : Prop :=
  json_source w = json_source w' /\ sql_answer w = sql_answer w'.

(** A sequence of overwriting Parquet writes, applied in order; each
    leaves a dataset at its path, or nothing when it failed. *)
Definition leave (m : gmap string ParquetDataset)
    (op : string * option ParquetDataset) : gmap string ParquetDataset :=
  match snd op with
  | Some d => <[fst op := d]> m
  | None => delete (fst op) m
  end.

Definition overwrite (ops : list (string * option ParquetDataset))
    (m : gmap string ParquetDataset) : gmap string ParquetDataset :=
  fold_left leave ops m.

(** A step whose outcome and writes are decided by the inputs alone, and
    which leaves the inputs as they are. *)
Definition regular {A : Type} (m : M A) : Prop :=
  forall w w', same_inputs w w' ->
    snd (m w) = snd (m w')
    /\ same_inputs (fst (m w)) w
    /\ exists ops, written (fst (m w)) = overwrite ops (written w)
                   /\ written (fst (m w')) = overwrite ops (written w').

(** A step that leaves the commit flag as it found it. *)
Definition keeps_commit {A : Type} (m : M A) : Prop :=
  forall w, committed (fst (m w)) = committed w.

Definition is_ok {A : Type} (r : result A) : bool :=
  match r with Ok _ => true | Raise _ => false end.

(** The statements of the job. *)
Definition use_statement (args : Args) : string :=
  "USE `" +:+ DATABASE_NAME args +:+ "`".
Definition repair_weather (db : string) : string :=
  "MSCK REPAIR TABLE `" +:+ db +:+ "`.curated_weather".
Definition repair_sensors (db : string) : string :=
  "MSCK REPAIR TABLE `" +:+ db +:+ "`.curated_sensor_readings".

(** The records the two variants log between validation and transform. *)
Definition weather_report_log (report : Report.t) : list log_record :=
  mkLog "transform_weather" INFO "Weather validation: %s" [ArgJson report]
  :: (if Report.success report then []
      else [mkLog "transform_weather" ERROR
              "Weather data validation FAILED. Check validation details." []]).

Definition sensor_report_log (report : Report.t) : list log_record :=
  mkLog "transform_iot_sensors" INFO "IoT sensor validation: %s"
    [ArgJson report]
  :: (if Report.success report then []
      else [mkLog "transform_iot_sensors" ERROR
              "IoT sensor data validation FAILED. Check validation details."
              []]).


(** A sensor dataset whose identifiers are integers. *)
Definition numeric_ids_df : DataFrame :=
  mkDataFrame (columns sensors_df)
    [<["sensor_id" := VLong 7]> sensor_a; <["sensor_id" := VLong 8]> sensor_b].

(** The world [lake] with a catalog that refuses one statement. *)
Definition refusing (statement : string) (w : World) : World :=
  mkWorld (json_source w) (written w)
    (fun s => if String.eqb s statement
              then Raise (OtherError "catalog unavailable") else Ok tt)
    (issued w) (log w) (committed w).

(** *** Vocabulary for the sensor generator *)

(** The measurements of a reading lie in the ranges of the sensor rules. *)
Definition in_rule_ranges (d : StreamGenerate.Draw) : Prop :=
  ((-50 <= StreamGenerate.temperature_c d
    /\ StreamGenerate.temperature_c d <= 60)
   /\ (0 <= StreamGenerate.humidity_pct d
       /\ StreamGenerate.humidity_pct d <= 100)
   /\ (0 <= StreamGenerate.aqi d /\ StreamGenerate.aqi d <= 500)
   /\ (0 <= StreamGenerate.battery_level d
       /\ StreamGenerate.battery_level d <= 100))%Q.

(** The classification by battery level alone. *)
Definition battery_score (b : Q) : value :=
  if Q_leb 50 b then PASS else if Q_leb 20 b then WARN else FAIL.

(** One reading in the making: the city, the index of the sensor, what is
    drawn and the clock reading. *)
Definition emission : Type :=
  StreamGenerate.City * Z * StreamGenerate.Random * ustring.

Section GeneratorVocabulary.
Context `{StreamGenerate.Python}.

Definition sensor_id_of (e : emission) : ustring :=
  let '(city, i, _, _) := e in
  StreamGenerate.generate_sensor_id (StreamGenerate.name city) i.

(** The measurements of the reading. *)
Definition draw_of (e : emission) : StreamGenerate.Draw :=
  let '(city, _, r, _) := e in StreamGenerate.measurements city r.

Definition reading_of (e : emission) : row :=
  let '(city, i, d, now) := e in
  StreamGenerate.generate_reading
    (StreamGenerate.generate_sensor_id (StreamGenerate.name city) i)
    city d now.

(** The [Data] of the record the handler builds for sensor [i] of [city] as
    its [k]-th reading. *)
Definition record_data (s : StreamGenerate.Surroundings)
    (city : StreamGenerate.City) (i k : nat) : ustring :=
  StreamGenerate.dumps s
    (reading_of (city, Z.of_nat i, StreamGenerate.draws s k,
                 StreamGenerate.clock s k))
  ++ [uchar_of_ascii "010"].

End GeneratorVocabulary.


(** *** Vocabulary for the weather ingest *)

(** The [time] array of a response, empty when a key is absent. *)
Definition times_of (weather_data : BatchIngest.WeatherData) : list value :=
  match BatchIngest.hourly weather_data with
  | Some h => default [] (BatchIngest.time h)
  | None => []
  end.

(** One of the four measurement arrays of a response. *)
Definition series_of (field : BatchIngest.Hourly -> option (list value))
    (weather_data : BatchIngest.WeatherData) : list value :=
  match BatchIngest.hourly weather_data with
  | Some h => default [] (field h)
  | None => []
  end.

(** The entries of an array of a response are of one JSON type: apart from
    nulls they are all strings, all integers, or all numbers with a
    fraction. *)
Definition one_type (l : list value) : Prop :=
  Forall (fun v => v = VNull \/ exists s, v = VStr s) l
  \/ Forall (fun v => v = VNull \/ exists n, v = VLong n) l
  \/ Forall (fun v => v = VNull \/ exists q, v = VNum q) l.

(** The state after [n] more readings of the clock. *)
Definition ticked (n : nat) (st : BatchIngest.State) : BatchIngest.State :=
  BatchIngest.mkState (BatchIngest.objects st) (BatchIngest.log st)
    (BatchIngest.requests st) (BatchIngest.ticks st + n)
    (BatchIngest.uuids st).

(** The answers to the requests of a run that starts with request [k]. *)
Fixpoint answers (s : BatchIngest.Surroundings) (k : nat)
    (CITIES : list BatchIngest.City) : list BatchIngest.fetched :=
  match CITIES with
  | [] => []
  | city :: rest => BatchIngest.urlopen s k city :: answers s (S k) rest
  end.

Definition unreachable (a : BatchIngest.fetched) : bool :=
  match a with BatchIngest.Unreachable => true | _ => false end.

Definition crashes (a : BatchIngest.fetched) : bool :=
  match a with BatchIngest.Failure _ => true | _ => false end.

(** The number of records an answer gives. *)
Definition records_in (a : BatchIngest.fetched) : nat :=
  match a with
  | BatchIngest.Body weather_data => length (times_of weather_data)
  | _ => 0
  end.

Definition has_records (a : BatchIngest.fetched) : bool :=
  negb (records_in a =? 0)%nat.

Definition total_in (l : list BatchIngest.fetched) : nat :=
  fold_right (fun a n => (records_in a + n)%nat) 0%nat l.

(** A key of the day's partition of the raw weather prefix. *)
Definition in_partition (date_str key : ustring) : Prop :=
  exists stem,
    key = ustr "raw/weather/date=" ++ date_str ++ ustr "/" ++ stem
          ++ ustr ".json".


(** *** Examples for the two lambdas *)

(** Rounding to [ndigits] decimals on exact numbers, a tie going to the
    even neighbour. *)
Definition round_half_even (x : Q) (ndigits : Z) : Q :=
  let p := inject_Z (10 ^ Z.abs ndigits) in
  let y := (if 0 <=? ndigits then x * p else x / p)%Q in
  let f := Qfloor y in
  let d := (y - inject_Z f)%Q in
  let n := if Q_ltb d (1 # 2) then f
           else if Q_ltb (1 # 2) d then f + 1
           else if Z.even f then f else f + 1 in
  Qred (if 0 <=? ndigits then inject_Z n / p else inject_Z n * p)%Q.

(** Python for the worked examples: [str.lower] on the ASCII letters (the
    names of the examples are ASCII), the length of a string for its hash,
    and exact arithmetic (the numbers of the examples are small integers,
    on which binary floating point is exact). *)
Definition ascii_lower : StreamGenerate.Python :=
  {| StreamGenerate.lower :=
       map (fun u =>
              if (N.leb 65 (code u) && N.leb (code u) 90)%bool
              then uchar_of_ascii (ascii_of_N (code u + 32))
              else u);
     StreamGenerate.hash := fun s => Z.of_nat (length s);
     StreamGenerate.float_add := fun x y => Qred (x + y);
     StreamGenerate.float_round := round_half_even |}.

(** A reading of sensor 0 of Austin. *)
Definition steady : StreamGenerate.Random :=
  StreamGenerate.mkRandom 1 50 25 75 150 StreamGenerate.First 80.

Definition austin_emission : emission :=
  (StreamGenerate.mkCity (ustr "Austin"), 0, steady,
   ustr "2024-01-01T00:00:00+00:00").

(** Two cities of the ingest and a response with one hour. *)
Definition austin_city : BatchIngest.City :=
  BatchIngest.mkCity (ustr "Austin") (3027 # 100) (-9774 # 100).
Definition boston_city : BatchIngest.City :=
  BatchIngest.mkCity (ustr "Boston") (4236 # 100) (-7106 # 100).

Definition one_hour : BatchIngest.WeatherData :=
  BatchIngest.mkWeatherData
    (Some (BatchIngest.mkHourly
             (Some [VStr (ustr "2024-01-01T00:00")])
             (Some [VNum 20]) (Some [VNum 50]) (Some [VNum 10])
             (Some [VNum 0]))).

(** Surroundings in which the first request is answered with [one_hour] and
    every later one fails with [URLError]; S3 answers with [put]. *)
Definition open_meteo (put : result unit) : BatchIngest.Surroundings :=
  BatchIngest.mkSurroundings
    (fun k _ => if (k =? 0)%nat then BatchIngest.Body one_hour
                else BatchIngest.Unreachable)
    (fun _ => BatchIngest.mkInstant (ustr "2024-01-01T06:00:00+00:00")
                                    (ustr "2024-01-01"))
    (fun _ => ustr "0123456789abcdef0123456789abcdef")
    (fun _ => ustr "{}")
    (fun _ _ => put).

Definition fresh : BatchIngest.State := BatchIngest.mkState [] [] 0 0 0.


(** *** Facts about the hash *)

Lemma hex_digit_lower (x : Z) : In (SHA256.hex_digit (Z.land x 0xF)) lower_hex.
Proof.
  assert (Hr : 0 <= Z.land x 0xF < 16).
  { change 0xF with (Z.ones 4). rewrite Z.land_ones by lia.
    apply Z.mod_pos_bound. lia. }
  unfold SHA256.hex_digit.
  assert (Hn : (Z.to_nat (Z.land x 0xF) < 16)%nat) by lia.
  revert Hn. generalize (Z.to_nat (Z.land x 0xF)). intros n Hn.
  do 16 (destruct n as [|n]; [simpl; tauto|]). lia.
Qed.

Lemma hex_of_bytes_lower (bs : list Z) :
  Forall (fun u => In u lower_hex) (flat_map SHA256.hex_of_byte bs)
  /\ length (flat_map SHA256.hex_of_byte bs) = (2 * length bs)%nat.
Proof.
  induction bs as [|b bs [IH1 IH2]]; simpl.
  - split; [constructor | reflexivity].
  - split.
    + constructor; [apply hex_digit_lower|].
      constructor; [apply hex_digit_lower | exact IH1].
    + rewrite IH2. lia.
Qed.

Lemma round_length (st : list Z) (kw : Z * Z) :
  length st = 8%nat -> length (SHA256.round st kw) = 8%nat.
Proof.
  intros Hl.
  do 8 (destruct st as [|? st]; [discriminate|]).
  destruct st; [reflexivity | discriminate].
Qed.

Lemma rounds_length (kws : list (Z * Z)) (st : list Z) :
  length st = 8%nat -> length (fold_left SHA256.round kws st) = 8%nat.
Proof.
  revert st. induction kws as [|kw kws IH]; intros st Hl; simpl; [exact Hl|].
  apply IH, round_length, Hl.
Qed.

Lemma compress_length (h block : list Z) :
  length h = 8%nat -> length (SHA256.compress h block) = 8%nat.
Proof.
  intros Hl. unfold SHA256.compress.
  rewrite length_map, length_combine, rounds_length by exact Hl. lia.
Qed.

Lemma blocks_length (blocks : list (list Z)) (h : list Z) :
  length h = 8%nat -> length (fold_left SHA256.compress blocks h) = 8%nat.
Proof.
  revert h. induction blocks as [|b blocks IH]; intros h Hl; simpl; [exact Hl|].
  apply IH, compress_length, Hl.
Qed.

Lemma be_bytes_length (n : nat) (x : Z) : length (SHA256.be_bytes n x) = n.
Proof. induction n as [|n IH]; simpl; [reflexivity | now rewrite IH]. Qed.

Lemma flat_map_be_bytes_length (h : list Z) :
  length (flat_map (SHA256.be_bytes 4) h) = (4 * length h)%nat.
Proof.
  induction h as [|x h IH]; [reflexivity|].
  cbn [flat_map]. rewrite length_app, be_bytes_length, IH. simpl. lia.
Qed.

Lemma digest_length (msg : list Z) : length (SHA256.digest msg) = 32%nat.
Proof.
  unfold SHA256.digest.
  rewrite flat_map_be_bytes_length, blocks_length; reflexivity.
Qed.

Lemma hexdigest_lower (msg : list Z) :
  Forall (fun u => In u lower_hex) (SHA256.hexdigest msg)
  /\ length (SHA256.hexdigest msg) = 64%nat.
Proof.
  unfold SHA256.hexdigest.
  destruct (hex_of_bytes_lower (SHA256.digest msg)) as [H1 H2].
  split; [exact H1|]. rewrite H2, digest_length. reflexivity.
Qed.

(** The implementation agrees with the published digests of the empty
    message, of ["abc"] and of a message that needs two blocks. *)
Example sha256_empty :
  SHA256.hexdigest (utf8_encode (ustr "")) =
  ustr "e3b0c44298fc1c149afbf4c8996fb92427ae41e4649b934ca495991b7852b855".
Proof. vm_compute. reflexivity. Qed.

Example sha256_abc :
  SHA256.hexdigest (utf8_encode (ustr "abc")) =
  ustr "ba7816bf8f01cfea414140de5dae2223b00361a396177a9cb410ff61f20015ad".
Proof. vm_compute. reflexivity. Qed.

Example sha256_two_blocks :
  SHA256.hexdigest
    (utf8_encode (ustr "abcdbcdecdefdefgefghfghighijhijkijkljklmklmnlmnomnopnopq")) =
  ustr "248d6a61d20638b8e5c026930c3e6039a33ce45964ff2167f6ecedd419db06c1".
Proof. vm_compute. reflexivity. Qed.

(** A string outside ASCII: U+00E9, U+20AC, U+1F600 encode to 2, 3 and 4
    bytes. *)
Example utf8_multibyte :
  utf8_encode [UChar 0xE9 eq_refl; UChar 0x20AC eq_refl; UChar 0x1F600 eq_refl]
  = [0xC3; 0xA9; 0xE2; 0x82; 0xAC; 0xF0; 0x9F; 0x98; 0x80].
Proof. reflexivity. Qed.

(** C3. [pseudonymize_column] returns [None] for [None]; for every string
    [s] it returns the SHA-256 hexadecimal digest of the UTF-8 encoding of
    [s], which is 64 lowercase hexadecimal digits. The result is a function
    of the argument alone: nothing else (no salt, no state) enters the
    definition. *)
Theorem pseudonymize_column_spec :
  pseudonymize_column VNull = Ok VNull
  /\ (forall s : ustring,
        pseudonymize_column (VStr s)
        = Ok (VStr (SHA256.hexdigest (utf8_encode s)))
        /\ Forall (fun u => In u lower_hex) (SHA256.hexdigest (utf8_encode s))
        /\ length (SHA256.hexdigest (utf8_encode s)) = 64%nat)
  /\ pseudonymize_column (VStr (ustr "abc"))
     = Ok (VStr (ustr "ba7816bf8f01cfea414140de5dae2223b00361a396177a9cb410ff61f20015ad")).
Proof.
  split; [reflexivity|]. split.
  - intros s. split; [reflexivity|]. apply hexdigest_lower.
  - unfold pseudonymize_column. now rewrite sha256_abc.
Qed.

(** *** The validation report *)

Lemma filter_length_le {A : Type} (p : A -> bool) (l : list A) :
  (length (List.filter p l) <= length l)%nat.
Proof.
  induction l as [|x l IH]; simpl; [lia|]. destruct (p x); simpl; lia.
Qed.

Lemma filter_length_all {A : Type} (p : A -> bool) (l : list A) :
  length (List.filter p l) = length l <-> Forall (fun x => p x = true) l.
Proof.
  induction l as [|x l IH]; simpl.
  - split; [constructor | reflexivity].
  - destruct (p x) eqn:Hp; simpl.
    + split.
      * intros Hl. constructor; [exact Hp|]. apply IH. lia.
      * intros Hall. inversion Hall; subst. f_equal. now apply IH.
    + split.
      * intros Hl. pose proof (filter_length_le p l). lia.
      * intros Hall. inversion Hall; congruence.
Qed.

(** C10. A builder to which no rule was added reports 0 evaluated, 0 passed,
    0 failed and success. *)
Theorem validate_no_rules (df : DataFrame) (dataset_name : string) :
  let report := validate (DataValidator_init df dataset_name) in
  Report.expectations_evaluated report = 0
  /\ Report.expectations_passed report = 0
  /\ Report.expectations_failed report = 0
  /\ Report.success report = true
  /\ Report.results report = []
  /\ Report.dataset report = dataset_name.
Proof. repeat split. Qed.

(** *** Facts about the data frame operations *)
Section SparkFacts.
Context `{SparkSession}.

Lemma Q_leb_le (x y : Q) : Q_leb x y = true <-> (x <= y)%Q.
Proof. apply Qle_bool_iff. Qed.

Lemma Q_ltb_lt (x y : Q) : Q_ltb x y = true <-> (x < y)%Q.
Proof.
  unfold Q_ltb. rewrite negb_true_iff, <- not_true_iff_false, Qle_bool_iff.
  split; [apply Qnot_le_lt | apply Qlt_not_le].
Qed.

(** **** Names *)

Lemma same_name_true (a b : string) :
  same_name a b = true <-> fold_name a = fold_name b.
Proof. unfold same_name. apply String.eqb_eq. Qed.

Lemma same_name_refl (a : string) : same_name a a = true.
Proof. now apply same_name_true. Qed.

Lemma same_name_sym (a b : string) : same_name a b = same_name b a.
Proof. unfold same_name. apply String.eqb_sym. Qed.

Lemma same_name_trans (a b c : string) :
  same_name a b = true -> same_name b c = true -> same_name a c = true.
Proof. rewrite !same_name_true. congruence. Qed.

Lemma same_name_plain (a b : string) :
  is_plain a = true -> is_plain b = true -> lowered a <> lowered b ->
  same_name a b = false.
Proof.
  intros Ha Hb Hne. apply not_true_iff_false. intros Hs.
  apply same_name_true in Hs. now apply Hne, fold_name_plain.
Qed.

(** A column that matches one name does not match a name apart from it. *)
Lemma same_name_apart (a b c : string) :
  same_name a b = false -> same_name a c = true -> same_name b c = false.
Proof.
  intros Hab Hac. apply not_true_iff_false. intros Hbc.
  rewrite same_name_sym in Hbc.
  now rewrite (same_name_trans a c b Hac Hbc) in Hab.
Qed.

Lemma resolve_exact (cols : list string) (c : string) :
  c ∈ cols -> resolve cols c = Some c.
Proof. intros Hc. unfold resolve. now rewrite decide_True. Qed.

Lemma resolve_Some (cols : list string) (c f : string) :
  resolve cols c = Some f -> f ∈ cols /\ same_name c f = true.
Proof.
  unfold resolve. destruct (decide (c ∈ cols)) as [Hc|Hc].
  - intros [= <-]. split; [exact Hc | apply same_name_refl].
  - intros Hf. apply find_some in Hf. destruct Hf as [Hin Hs].
    split; [now apply list_elem_of_In | exact Hs].
Qed.

Lemma resolve_None (cols : list string) (c : string) :
  resolve cols c = None <-> Forall (fun f => same_name c f = false) cols.
Proof.
  unfold resolve. split.
  - destruct (decide (c ∈ cols)); [discriminate|].
    intros Hf. apply List.Forall_forall. intros f Hin.
    exact (find_none _ _ Hf f Hin).
  - intros Hall. rewrite List.Forall_forall in Hall.
    destruct (decide (c ∈ cols)) as [Hc|Hc].
    + apply list_elem_of_In, Hall in Hc. now rewrite same_name_refl in Hc.
    + destruct (find (same_name c) cols) as [f|] eqn:Hf; [|reflexivity].
      apply find_some in Hf. destruct Hf as [Hin Hs].
      now rewrite (Hall f Hin) in Hs.
Qed.

Lemma bound_name_exact (cols : list string) (c : string) :
  c ∈ cols -> bound_name cols c = c.
Proof. intros Hc. unfold bound_name. now rewrite resolve_exact. Qed.

Lemma bound_name_Some (cols : list string) (c f : string) :
  resolve cols c = Some f -> bound_name cols c = f.
Proof. intros Hr. unfold bound_name. now rewrite Hr. Qed.

(** **** Analysis *)

Lemma unresolved_nil (names cols : list string) :
  Forall (fun c => is_Some (resolve cols c)) names -> unresolved names cols = [].
Proof.
  unfold unresolved. induction 1 as [|c names [f Hc] _ IH]; [reflexivity|].
  cbn [List.filter]. now rewrite Hc.
Qed.

Lemma analyse_resolved (names cols : list string) :
  Forall (fun c => is_Some (resolve cols c)) names ->
  analyse names cols = Ok tt.
Proof. intros Hn. unfold analyse. now rewrite unresolved_nil. Qed.

Lemma analyse_unresolved (c : string) (names cols : list string) :
  resolve cols c = None ->
  analyse (c :: names) cols = Raise (AnalysisException c).
Proof.
  intros Hc. unfold analyse, unresolved. cbn [List.filter].
  now rewrite Hc.
Qed.

Lemma exact_resolve (names cols : list string) :
  Forall (fun c => c ∈ cols) names ->
  Forall (fun c => is_Some (resolve cols c)) names.
Proof.
  intros Hn. eapply List.Forall_impl; [|exact Hn].
  intros c Hc. rewrite (resolve_exact _ _ Hc). now eexists.
Qed.

(** **** Filters *)

Lemma traverse_total {A B : Type} (f : A -> result B) (g : A -> B)
    (l : list A) :
  (forall x, In x l -> f x = Ok (g x)) -> traverse f l = Ok (map g l).
Proof.
  induction l as [|x l IH]; intros Hf; [reflexivity|].
  cbn [traverse map]. rewrite (Hf x) by (left; reflexivity).
  cbn. rewrite IH by (intros y Hy; apply Hf; right; exact Hy). reflexivity.
Qed.

Lemma concat_keep (p : row -> option bool) (l : list row) :
  concat (map (fun r => match p r with Some true => [r] | _ => [] end) l)
  = List.filter (fun r => holds (p r)) l.
Proof.
  induction l as [|r l IH]; [reflexivity|].
  cbn [map concat List.filter]. rewrite IH.
  destruct (p r) as [[]|]; reflexivity.
Qed.

Lemma filter_total (df : DataFrame) (c : Cond) (p : row -> option bool) :
  Forall (fun n => is_Some (resolve (columns df) n)) (refs_cond c) ->
  (forall r, eval_cond (bound_cond (columns df) c) r = Ok (p r)) ->
  filter df c
  = Ok (mkDataFrame (columns df) (List.filter (fun r => holds (p r)) (rows df))).
Proof.
  intros Hc Hp. unfold filter. rewrite analyse_resolved by exact Hc. cbn.
  rewrite (traverse_total _ (fun r => match p r with Some true => [r] | _ => [] end)).
  - cbn. now rewrite concat_keep.
  - intros r _. unfold keep. rewrite Hp. reflexivity.
Qed.

Lemma filter_unresolved (df : DataFrame) (c : Cond) (n : string)
    (names : list string) :
  refs_cond c = n :: names -> resolve (columns df) n = None ->
  filter df c = Raise (AnalysisException n).
Proof.
  intros Hr Hn. unfold filter. rewrite Hr, analyse_unresolved by exact Hn.
  reflexivity.
Qed.

(** **** Rows *)

Lemma lookup_without (name : string) (r : row) (k : string) :
  without name r !! k = if same_name name k then None else r !! k.
Proof.
  unfold without. destruct (same_name name k) eqn:Hs.
  - apply map_lookup_filter_None_2. right. intros x _. cbn. congruence.
  - destruct (r !! k) as [x|] eqn:Hk.
    + apply map_lookup_filter_Some_2; [exact Hk | exact Hs].
    + apply map_lookup_filter_None_2. now left.
Qed.

Lemma lookup_put (name : string) (v : value) (r : row) (k : string) :
  put name v r !! k
  = if decide (k = name) then Some v
    else if same_name name k then None else r !! k.
Proof.
  unfold put. destruct (decide (k = name)) as [->|Hk].
  - apply lookup_insert_eq.
  - rewrite lookup_insert_ne by congruence. apply lookup_without.
Qed.

Lemma lookup_put_eq (name : string) (v : value) (r : row) :
  put name v r !! name = Some v.
Proof. rewrite lookup_put. now rewrite decide_True. Qed.

Lemma lookup_put_apart (name : string) (v : value) (r : row) (k : string) :
  same_name name k = false -> put name v r !! k = r !! k.
Proof.
  intros Hs. rewrite lookup_put, Hs. destruct (decide (k = name)) as [->|];
    [|reflexivity].
  now rewrite same_name_refl in Hs.
Qed.

Lemma lookup_without_apart (name : string) (r : row) (k : string) :
  same_name name k = false -> without name r !! k = r !! k.
Proof. intros Hs. now rewrite lookup_without, Hs. Qed.

Lemma lookup_without_same (name : string) (r : row) (k : string) :
  same_name name k = true -> without name r !! k = None.
Proof. intros Hs. now rewrite lookup_without, Hs. Qed.

Lemma cell_put_apart (name : string) (v : value) (r : row) (k : string) :
  same_name name k = false -> cell (put name v r) k = cell r k.
Proof. intros Hs. unfold cell. now rewrite lookup_put_apart. Qed.

Lemma cell_without_apart (name : string) (r : row) (k : string) :
  same_name name k = false -> cell (without name r) k = cell r k.
Proof. intros Hs. unfold cell. now rewrite lookup_without_apart. Qed.

(** **** Schemas *)

Lemma renamed_self (name : string) (cols : list string) :
  name ∈ renamed name cols.
Proof.
  unfold renamed. destruct (existsb (same_name name) cols) eqn:He.
  - apply existsb_exists in He. destruct He as (f & Hin & Hs).
    apply list_elem_of_In, in_map_iff. exists f.
    split; [now rewrite Hs | exact Hin].
  - apply elem_of_app. right. now apply list_elem_of_singleton.
Qed.

Lemma renamed_apart (name : string) (cols : list string) (c : string) :
  same_name name c = false -> c ∈ renamed name cols <-> c ∈ cols.
Proof.
  intros Hs. unfold renamed.
  destruct (existsb (same_name name) cols).
  - rewrite !list_elem_of_In, in_map_iff. split.
    + intros (f & Hf & Hin). destruct (same_name name f) eqn:Hnf.
      * subst c. now rewrite same_name_refl in Hs.
      * now subst f.
    + intros Hin. exists c. now rewrite Hs.
  - rewrite elem_of_app, list_elem_of_singleton. split; [|tauto].
    intros [Hin| ->]; [exact Hin|]. now rewrite same_name_refl in Hs.
Qed.

Lemma find_renamed (name : string) (cols : list string) (c : string) :
  same_name name c = false ->
  find (same_name c) (renamed name cols) = find (same_name c) cols.
Proof.
  intros Hs.
  assert (Hcn : same_name c name = false) by now rewrite same_name_sym.
  unfold renamed. destruct (existsb (same_name name) cols).
  - induction cols as [|f cols IH]; [reflexivity|].
    cbn [map find]. destruct (same_name name f) eqn:Hnf.
    + rewrite Hcn.
      now rewrite (same_name_apart name c f Hs Hnf).
    + now rewrite IH.
  - induction cols as [|f cols IH]; cbn [app find].
    + now rewrite Hcn.
    + now rewrite IH.
Qed.

Lemma resolve_renamed (name : string) (cols : list string) (c : string) :
  same_name name c = false ->
  resolve (renamed name cols) c = resolve cols c.
Proof.
  intros Hs. unfold resolve. rewrite find_renamed by exact Hs.
  destruct (decide (c ∈ renamed name cols)) as [Hc|Hc];
    destruct (decide (c ∈ cols)) as [Hc'|Hc']; try reflexivity.
  - now apply renamed_apart in Hc.
  - now apply (renamed_apart name cols c Hs) in Hc'.
Qed.

Lemma dropped_apart (name : string) (cols : list string) (c : string) :
  c ∈ List.filter (fun f => negb (same_name name f)) cols
  <-> c ∈ cols /\ same_name name c = false.
Proof.
  rewrite !list_elem_of_In, filter_In, negb_true_iff. tauto.
Qed.

Lemma resolve_dropped (name : string) (cols : list string) (c : string) :
  same_name name c = false ->
  resolve (List.filter (fun f => negb (same_name name f)) cols) c
  = resolve cols c.
Proof.
  intros Hs. unfold resolve.
  assert (Hfind : find (same_name c)
                    (List.filter (fun f => negb (same_name name f)) cols)
                  = find (same_name c) cols).
  { induction cols as [|f cols IH]; [reflexivity|].
    cbn [List.filter find]. destruct (same_name name f) eqn:Hnf; cbn [negb].
    - now rewrite (same_name_apart name c f Hs Hnf).
    - cbn [find]. now rewrite IH. }
  rewrite Hfind.
  destruct (decide (c ∈ List.filter (fun f => negb (same_name name f)) cols))
    as [Hc|Hc]; destruct (decide (c ∈ cols)) as [Hc'|Hc']; try reflexivity.
  - apply dropped_apart in Hc. tauto.
  - exfalso. apply Hc, dropped_apart. tauto.
Qed.

(** **** Plans *)

Lemma withColumn_total (p : Plan) (rs : list row) (name : string)
    (e : Column) (g : row -> value) :
  Forall (fun n => is_Some (resolve (schema p) n)) (refs e) ->
  run p = Ok rs ->
  (forall r, In r rs -> eval (bound (schema p) e) r = Ok (g r)) ->
  withColumn p name e
  = Ok (mkPlan (renamed name (schema p))
               (Ok (map (fun r => put name (g r) r) rs))).
Proof.
  intros Hc Hrun Hg. unfold withColumn.
  rewrite analyse_resolved by exact Hc. rewrite Hrun. cbn.
  rewrite (traverse_total _ (fun r => put name (g r) r)); [reflexivity|].
  intros r Hr. rewrite (Hg r Hr). reflexivity.
Qed.

End SparkFacts.

(** Two names of the job that are not equal ignoring case. *)
Ltac apart :=
  apply same_name_plain; [reflexivity | reflexivity | discriminate].

(** *** Rule sequences *)
Section Builder.
Context `{SparkSession}.

Lemma add_rule_appends (self self' : DataValidator) (r : rule) :
  add_rule self r = Ok self' ->
  exists x, self' = append self x.
Proof.
  destruct r as [c|c lo hi|n]; cbn [add_rule].
  - unfold expect_column_values_to_not_be_null.
    destruct (filter _ _) as [d|e]; cbn; [|discriminate].
    intros [= <-]. eexists. reflexivity.
  - unfold expect_column_values_to_be_between.
    destruct (filter _ _) as [d|e]; cbn; [|discriminate].
    intros [= <-]. eexists. reflexivity.
  - unfold expect_table_row_count_to_be_greater_than.
    intros [= <-]. eexists. reflexivity.
Qed.

Lemma add_rules_results (rs : list rule) (self self' : DataValidator) :
  add_rules self rs = Ok self' ->
  length (results self') = (length (results self) + length rs)%nat
  /\ dataset_name self' = dataset_name self
  /\ df self' = df self.
Proof.
  revert self. induction rs as [|r rs IH]; intros self; cbn [add_rules].
  - intros [= <-]. cbn. repeat split. lia.
  - destruct (add_rule self r) as [v|e] eqn:Hr; cbn; [|discriminate].
    intros Hrs. destruct (add_rule_appends _ _ _ Hr) as (x & ->).
    destruct (IH _ Hrs) as (Hl & Hn & Hd).
    rewrite Hl, Hn, Hd. cbn. rewrite length_app. cbn. repeat split. lia.
Qed.

(** C2. For every builder state the report of [validate] has
    passed + failed = evaluated with both counts non-negative, and its
    success flag is exactly [failed == 0], which holds exactly when every
    accumulated result succeeded. When the state was reached by adding a
    sequence of rules to a new builder for a dataset, evaluated is the
    number of rules added. *)
Theorem validate_counts (self : DataValidator) :
  let report := validate self in
  Report.expectations_passed report + Report.expectations_failed report
    = Report.expectations_evaluated report
  /\ 0 <= Report.expectations_passed report
  /\ 0 <= Report.expectations_failed report
  /\ Report.success report = (Report.expectations_failed report =? 0)
  /\ (Report.success report = true
      <-> Forall (fun r => ExpectationResult.success r = true) (results self))
  /\ (forall (df : DataFrame) (dataset_name : string) (rules : list rule),
        add_rules (DataValidator_init df dataset_name) rules = Ok self ->
        Report.expectations_evaluated report = Z.of_nat (length rules)
        /\ Report.dataset report = dataset_name).
Proof.
  cbn -[Z.of_nat Z.sub Z.eqb].
  pose proof (filter_length_le ExpectationResult.success (results self)) as Hle.
  split; [lia|]. split; [lia|]. split; [lia|]. split; [reflexivity|].
  split; [split|].
  - intros He. apply Z.eqb_eq in He. apply filter_length_all. lia.
  - intros Hall. apply Z.eqb_eq. apply filter_length_all in Hall. lia.
  - intros df0 name rs Hrs.
    destruct (add_rules_results _ _ _ Hrs) as (Hl & Hn & _).
    rewrite Hl, Hn. cbn. split; reflexivity.
Qed.

End Builder.

(** *** The expectation rules *)
Section Rules.
Context `{SparkSession}.

Lemma out_of_rangeb_spec (lo hi : Q) (v : value) :
  out_of_rangeb lo hi v = true <-> out_of_range lo hi v.
Proof.
  unfold out_of_rangeb, out_of_range.
  destruct (as_num DoubleType v) as [x|].
  - rewrite orb_true_iff, !Q_ltb_lt. split.
    + intros Hx. exists x. split; [reflexivity | exact Hx].
    + intros (y & [= <-] & Hy). exact Hy.
  - split; [discriminate | intros (y & [=] & _)].
Qed.

Lemma between_cond (cols : list string) (column c : string) (lo hi : Q)
    (r : row) :
  resolve cols column = Some c ->
  eval_cond (bound_cond cols (Or (LessThan (Col column) (DoubleLit lo))
                                 (GreaterThan (Col column) (DoubleLit hi)))) r
  = Ok (or3 (compare Q_ltb (cell r c) (DoubleLit lo))
            (compare (fun x y => Q_ltb y x) (cell r c) (DoubleLit hi))).
Proof.
  intros Hr. cbn [bound_cond bound]. rewrite (bound_name_Some _ _ _ Hr).
  reflexivity.
Qed.

Lemma between_holds (lo hi : Q) (v : value) :
  holds (or3 (compare Q_ltb v (DoubleLit lo))
             (compare (fun x y => Q_ltb y x) v (DoubleLit hi)))
  = out_of_rangeb lo hi v.
Proof.
  unfold compare, out_of_rangeb. cbn [lit_type lit_num].
  destruct (as_num DoubleType v) as [x|]; [|reflexivity]. cbn.
  destruct (Q_ltb x lo), (Q_ltb hi x); reflexivity.
Qed.

Lemma filter_exists {A : Type} (p : A -> bool) (l : list A) :
  (Z.of_nat (length (List.filter p l)) =? 0) = false
  <-> exists x, In x l /\ p x = true.
Proof.
  rewrite Z.eqb_neq. split.
  - intros Hn. destruct (List.filter p l) as [|x l'] eqn:Hf; [simpl in Hn; lia|].
    exists x. apply filter_In. rewrite Hf. left. reflexivity.
  - intros (x & Hx & Hp).
    assert (Hin : In x (List.filter p l)) by (apply filter_In; tauto).
    destruct (List.filter p l); [destruct Hin | simpl; lia].
Qed.

(** [between] on a schema in which the name resolves to the column [c]. *)
Lemma between_result (self : DataValidator) (column c : string)
    (min_value max_value : Q) :
  resolve (columns (df self)) column = Some c ->
  exists r,
    expect_column_values_to_be_between self column min_value max_value
    = Ok (append self r)
    /\ (ExpectationResult.success r = false
        <-> exists record, In record (rows (df self))
              /\ out_of_range min_value max_value (cell record c))
    /\ dict_get "out_of_range_count" (ExpectationResult.details r)
       = Some (DInt (how_many
            (fun record => out_of_rangeb min_value max_value (cell record c))
            (df self)))
    /\ dict_get "total_count" (ExpectationResult.details r)
       = Some (DInt (count (df self))).
Proof.
  intros Hc. unfold expect_column_values_to_be_between.
  assert (Hsome : is_Some (resolve (columns (df self)) column))
    by (rewrite Hc; now eexists).
  assert (Hrefs : Forall (fun n => is_Some (resolve (columns (df self)) n))
            (refs_cond (Or (LessThan (Col column) (DoubleLit min_value))
                           (GreaterThan (Col column) (DoubleLit max_value)))))
    by (constructor; [exact Hsome | constructor; [exact Hsome | constructor]]).
  rewrite (filter_total (df self) _ _ Hrefs
             (fun r => between_cond _ column c min_value max_value r Hc)).
  cbn [mbind result_bind]. eexists. split; [reflexivity|].
  cbn [ExpectationResult.success ExpectationResult.details dict_get String.eqb
       Ascii.eqb Bool.eqb].
  unfold count at 1 2. cbn [rows].
  rewrite (filter_ext _ (fun r => out_of_rangeb min_value max_value (cell r c)))
    by (intros r; apply between_holds).
  repeat split.
  - intros Hs. apply filter_exists in Hs. destruct Hs as (r & Hr & Hp).
    exists r. split; [exact Hr | now apply out_of_rangeb_spec].
  - intros (r & Hr & Hp). apply filter_exists. exists r.
    split; [exact Hr | now apply out_of_rangeb_spec].
Qed.


Lemma not_null_cond (cols : list string) (column c : string) (r : row) :
  resolve cols column = Some c ->
  eval_cond (bound_cond cols (IsNull (Col column))) r
  = Ok (Some (is_null (cell r c))).
Proof.
  intros Hr. cbn [bound_cond bound]. rewrite (bound_name_Some _ _ _ Hr).
  reflexivity.
Qed.

Lemma is_null_spec (v : value) : is_null v = true <-> v = VNull.
Proof. destruct v; simpl; split; congruence. Qed.

(** [not_null] on a schema in which the name resolves to the column [c]. *)
Lemma not_null_result (self : DataValidator) (column c : string) :
  resolve (columns (df self)) column = Some c ->
  exists r,
    expect_column_values_to_not_be_null self column = Ok (append self r)
    /\ (ExpectationResult.success r = false
        <-> exists record, In record (rows (df self))
              /\ cell record c = VNull)
    /\ dict_get "null_count" (ExpectationResult.details r)
       = Some (DInt (how_many (fun record => is_null (cell record c))
                              (df self))).
Proof.
  intros Hc. unfold expect_column_values_to_not_be_null.
  assert (Hrefs : Forall (fun n => is_Some (resolve (columns (df self)) n))
            (refs_cond (IsNull (Col column))))
    by (constructor; [rewrite Hc; now eexists | constructor]).
  rewrite (filter_total (df self) _ _ Hrefs
             (fun r => not_null_cond _ column c r Hc)).
  cbn [mbind result_bind]. eexists. split; [reflexivity|].
  cbn [ExpectationResult.success ExpectationResult.details dict_get
       String.eqb Ascii.eqb Bool.eqb holds].
  unfold count at 1 2. cbn [rows].
  rewrite (filter_ext _ (fun r => is_null (cell r c)))
    by (intros r; cbn; now destruct (is_null (cell r c))).
  repeat split.
  - intros Hs. apply filter_exists in Hs. destruct Hs as (r & Hr & Hp).
    exists r. split; [exact Hr | now apply is_null_spec].
  - intros (r & Hr & Hp). apply filter_exists. exists r.
    split; [exact Hr | now apply is_null_spec].
Qed.

Lemma not_null_raises (self : DataValidator) (column : string) :
  resolve (columns (df self)) column = None ->
  expect_column_values_to_not_be_null self column
  = Raise (AnalysisException column).
Proof.
  intros Hc. unfold expect_column_values_to_not_be_null.
  now rewrite (filter_unresolved _ (IsNull (Col column)) column [] eq_refl Hc).
Qed.

Lemma between_raises (self : DataValidator) (column : string) (lo hi : Q) :
  resolve (columns (df self)) column = None ->
  expect_column_values_to_be_between self column lo hi
  = Raise (AnalysisException column).
Proof.
  intros Hc. unfold expect_column_values_to_be_between.
  now rewrite (filter_unresolved _
                 (Or (LessThan (Col column) (DoubleLit lo))
                     (GreaterThan (Col column) (DoubleLit hi)))
                 column [column] eq_refl Hc).
Qed.


End Rules.


(** *** The quality classification *)
Section Quality.
Context `{SparkSession}.

Lemma quality_score_bound (cols : list string) (r : row) :
  eval (bound cols quality_score) r = Ok (score_of cols r).
Proof.
  unfold quality_score, score_of, classify.
  cbn [bound bound_cond eval eval_cond mbind result_bind].
  destruct (and3 _ _) as [[]|]; [reflexivity| |];
    destruct (compare _ _ (IntLit 20)) as [[]|]; reflexivity.
Qed.

Lemma quality_score_eval (r : row) :
  eval quality_score r
  = Ok (classify (cell r "battery_level") (cell r "temperature_c")
                 (cell r "humidity_pct") (cell r "aqi")).
Proof.
  unfold quality_score, classify.
  cbn [eval eval_cond mbind result_bind].
  destruct (and3 _ _) as [[]|]; [reflexivity| |];
    destruct (compare _ _ (IntLit 20)) as [[]|]; reflexivity.
Qed.

Lemma scores_distinct : PASS <> WARN /\ PASS <> FAIL /\ WARN <> FAIL.
Proof. repeat split; intros Heq; vm_compute in Heq; discriminate. Qed.

Lemma Q_leb_false (x y : Q) : Q_leb x y = false <-> ~ (x <= y)%Q.
Proof. rewrite <- Q_leb_le. destruct (Q_leb x y); split; congruence. Qed.

Lemma is_null_false (v : value) : is_null v = false <-> v <> VNull.
Proof. rewrite <- is_null_spec. destruct (is_null v); split; congruence. Qed.

Lemma null_battery_fails (r : row) :
  cell r "battery_level" = VNull -> eval quality_score r = Ok FAIL.
Proof.
  intros Hb. rewrite quality_score_eval, Hb. unfold classify. cbn.
  destruct (is_null (cell r "temperature_c")), (is_null (cell r "humidity_pct")),
           (is_null (cell r "aqi")); reflexivity.
Qed.

(** C4. The quality score of a record is PASS exactly when its battery level
    is at least 50 and temperature, humidity and air-quality index are all
    non-null; otherwise WARN exactly when the battery level is at least 20;
    otherwise FAIL. A null (or absent) battery level reaches neither
    threshold and gives FAIL; no case raises. *)
Theorem quality_score_spec (r : row) :
  (eval quality_score r = Ok PASS <-> battery_at_least 50 r /\ complete r)
  /\ (eval quality_score r = Ok WARN
      <-> ~ (battery_at_least 50 r /\ complete r) /\ battery_at_least 20 r)
  /\ (eval quality_score r = Ok FAIL
      <-> ~ (battery_at_least 50 r /\ complete r) /\ ~ battery_at_least 20 r)
  /\ eval quality_score (<["battery_level" := VNull]> r) = Ok FAIL
  /\ eval quality_score (delete "battery_level" r) = Ok FAIL.
Proof.
  destruct scores_distinct as (Hpw & Hpf & Hwf).
  assert (Hcases :
    (eval quality_score r = Ok PASS /\ battery_at_least 50 r /\ complete r)
    \/ (eval quality_score r = Ok WARN
        /\ ~ (battery_at_least 50 r /\ complete r) /\ battery_at_least 20 r)
    \/ (eval quality_score r = Ok FAIL
        /\ ~ (battery_at_least 50 r /\ complete r) /\ ~ battery_at_least 20 r)).
  { rewrite quality_score_eval.
    unfold classify, battery_at_least, complete, compare.
    cbn [lit_type lit_num].
    destruct (as_num IntegerType (cell r "battery_level")) as [x|];
      cbn [mbind option_bind].
    - destruct (Q_leb (inject_Z 50) x) eqn:H50;
        [apply Q_leb_le in H50 | apply Q_leb_false in H50];
      (destruct (Q_leb (inject_Z 20) x) eqn:H20;
        [apply Q_leb_le in H20 | apply Q_leb_false in H20]);
      (destruct (is_null (cell r "temperature_c")) eqn:Ht;
        [apply is_null_spec in Ht | apply is_null_false in Ht]);
      (destruct (is_null (cell r "humidity_pct")) eqn:Hh;
        [apply is_null_spec in Hh | apply is_null_false in Hh]);
      (destruct (is_null (cell r "aqi")) eqn:Ha;
        [apply is_null_spec in Ha | apply is_null_false in Ha]);
      cbn;
      first
        [ left; split; [reflexivity|]; split;
          [eexists; split; [reflexivity | assumption] | repeat split; assumption]
        | right; left; split; [reflexivity|]; split;
          [ intros [(y & [= <-] & Hy) (? & ? & ?)]; contradiction
          | eexists; split; [reflexivity | assumption] ]
        | right; right; split; [reflexivity|]; split;
          [ intros [(y & [= <-] & Hy) (? & ? & ?)]; contradiction
          | intros (y & [= <-] & Hy); contradiction ] ].
    - right. right.
      destruct (is_null (cell r "temperature_c")),
               (is_null (cell r "humidity_pct")), (is_null (cell r "aqi"));
        cbn; (split; [reflexivity|]; split;
              [intros [(y & [=] & _) _] | intros (y & [=] & _)]). }
  split; [|split; [|split; [|split]]].
  - destruct Hcases as [(He & Hp)|[(He & Hn & _)|(He & Hn & _)]];
      rewrite He; split; try tauto; intros [= Heq]; congruence.
  - destruct Hcases as [(He & Hp)|[(He & Hn & Hw)|(He & Hn & Hw)]];
      rewrite He; split; try tauto; intros [= Heq]; congruence.
  - destruct Hcases as [(He & Hp)|[(He & Hn & Hw)|(He & Hn & Hw)]];
      rewrite He; split; try tauto; intros [= Heq]; congruence.
  - apply null_battery_fails. unfold cell. now rewrite lookup_insert_eq.
  - apply null_battery_fails. unfold cell. now rewrite lookup_delete_eq.
Qed.

End Quality.


(** *** The column transforms *)
Section Curate.
Context `{SparkSession}.

Lemma substring_prefix (s : ustring) : substring_sql s 1 10 = firstn 10 s.
Proof.
  unfold substring_sql. cbn [Z.ltb Z.compare Z.sub Z.add Z.opp Z.pos_sub Z.leb
                             Z.max orb].
  destruct s as [|u s]; [reflexivity|].
  replace (Z.of_nat (length (u :: s)) <=? 0) with false
    by (symmetry; apply Z.leb_gt; simpl length; lia).
  reflexivity.
Qed.

Lemma fahrenheit_eval (c : string) (r : row) :
  eval (Round (Add (Divide (Multiply (Col c) (IntLit 9))
                           (IntLit 5)) (IntLit 32)) 2) r
  = Ok (fahrenheit (cell r c)).
Proof. reflexivity. Qed.

Lemma date_eval (c : string) (r : row) :
  eval (Substring (Col c) 1 10) r = Ok (date_of (cell r c)).
Proof.
  unfold date_of. cbn [eval mbind result_bind].
  destruct (as_str (cell r c)) as [s|]; cbn; [|reflexivity].
  now rewrite substring_prefix.
Qed.

Lemma lookup_map {A B : Type} (f : A -> B) (l : list A) (i : nat) :
  map f l !! i = f <$> l !! i.
Proof.
  revert i. induction l as [|x l IH]; intros [|i]; try reflexivity.
  cbn. apply IH.
Qed.

(** A column that a name of the job resolves to matches no other name of
    the job. *)
Lemma bound_name_same (cols : list string) (c : string) :
  is_Some (resolve cols c) -> same_name c (bound_name cols c) = true.
Proof.
  intros [f Hf]. rewrite (bound_name_Some _ _ _ Hf).
  now apply resolve_Some in Hf.
Qed.

Lemma bound_name_apart (cols : list string) (name c : string) :
  is_Some (resolve cols c) -> same_name c name = false ->
  same_name name (bound_name cols c) = false.
Proof.
  intros Hr Hs. apply (same_name_apart c name _ Hs).
  now apply bound_name_same.
Qed.

Lemma bound_name_renamed (name : string) (cols : list string) (c : string) :
  same_name name c = false ->
  bound_name (renamed name cols) c = bound_name cols c.
Proof. intros Hs. unfold bound_name. now rewrite resolve_renamed. Qed.

(** **** Plans *)

Lemma withColumn_plan (p : Plan) (name : string) (e : Column) :
  Forall (fun n => is_Some (resolve (schema p) n)) (refs e) ->
  withColumn p name e
  = Ok (mkPlan (renamed name (schema p))
          (rs ← run p;
           traverse (fun r => v ← eval (bound (schema p) e) r;
                              Ok (put name v r)) rs)).
Proof.
  intros Hc. unfold withColumn. now rewrite analyse_resolved.
Qed.

Lemma withColumn_raises (p : Plan) (name : string) (e : Column)
    (c : string) (names : list string) :
  refs e = c :: names -> resolve (schema p) c = None ->
  withColumn p name e = Raise (AnalysisException c).
Proof.
  intros He Hc. unfold withColumn. rewrite He.
  now rewrite analyse_unresolved.
Qed.

Lemma traverse_ext {A B : Type} (f g : A -> result B) (l : list A) :
  (forall x, f x = g x) -> traverse f l = traverse g l.
Proof.
  intros Hfg. induction l as [|x l IH]; [reflexivity|].
  cbn [traverse]. now rewrite Hfg, IH.
Qed.

Lemma traverse_pure {A B : Type} (g : A -> B) (l : list A) :
  traverse (fun x => Ok (g x)) l = Ok (map g l).
Proof. apply traverse_total. reflexivity. Qed.

(** A fallible step followed by a step that cannot fail. *)
Lemma traverse_then {A B C : Type} (f : A -> result B) (g : B -> C)
    (l : list A) :
  (rs ← traverse f l; traverse (fun y => Ok (g y)) rs)
  = traverse (fun x => y ← f x; Ok (g y)) l.
Proof.
  induction l as [|x l IH]; [reflexivity|].
  cbn [traverse]. destruct (f x) as [y|e]; [|reflexivity].
  cbn [mbind result_bind]. rewrite <- IH.
  destruct (traverse f l) as [ys|e]; [|reflexivity].
  cbn [mbind result_bind traverse]. rewrite traverse_pure. reflexivity.
Qed.

Lemma traverse_then_map {A B C : Type} (f : A -> result B) (g : B -> C)
    (l : list A) :
  (rs ← traverse f l; Ok (map g rs))
  = traverse (fun x => y ← f x; Ok (g y)) l.
Proof.
  rewrite <- traverse_then. destruct (traverse f l) as [ys|e]; [|reflexivity].
  cbn [mbind result_bind]. now rewrite traverse_pure.
Qed.

(** A step raises on some element, and raises nothing else on any. *)
Lemma traverse_raises {A B : Type} (f : A -> result B) (l : list A)
    (e : exn) :
  Exists (fun x => f x = Raise e) l ->
  Forall (fun x => forall e', f x = Raise e' -> e' = e) l ->
  traverse f l = Raise e.
Proof.
  induction l as [|x l IH]; intros Hex Hall.
  - inversion Hex.
  - inversion Hall as [|? ? Hx Hl]; subst. cbn [traverse].
    destruct (f x) as [y|e'] eqn:Hfx.
    + cbn [mbind result_bind].
      inversion Hex as [? ? Hhere|? ? Hthere]; subst; [congruence|].
      now rewrite (IH Hthere Hl).
    + cbn [mbind result_bind]. now rewrite (Hx e' eq_refl).
Qed.

(** **** Weather *)

Lemma weather_plan_total (raw_df : DataFrame) :
  is_Some (resolve (columns raw_df) "temperature_c") ->
  is_Some (resolve (columns raw_df) "timestamp") ->
  weather_plan raw_df
  = Ok (mkPlan (weather_schema (columns raw_df))
               (Ok (map (weather_record (columns raw_df)) (rows raw_df)))).
Proof.
  intros Ht Hs. unfold weather_plan.
  rewrite (withColumn_total (scan raw_df) (rows raw_df) _ _
             (fun r => fahrenheit
                         (cell r (bound_name (columns raw_df) "temperature_c"))));
    [|constructor; [exact Ht | constructor] | reflexivity
     |intros r _; apply fahrenheit_eval].
  cbn [mbind result_bind scan schema].
  assert (Hts : same_name "temperature_f" "timestamp" = false) by apart.
  erewrite (withColumn_total _ _ _ _
              (fun r => date_of (cell r (bound_name (columns raw_df) "timestamp"))));
    [|constructor; [|constructor] | reflexivity |].
  - unfold weather_schema. cbn [schema]. do 3 f_equal. rewrite map_map.
    apply map_ext. intros r. unfold weather_record.
    rewrite cell_put_apart; [reflexivity|].
    apply bound_name_apart; [exact Hs|]. rewrite same_name_sym. exact Hts.
  - cbn [schema]. now rewrite resolve_renamed.
  - intros r _. cbn [schema bound]. rewrite bound_name_renamed by exact Hts.
    apply date_eval.
Qed.

Lemma curate_weather_resolved (raw_df : DataFrame) :
  is_Some (resolve (columns raw_df) "temperature_c") ->
  is_Some (resolve (columns raw_df) "timestamp") ->
  curate_weather raw_df
  = Ok (mkDataFrame (weather_schema (columns raw_df))
                    (map (weather_record (columns raw_df)) (rows raw_df))).
Proof.
  intros Ht Hs. unfold curate_weather.
  now rewrite (weather_plan_total raw_df Ht Hs).
Qed.

Lemma is_Some_exact (cols : list string) (c : string) :
  c ∈ cols -> is_Some (resolve cols c).
Proof. intros Hc. rewrite (resolve_exact _ _ Hc). now eexists. Qed.

Lemma curate_weather_total (raw_df : DataFrame) :
  "temperature_c" ∈ columns raw_df -> "timestamp" ∈ columns raw_df ->
  curate_weather raw_df
  = Ok (mkDataFrame (weather_schema (columns raw_df))
                    (map (weather_record (columns raw_df)) (rows raw_df))).
Proof.
  intros Ht Hs. apply curate_weather_resolved; now apply is_Some_exact.
Qed.

Lemma weather_record_fields (cols : list string) (r : row) :
  weather_record cols r !! "temperature_f"
  = Some (fahrenheit (cell r (bound_name cols "temperature_c")))
  /\ weather_record cols r !! "date"
     = Some (date_of (cell r (bound_name cols "timestamp")))
  /\ forall c, apart_from ["temperature_f"; "date"] c ->
               weather_record cols r !! c = r !! c.
Proof.
  unfold weather_record. split; [|split].
  - rewrite lookup_put_apart by apart. apply lookup_put_eq.
  - apply lookup_put_eq.
  - intros c Hc. inversion Hc as [|? ? Hf Hc']; subst.
    inversion Hc' as [|? ? Hd _]; subst.
    now rewrite !lookup_put_apart.
Qed.

Lemma weather_schema_has (cols : list string) :
  "temperature_f" ∈ weather_schema cols /\ "date" ∈ weather_schema cols
  /\ forall c, apart_from ["temperature_f"; "date"] c ->
               c ∈ weather_schema cols <-> c ∈ cols.
Proof.
  unfold weather_schema. split; [|split].
  - apply renamed_apart; [apart | apply renamed_self].
  - apply renamed_self.
  - intros c Hc. inversion Hc as [|? ? Hf Hc']; subst.
    inversion Hc' as [|? ? Hd _]; subst.
    now rewrite !renamed_apart.
Qed.


(** **** Sensor readings *)

Lemma pseudonymize_textual (v : value) :
  textual v -> pseudonymize_column v = Ok (pseudonym v).
Proof. unfold pseudonym. destruct v; cbn; tauto. Qed.

Lemma pseudonymize_numeric (v : value) :
  numeric v -> pseudonymize_column v = Raise (AttributeError "encode").
Proof. destruct v; cbn; tauto. Qed.

Lemma pseudonymize_raises (v : value) (e : exn) :
  pseudonymize_column v = Raise e -> e = AttributeError "encode".
Proof. destruct v; cbn; congruence. Qed.

(** The names the sensor transform reads, on the schema it reads them. *)
Lemma sensor_inputs_apart :
  Forall (fun c => same_name "sensor_id_hash" c = false
                   /\ same_name "quality_score" c = false
                   /\ same_name "date" c = false)
         sensor_inputs
  /\ Forall (fun c => same_name "sensor_id" c = false)
       ["timestamp"; "temperature_c"; "humidity_pct"; "aqi"; "battery_level"]
  /\ same_name "sensor_id" "sensor_id_hash" = false
  /\ same_name "sensor_id" "quality_score" = false
  /\ same_name "sensor_id" "date" = false
  /\ same_name "sensor_id_hash" "quality_score" = false
  /\ same_name "sensor_id_hash" "date" = false
  /\ same_name "quality_score" "date" = false.
Proof.
  repeat split; repeat constructor; apart.
Qed.

Lemma bind_traverse_pure {A B : Type} (m : result (list A))
    (f : A -> result B) (g : A -> B) :
  (forall x, f x = Ok (g x)) ->
  (rs ← m; traverse f rs) = (rs ← m; Ok (map g rs)).
Proof.
  intros Hfg. destruct m as [l|e]; [|reflexivity].
  cbn [mbind result_bind]. apply traverse_total. intros x _. apply Hfg.
Qed.

Lemma bind_map_map {A B C : Type} (m : result (list A)) (g : A -> B)
    (g' : B -> C) :
  (rs ← (rs ← m; Ok (map g rs)); Ok (map g' rs))
  = (rs ← m; Ok (map (fun x => g' (g x)) rs)).
Proof.
  destruct m as [l|e]; [|reflexivity].
  cbn [mbind result_bind]. now rewrite map_map.
Qed.

Lemma iot_sensors_plan_total (raw_df : DataFrame) :
  Forall (fun c => is_Some (resolve (columns raw_df) c)) sensor_inputs ->
  iot_sensors_plan raw_df
  = Ok (mkPlan (sensor_schema (columns raw_df))
               (traverse (sensor_step (columns raw_df)) (rows raw_df))).
Proof.
  intros Hcols. unfold sensor_inputs in Hcols.
  inversion Hcols as [|? ? Hsid Hc1]; subst.
  inversion Hc1 as [|? ? Hts Hc2]; subst.
  inversion Hc2 as [|? ? Htc Hc3]; subst.
  inversion Hc3 as [|? ? Hhp Hc4]; subst.
  inversion Hc4 as [|? ? Haq Hc5]; subst.
  inversion Hc5 as [|? ? Hbl _]; subst.
  unfold iot_sensors_plan, pseudonymize_udf, sensor_schema, dropped.
  rewrite withColumn_plan by (constructor; [exact Hsid | constructor]).
  cbn [mbind result_bind].
  assert (Hres2 : forall c, same_name "sensor_id_hash" c = false ->
                    same_name "sensor_id" c = false ->
                    resolve (List.filter
                               (fun f => negb (same_name "sensor_id" f))
                               (renamed "sensor_id_hash" (columns raw_df))) c
                    = resolve (columns raw_df) c).
  { intros c H1 H2. rewrite resolve_dropped by exact H2.
    now apply resolve_renamed. }
  assert (Hb2 : forall c, same_name "sensor_id_hash" c = false ->
                  same_name "sensor_id" c = false ->
                  bound_name (List.filter
                                (fun f => negb (same_name "sensor_id" f))
                                (renamed "sensor_id_hash" (columns raw_df))) c
                  = bound_name (columns raw_df) c).
  { intros c H1 H2. unfold bound_name. now rewrite Hres2. }
  rewrite withColumn_plan.
  2:{ cbn [schema drop scan refs refs_cond quality_score app].
      repeat (constructor; [rewrite Hres2 by apart; assumption|]).
      constructor. }
  cbn [mbind result_bind].
  rewrite withColumn_plan.
  2:{ cbn [schema drop scan refs].
      constructor; [|constructor].
      rewrite resolve_renamed by apart. rewrite Hres2 by apart. exact Hts. }
  cbn [schema drop scan run mbind result_bind].
  do 2 f_equal.
  (* the three later steps cannot fail *)
  erewrite (bind_traverse_pure _ _
              (fun r => put "date"
                          (date_of
                             (cell r (bound_name (columns raw_df) "timestamp")))
                          r)).
  2:{ intros r. cbn [bound]. rewrite date_eval.
      rewrite bound_name_renamed by apart. rewrite Hb2 by apart.
      reflexivity. }
  erewrite (bind_traverse_pure _ _
              (fun r => put "quality_score"
                          (score_of
                             (List.filter
                                (fun f => negb (same_name "sensor_id" f))
                                (renamed "sensor_id_hash" (columns raw_df)))
                             r)
                          r)).
  2:{ intros r. now rewrite quality_score_bound. }
  rewrite !bind_map_map. rewrite traverse_then_map.
  apply traverse_ext. intros r. unfold sensor_step.
  cbn [bound eval mbind result_bind].
  destruct (pseudonymize_column (cell r (bound_name (columns raw_df) "sensor_id")))
    as [h|e]; [|reflexivity].
  cbn [mbind result_bind]. f_equal. unfold sensor_record_with.
  set (r2 := without "sensor_id" (put "sensor_id_hash" h r)).
  assert (Hcell : forall c, is_Some (resolve (columns raw_df) c) ->
                    same_name c "sensor_id_hash" = false ->
                    same_name c "sensor_id" = false ->
                    cell r2 (bound_name (columns raw_df) c)
                    = cell r (bound_name (columns raw_df) c)).
  { intros c Hc H1 H2. subst r2.
    rewrite cell_without_apart by (now apply bound_name_apart).
    now rewrite cell_put_apart by (now apply bound_name_apart). }
  rewrite cell_put_apart
    by (apply bound_name_apart; [exact Hts | apart]).
  rewrite (Hcell "timestamp" Hts) by apart.
  f_equal. f_equal. unfold score_of.
  rewrite !Hb2 by apart.
  rewrite (Hcell "battery_level" Hbl), (Hcell "temperature_c" Htc),
          (Hcell "humidity_pct" Hhp), (Hcell "aqi" Haq) by apart.
  reflexivity.
Qed.

Lemma curate_iot_sensors_resolved (raw_df : DataFrame) :
  Forall (fun c => is_Some (resolve (columns raw_df) c)) sensor_inputs ->
  textual_ids raw_df ->
  curate_iot_sensors raw_df
  = Ok (mkDataFrame (sensor_schema (columns raw_df))
                    (map (sensor_record (columns raw_df)) (rows raw_df))).
Proof.
  intros Hcols Hids. unfold curate_iot_sensors.
  rewrite (iot_sensors_plan_total raw_df Hcols).
  cbn [mbind result_bind]. unfold collect. cbn [run schema].
  rewrite (traverse_total _ (sensor_record (columns raw_df)));
    [reflexivity|].
  intros r Hr. unfold sensor_step, sensor_record.
  unfold textual_ids in Hids. rewrite List.Forall_forall in Hids.
  now rewrite (pseudonymize_textual _ (Hids r Hr)).
Qed.

Lemma curate_iot_sensors_total (raw_df : DataFrame) :
  Forall (fun c => c ∈ columns raw_df) sensor_inputs ->
  textual_ids raw_df ->
  curate_iot_sensors raw_df
  = Ok (mkDataFrame (sensor_schema (columns raw_df))
                    (map (sensor_record (columns raw_df)) (rows raw_df))).
Proof.
  intros Hcols. apply curate_iot_sensors_resolved.
  now apply exact_resolve.
Qed.

(** The plan fails in the action when some identifier is a number. *)
Lemma sensor_plan_fails (raw_df : DataFrame) :
  Exists (fun r => numeric (cell r (bound_name (columns raw_df) "sensor_id")))
         (rows raw_df) ->
  traverse (sensor_step (columns raw_df)) (rows raw_df)
  = Raise (AttributeError "encode").
Proof.
  intros Hex. apply traverse_raises.
  - eapply List.Exists_impl; [|exact Hex]. intros r Hr.
    unfold sensor_step. now rewrite (pseudonymize_numeric _ Hr).
  - apply List.Forall_forall. intros r _ e. unfold sensor_step.
    destruct (pseudonymize_column _) as [h|e0] eqn:Hp; cbn; [discriminate|].
    intros [= <-]. exact (pseudonymize_raises _ _ Hp).
Qed.

Lemma sensor_schema_has (cols : list string) :
  Forall (fun c => c ∈ sensor_schema cols)
         ["sensor_id_hash"; "quality_score"; "date"]
  /\ (forall c, c ∈ sensor_schema cols -> same_name "sensor_id" c = false)
  /\ (forall c,
        apart_from ["sensor_id"; "sensor_id_hash"; "quality_score"; "date"] c ->
        c ∈ sensor_schema cols <-> c ∈ cols).
Proof.
  destruct sensor_inputs_apart as (_ & _ & H1 & H2 & H3 & H4 & H5 & H6).
  unfold sensor_schema. split; [|split].
  - repeat constructor.
    + apply renamed_apart; [rewrite same_name_sym; exact H5|].
      apply renamed_apart; [rewrite same_name_sym; exact H4|].
      apply dropped_apart. split; [apply renamed_self | exact H1].
    + apply renamed_apart; [rewrite same_name_sym; exact H6|].
      apply renamed_self.
    + apply renamed_self.
  - intros c Hc.
    destruct (same_name "date" c) eqn:Hd.
    { apply (same_name_apart "date" "sensor_id" c); [|exact Hd].
      now rewrite same_name_sym. }
    apply renamed_apart in Hc; [|exact Hd].
    destruct (same_name "quality_score" c) eqn:Hq.
    { apply (same_name_apart "quality_score" "sensor_id" c); [|exact Hq].
      now rewrite same_name_sym. }
    apply renamed_apart in Hc; [|exact Hq].
    apply dropped_apart in Hc. tauto.
  - intros c Hc.
    inversion Hc as [|? ? Hs Hc1]; subst.
    inversion Hc1 as [|? ? Hh Hc2]; subst.
    inversion Hc2 as [|? ? Hq Hc3]; subst.
    inversion Hc3 as [|? ? Hd _]; subst.
    rewrite !renamed_apart by assumption.
    unfold dropped. rewrite dropped_apart.
    rewrite renamed_apart by assumption. tauto.
Qed.

Lemma sensor_record_fields (cols : list string) (h : value) (r : row) :
  (forall c, same_name "sensor_id" c = true ->
             sensor_record_with cols h r !! c = None)
  /\ sensor_record_with cols h r !! "sensor_id_hash" = Some h
  /\ sensor_record_with cols h r !! "quality_score"
     = Some (score_of cols r)
  /\ sensor_record_with cols h r !! "date"
     = Some (date_of (cell r (bound_name cols "timestamp")))
  /\ forall c,
       apart_from ["sensor_id"; "sensor_id_hash"; "quality_score"; "date"] c ->
       sensor_record_with cols h r !! c = r !! c.
Proof.
  destruct sensor_inputs_apart as (_ & _ & H1 & H2 & H3 & H4 & H5 & H6).
  unfold sensor_record_with. split; [|split; [|split; [|split]]].
  - intros c Hc.
    rewrite lookup_put_apart
      by (apply (same_name_apart "sensor_id" "date" c); assumption).
    rewrite lookup_put_apart
      by (apply (same_name_apart "sensor_id" "quality_score" c); assumption).
    now apply lookup_without_same.
  - rewrite lookup_put_apart by (rewrite same_name_sym; exact H5).
    rewrite lookup_put_apart by (rewrite same_name_sym; exact H4).
    rewrite lookup_without_apart by exact H1.
    apply lookup_put_eq.
  - rewrite lookup_put_apart by (rewrite same_name_sym; exact H6).
    apply lookup_put_eq.
  - apply lookup_put_eq.
  - intros c Hc.
    inversion Hc as [|? ? Hs Hc1]; subst.
    inversion Hc1 as [|? ? Hh Hc2]; subst.
    inversion Hc2 as [|? ? Hq Hc3]; subst.
    inversion Hc3 as [|? ? Hd _]; subst.
    rewrite !lookup_put_apart by assumption.
    rewrite lookup_without_apart by assumption.
    now rewrite lookup_put_apart.
Qed.

(** C9. On a sensor dataset that has the columns the transform reads and
    whose identifiers are strings or null, the transform returns one curated
    record per raw record, in the same order. The curated schema and record
    have no [sensor_id], under that or a name equal to it ignoring case; the
    record has [sensor_id_hash], the SHA-256 hexadecimal digest of the raw
    [sensor_id] (null for a null identifier), [quality_score], the
    classification of the raw record, and [date], the first ten characters
    of [timestamp]. Every field whose name is none of these four, ignoring
    case, is as in the raw record. *)
Theorem curate_iot_sensors_spec (raw_df : DataFrame) :
  Forall (fun c => c ∈ columns raw_df) sensor_inputs ->
  textual_ids raw_df ->
  exists transformed_df,
    curate_iot_sensors raw_df = Ok transformed_df
    /\ ("sensor_id" ∉ columns transformed_df)
    /\ (forall c, c ∈ columns transformed_df ->
                  same_name "sensor_id" c = false)
    /\ Forall (fun c => c ∈ columns transformed_df)
         ["sensor_id_hash"; "quality_score"; "date"]
    /\ (forall c, c ∈ columns raw_df ->
          apart_from ["sensor_id"; "sensor_id_hash"; "quality_score"; "date"]
                     c ->
          c ∈ columns transformed_df)
    /\ length (rows transformed_df) = length (rows raw_df)
    /\ forall (i : nat) (record : row),
         rows raw_df !! i = Some record ->
         exists curated,
           rows transformed_df !! i = Some curated
           /\ curated !! "sensor_id" = None
           /\ (forall c, same_name "sensor_id" c = true -> curated !! c = None)
           /\ (forall s, cell record "sensor_id" = VStr s ->
                 curated !! "sensor_id_hash"
                 = Some (VStr (SHA256.hexdigest (utf8_encode s))))
           /\ (cell record "sensor_id" = VNull ->
               curated !! "sensor_id_hash" = Some VNull)
           /\ (exists q, curated !! "quality_score" = Some q
                         /\ eval quality_score record = Ok q)
           /\ curated !! "date" = Some (date_of (cell record "timestamp"))
           /\ (forall s, cell record "timestamp" = VStr s ->
                 curated !! "date" = Some (VStr (firstn 10 s)))
           /\ forall c : string,
                apart_from
                  ["sensor_id"; "sensor_id_hash"; "quality_score"; "date"] c ->
                curated !! c = record !! c.
Proof.
  intros Hcols Hids. eexists.
  split; [apply curate_iot_sensors_total; assumption|].
  cbn [columns rows].
  destruct (sensor_schema_has (columns raw_df)) as (Hnew & Hnone & Hold).
  split; [|split; [exact Hnone|split; [exact Hnew|split; [|split]]]].
  - intros Hin. apply Hnone in Hin. now rewrite same_name_refl in Hin.
  - intros c Hc Hapart. now apply Hold.
  - apply length_map.
  - intros i record Hi. exists (sensor_record (columns raw_df) record).
    rewrite lookup_map, Hi. split; [reflexivity|].
    unfold sensor_inputs in Hcols.
    inversion Hcols as [|? ? Hsid Hc1]; subst.
    inversion Hc1 as [|? ? Hts Hc2]; subst.
    inversion Hc2 as [|? ? Htc Hc3]; subst.
    inversion Hc3 as [|? ? Hhp Hc4]; subst.
    inversion Hc4 as [|? ? Haq Hc5]; subst.
    inversion Hc5 as [|? ? Hbl _]; subst.
    unfold sensor_record.
    destruct (sensor_record_fields (columns raw_df)
                (pseudonym (cell record
                              (bound_name (columns raw_df) "sensor_id")))
                record)
      as (Hgone & Hhash & Hscore & Hdate & Hframe).
    rewrite (bound_name_exact _ _ Hsid) in *.
    rewrite (bound_name_exact _ _ Hts) in Hdate.
    unfold score_of in Hscore.
    rewrite (bound_name_exact _ _ Hbl), (bound_name_exact _ _ Htc),
            (bound_name_exact _ _ Hhp), (bound_name_exact _ _ Haq) in Hscore.
    split; [apply Hgone, same_name_refl|]. split; [exact Hgone|].
    split; [intros s0 Hs0; rewrite Hhash, Hs0; reflexivity|].
    split; [intros Hnull; rewrite Hhash, Hnull; reflexivity|].
    split; [eexists; split; [exact Hscore | apply quality_score_eval]|].
    split; [exact Hdate|].
    split; [intros s0 Hs0; rewrite Hdate, Hs0; reflexivity|].
    exact Hframe.
Qed.

End Curate.

(** *** The pipeline *)
Section Run.
Context `{SparkSession}.

Lemma keeps_source_ret {A : Type} (a : A) : keeps_source (mret a).
Proof. intros w. reflexivity. Qed.

Lemma keeps_source_bind {A B : Type} (m : M A) (f : A -> M B) :
  keeps_source m -> (forall a, keeps_source (f a)) -> keeps_source (m ≫= f).
Proof.
  intros Hm Hf w. unfold mbind, M_bind. specialize (Hm w).
  destruct (m w) as [w' [a|e]]; cbn in *; [|exact Hm].
  now rewrite Hf.
Qed.

Lemma keeps_source_try {A : Type} (m : M A) (h : exn -> M A) :
  keeps_source m -> (forall e, keeps_source (h e)) ->
  keeps_source (try_except m h).
Proof.
  intros Hm Hh w. unfold try_except. specialize (Hm w).
  destruct (m w) as [w' [a|e]]; cbn in *; [exact Hm|].
  now rewrite Hh.
Qed.

Lemma keeps_source_emit (name : string) (l : level) (fmt : string)
    (args : list log_arg) : keeps_source (emit name l fmt args).
Proof. intros w. reflexivity. Qed.

Lemma keeps_source_lift {A : Type} (r : result A) : keeps_source (lift r).
Proof. intros w. reflexivity. Qed.

Lemma keeps_source_read (path : string) : keeps_source (read_json path).
Proof. intros w. reflexivity. Qed.

Lemma keeps_source_write (d : Plan) (p c path : string) :
  keeps_source (write_parquet d p c path).
Proof. intros w. unfold write_parquet. now destruct (run d). Qed.

Lemma keeps_source_sql (statement : string) : keeps_source (sql statement).
Proof. intros w. reflexivity. Qed.

Lemma keeps_source_commit : keeps_source commit.
Proof. intros w. reflexivity. Qed.

Ltac keeps :=
  repeat first
    [ apply keeps_source_emit | apply keeps_source_lift
    | apply keeps_source_read | apply keeps_source_write
    | apply keeps_source_sql | apply keeps_source_commit
    | apply keeps_source_ret
    | apply keeps_source_bind; [|intros ?]
    | apply keeps_source_try; [|intros ?]
    | match goal with
      | |- keeps_source (if ?b then _ else _) => destruct b
      | |- keeps_source (match ?o with Some _ => _ | None => _ end) =>
          destruct o
      end ].

Lemma transform_weather_keeps_source (bucket db : string) :
  keeps_source (transform_weather bucket db).
Proof. unfold transform_weather, finish_weather. keeps. Qed.

Lemma transform_iot_sensors_keeps_source (bucket db : string) :
  keeps_source (transform_iot_sensors bucket db).
Proof. unfold transform_iot_sensors, finish_iot_sensors. keeps. Qed.

Lemma main_prologue_keeps_source (args : Args) :
  keeps_source (main_prologue args).
Proof. unfold main_prologue. keeps. Qed.

Lemma main_unfold (args : Args) :
  main args
  = (_ ← main_prologue args;
     _ ← transform_weather (DATALAKE_BUCKET args) (DATABASE_NAME args);
     _ ← transform_iot_sensors (DATALAKE_BUCKET args) (DATABASE_NAME args);
     main_epilogue).
Proof. reflexivity. Qed.

Lemma transform_weather_skips (bucket db : string) (w : World) :
  unavailable (json_source w (weather_raw_path bucket)) ->
  transform_weather bucket db w
  = note (weather_skip bucket (json_source w (weather_raw_path bucket))) w.
Proof.
  intros Hu. unfold transform_weather, note, weather_skip, unavailable in *.
  unfold weather_raw_path in *.
  unfold mbind, M_bind, try_except, read_json, emit, mret, M_ret, logged.
  cbn [json_source written sql_answer issued log committed].
  destruct (json_source w _) as [raw_df|e]; cbn.
  - unfold isEmpty. rewrite Hu. cbn. now rewrite <- !app_assoc.
  - now rewrite <- !app_assoc.
Qed.

Lemma transform_iot_sensors_skips (bucket db : string) (w : World) :
  unavailable (json_source w (sensor_raw_path bucket)) ->
  transform_iot_sensors bucket db w
  = note (sensor_skip bucket (json_source w (sensor_raw_path bucket))) w.
Proof.
  intros Hu. unfold transform_iot_sensors, note, sensor_skip, unavailable in *.
  unfold sensor_raw_path in *.
  unfold mbind, M_bind, try_except, read_json, emit, mret, M_ret, logged.
  cbn [json_source written sql_answer issued log committed].
  destruct (json_source w _) as [raw_df|e]; cbn.
  - unfold isEmpty. rewrite Hu. cbn. now rewrite <- !app_assoc.
  - now rewrite <- !app_assoc.
Qed.

(** **** Validation returns a report when the columns are there *)

Lemma not_null_returns (self : DataValidator) (column : string) :
  is_Some (resolve (columns (df self)) column) ->
  exists r, expect_column_values_to_not_be_null self column = Ok (append self r).
Proof.
  intros [c Hc]. destruct (not_null_result self column c Hc) as (r & Hr & _).
  exists r. exact Hr.
Qed.

Lemma between_returns (self : DataValidator) (column : string) (lo hi : Q) :
  is_Some (resolve (columns (df self)) column) ->
  exists r,
    expect_column_values_to_be_between self column lo hi = Ok (append self r).
Proof.
  intros [c Hc]. destruct (between_result self column c lo hi Hc) as (r & Hr & _).
  exists r. exact Hr.
Qed.


Ltac split_columns Hc :=
  repeat match type of Hc with
         | Forall _ (_ :: _) =>
             apply Forall_cons in Hc; let Hx := fresh "Hcol" in
                                      destruct Hc as [Hx Hc]
         end.



Ltac rule_ran Hval :=
  match type of Hval with
  | context [expect_column_values_to_not_be_null ?v ?c] =>
      let Hc := fresh "Hcol" in
      let Hr := fresh "Hr" in
      destruct (resolve (columns (df v)) c) eqn:Hc;
      [ apply mk_is_Some in Hc;
        destruct (not_null_returns v c Hc) as (? & Hr);
        rewrite Hr in Hval; cbn [mbind result_bind] in Hval; clear Hr;
        cbn [df append DataValidator_init] in Hc
      | rewrite (not_null_raises v c Hc) in Hval; discriminate Hval ]
  | context [expect_column_values_to_be_between ?v ?c ?lo ?hi] =>
      let Hc := fresh "Hcol" in
      let Hr := fresh "Hr" in
      destruct (resolve (columns (df v)) c) eqn:Hc;
      [ apply mk_is_Some in Hc;
        destruct (between_returns v c lo hi Hc) as (? & Hr);
        rewrite Hr in Hval; cbn [mbind result_bind] in Hval; clear Hr;
        cbn [df append DataValidator_init] in Hc
      | rewrite (between_raises v c lo hi Hc) in Hval; discriminate Hval ]
  end.

(** A report exists only if every column a rule names resolves. *)
Lemma validate_weather_columns (raw_df : DataFrame) (report : Report.t) :
  validate_weather raw_df = Ok report ->
  Forall (fun c => is_Some (resolve (columns raw_df) c)) weather_inputs.
Proof.
  intros Hval. unfold validate_weather in Hval. repeat rule_ran Hval.
  unfold weather_inputs. repeat (constructor; [assumption|]). constructor.
Qed.

Lemma validate_iot_sensors_columns (raw_df : DataFrame) (report : Report.t) :
  validate_iot_sensors raw_df = Ok report ->
  Forall (fun c => is_Some (resolve (columns raw_df) c)) sensor_rule_inputs.
Proof.
  intros Hval. unfold validate_iot_sensors in Hval. repeat rule_ran Hval.
  unfold sensor_rule_inputs. repeat (constructor; [assumption|]). constructor.
Qed.

(** **** From the report to the curated write *)

Lemma transform_weather_runs (bucket db : string) (w : World)
    (raw_df : DataFrame) (report : Report.t) :
  json_source w (weather_raw_path bucket) = Ok raw_df ->
  rows raw_df <> [] ->
  validate_weather raw_df = Ok report ->
  transform_weather bucket db w
  = finish_weather (weather_curated_path bucket) db raw_df report
      (logged w [mkLog "transform_weather" INFO "Starting weather transform" []]).
Proof.
  intros Hsrc Hne Hval. unfold transform_weather, weather_raw_path in *.
  unfold mbind, M_bind, try_except, read_json, emit, lift, mret, M_ret, logged.
  cbn [json_source]. rewrite Hsrc.
  unfold isEmpty. destruct (rows raw_df) as [|r rs] eqn:Hrows; [congruence|].
  rewrite Hval. reflexivity.
Qed.

Lemma transform_iot_sensors_runs (bucket db : string) (w : World)
    (raw_df : DataFrame) (report : Report.t) :
  json_source w (sensor_raw_path bucket) = Ok raw_df ->
  rows raw_df <> [] ->
  validate_iot_sensors raw_df = Ok report ->
  transform_iot_sensors bucket db w
  = finish_iot_sensors (sensor_curated_path bucket) db raw_df report
      (logged w [mkLog "transform_iot_sensors" INFO
                   "Starting IoT sensor transform" []]).
Proof.
  intros Hsrc Hne Hval. unfold transform_iot_sensors, sensor_raw_path in *.
  unfold mbind, M_bind, try_except, read_json, emit, lift, mret, M_ret, logged.
  cbn [json_source]. rewrite Hsrc.
  unfold isEmpty. destruct (rows raw_df) as [|r rs] eqn:Hrows; [congruence|].
  rewrite Hval. reflexivity.
Qed.

(** The curated data frame is there exactly when the plan is built and
    its run succeeds. *)
Lemma curate_weather_Ok (raw_df curated_df : DataFrame) :
  curate_weather raw_df = Ok curated_df ->
  exists p rs, weather_plan raw_df = Ok p /\ run p = Ok rs
               /\ curated_df = mkDataFrame (schema p) rs.
Proof.
  unfold curate_weather, collect.
  destruct (weather_plan raw_df) as [p|e]; cbn; [|discriminate].
  destruct (run p) as [rs|e] eqn:Hrun; cbn; [|discriminate].
  intros [= <-]. now exists p, rs.
Qed.

Lemma curate_iot_sensors_Ok (raw_df transformed_df : DataFrame) :
  curate_iot_sensors raw_df = Ok transformed_df ->
  exists p rs, iot_sensors_plan raw_df = Ok p /\ run p = Ok rs
               /\ transformed_df = mkDataFrame (schema p) rs.
Proof.
  unfold curate_iot_sensors, collect.
  destruct (iot_sensors_plan raw_df) as [p|e]; cbn; [|discriminate].
  destruct (run p) as [rs|e] eqn:Hrun; cbn; [|discriminate].
  intros [= <-]. now exists p, rs.
Qed.





Lemma main_prologue_runs (args : Args) (w : World) :
  sql_answer w ("USE `" +:+ DATABASE_NAME args +:+ "`") = Ok tt ->
  exists l,
    main_prologue args w
    = (mkWorld (json_source w) (written w) (sql_answer w)
               (issued w ++ ["USE `" +:+ DATABASE_NAME args +:+ "`"])
               (log w ++ l) (committed w), Ok tt).
Proof.
  intros Hsql. unfold main_prologue, mbind, M_bind, emit, sql. cbn.
  rewrite Hsql. eexists. reflexivity.
Qed.

Lemma finish_weather_completes (path db : string)
    (raw_df curated_df : DataFrame) (report : Report.t) (w : World) :
  curate_weather raw_df = Ok curated_df ->
  sql_answer w ("MSCK REPAIR TABLE `" +:+ db +:+ "`.curated_weather") = Ok tt ->
  exists l,
    finish_weather path db raw_df report w
    = (mkWorld (json_source w)
               (<[path := mkParquet ["date"] "snappy" curated_df]> (written w))
               (sql_answer w)
               (issued w ++ ["MSCK REPAIR TABLE `" +:+ db +:+ "`.curated_weather"])
               (log w ++ l) (committed w), Ok tt).
Proof.
  intros Hc Hsql.
  destruct (curate_weather_Ok _ _ Hc) as (p & rs & Hp & Hrun & ->).
  unfold finish_weather.
  unfold mbind, M_bind, emit, lift, write_parquet, sql, mret, M_ret.
  rewrite Hp, Hrun.
  destruct (Report.success report); cbn; rewrite Hsql; cbn;
    rewrite <- !app_assoc; eexists; reflexivity.
Qed.

Lemma finish_iot_sensors_completes (path db : string)
    (raw_df transformed_df : DataFrame) (report : Report.t) (w : World) :
  curate_iot_sensors raw_df = Ok transformed_df ->
  sql_answer w ("MSCK REPAIR TABLE `" +:+ db +:+ "`.curated_sensor_readings")
  = Ok tt ->
  exists l,
    finish_iot_sensors path db raw_df report w
    = (mkWorld (json_source w)
               (<[path := mkParquet ["date"] "snappy" transformed_df]> (written w))
               (sql_answer w)
               (issued w ++ ["MSCK REPAIR TABLE `" +:+ db
                             +:+ "`.curated_sensor_readings"])
               (log w ++ l) (committed w), Ok tt).
Proof.
  intros Hc Hsql.
  destruct (curate_iot_sensors_Ok _ _ Hc) as (p & rs & Hp & Hrun & ->).
  unfold finish_iot_sensors.
  unfold mbind, M_bind, emit, lift, write_parquet, sql, mret, M_ret.
  rewrite Hp, Hrun.
  destruct (Report.success report); cbn; rewrite Hsql; cbn;
    rewrite <- !app_assoc; eexists; reflexivity.
Qed.

(** C7. A variant whose raw dataset has no record, or cannot be read,
    returns normally having written nothing and issued no statement: it only
    logs its start and a warning (empty) or an error (failed read). [main]
    then runs exactly as if that variant were replaced by these two log
    records. In particular, when the other variant's dataset passes through
    its validation and transform and the catalog accepts the statements,
    [main] returns normally, the other variant's curated dataset is the one
    thing written, and the job is committed. *)
Theorem unavailable_dataset_is_skipped (args : Args) (w : World) :
  let bucket := DATALAKE_BUCKET args in
  let db := DATABASE_NAME args in
  (unavailable (json_source w (weather_raw_path bucket)) ->
   let skip := weather_skip bucket (json_source w (weather_raw_path bucket)) in
   transform_weather bucket db w = (logged w skip, Ok tt)
   /\ written (fst (transform_weather bucket db w)) = written w
   /\ issued (fst (transform_weather bucket db w)) = issued w
   /\ main args w
      = (_ ← main_prologue args; _ ← note skip;
         _ ← transform_iot_sensors bucket db; main_epilogue) w
   /\ forall (raw_df transformed_df : DataFrame) (report : Report.t),
        json_source w (sensor_raw_path bucket) = Ok raw_df ->
        rows raw_df <> [] ->
        validate_iot_sensors raw_df = Ok report ->
        curate_iot_sensors raw_df = Ok transformed_df ->
        (forall statement, sql_answer w statement = Ok tt) ->
        snd (main args w) = Ok tt
        /\ committed (fst (main args w)) = true
        /\ written (fst (main args w))
           = <[sensor_curated_path bucket
               := mkParquet ["date"] "snappy" transformed_df]> (written w))
  /\ (unavailable (json_source w (sensor_raw_path bucket)) ->
      let skip := sensor_skip bucket (json_source w (sensor_raw_path bucket)) in
      transform_iot_sensors bucket db w = (logged w skip, Ok tt)
      /\ written (fst (transform_iot_sensors bucket db w)) = written w
      /\ issued (fst (transform_iot_sensors bucket db w)) = issued w
      /\ main args w
         = (_ ← main_prologue args; _ ← transform_weather bucket db;
            _ ← note skip; main_epilogue) w
      /\ forall (raw_df curated_df : DataFrame) (report : Report.t),
           json_source w (weather_raw_path bucket) = Ok raw_df ->
           rows raw_df <> [] ->
           validate_weather raw_df = Ok report ->
           curate_weather raw_df = Ok curated_df ->
           (forall statement, sql_answer w statement = Ok tt) ->
           snd (main args w) = Ok tt
           /\ committed (fst (main args w)) = true
           /\ written (fst (main args w))
              = <[weather_curated_path bucket
                  := mkParquet ["date"] "snappy" curated_df]> (written w)).
Proof.
  cbn zeta.
  assert (Hweather :
    unavailable (json_source w (weather_raw_path (DATALAKE_BUCKET args))) ->
    main args w
    = (_ ← main_prologue args;
       _ ← note (weather_skip (DATALAKE_BUCKET args)
                   (json_source w (weather_raw_path (DATALAKE_BUCKET args))));
       _ ← transform_iot_sensors (DATALAKE_BUCKET args) (DATABASE_NAME args);
       main_epilogue) w).
  { intros Hu. rewrite main_unfold. unfold mbind, M_bind.
    pose proof (main_prologue_keeps_source args w) as Hsrc.
    destruct (main_prologue args w) as [w0 [[]|e]]; [|reflexivity].
    cbn [fst] in Hsrc.
    rewrite transform_weather_skips by (rewrite Hsrc; exact Hu).
    now rewrite Hsrc. }
  assert (Hsensor :
    unavailable (json_source w (sensor_raw_path (DATALAKE_BUCKET args))) ->
    main args w
    = (_ ← main_prologue args;
       _ ← transform_weather (DATALAKE_BUCKET args) (DATABASE_NAME args);
       _ ← note (sensor_skip (DATALAKE_BUCKET args)
                   (json_source w (sensor_raw_path (DATALAKE_BUCKET args))));
       main_epilogue) w).
  { intros Hu. rewrite main_unfold. unfold mbind, M_bind.
    pose proof (main_prologue_keeps_source args w) as Hsrc.
    destruct (main_prologue args w) as [w0 [[]|e]]; [|reflexivity].
    cbn [fst] in Hsrc.
    pose proof (transform_weather_keeps_source
                  (DATALAKE_BUCKET args) (DATABASE_NAME args) w0) as Hsrc'.
    destruct (transform_weather _ _ w0) as [w1 [[]|e]]; [|reflexivity].
    cbn [fst] in Hsrc'.
    rewrite transform_iot_sensors_skips by (rewrite Hsrc', Hsrc; exact Hu).
    now rewrite Hsrc', Hsrc. }
  split; intros Hu.
  - rewrite transform_weather_skips by exact Hu.
    split; [reflexivity|]. split; [reflexivity|]. split; [reflexivity|].
    split; [exact (Hweather Hu)|].
    intros raw_df transformed_df report Hsrc Hne Hval Hcur Hsql.
    assert (Hmain : exists w',
               main args w = (w', Ok tt) /\ committed w' = true
               /\ written w'
                  = <[sensor_curated_path (DATALAKE_BUCKET args)
                      := mkParquet ["date"] "snappy" transformed_df]>
                      (written w)).
    { rewrite (Hweather Hu). unfold mbind, M_bind.
      destruct (main_prologue_runs args w (Hsql _)) as (l0 & ->).
      unfold note. cbn [fst snd].
      erewrite transform_iot_sensors_runs; [|exact Hsrc|exact Hne|exact Hval].
      edestruct (finish_iot_sensors_completes
                   (sensor_curated_path (DATALAKE_BUCKET args))
                   (DATABASE_NAME args) raw_df transformed_df report)
        as (l1 & ->); [exact Hcur|apply Hsql|].
      eexists. split; [reflexivity|]. split; reflexivity. }
    destruct Hmain as (w' & -> & Hcommitted & Hwritten).
    repeat split; assumption.
  - rewrite transform_iot_sensors_skips by exact Hu.
    split; [reflexivity|]. split; [reflexivity|]. split; [reflexivity|].
    split; [exact (Hsensor Hu)|].
    intros raw_df curated_df report Hsrc Hne Hval Hcur Hsql.
    assert (Hmain : exists w',
               main args w = (w', Ok tt) /\ committed w' = true
               /\ written w'
                  = <[weather_curated_path (DATALAKE_BUCKET args)
                      := mkParquet ["date"] "snappy" curated_df]>
                      (written w)).
    { rewrite (Hsensor Hu). unfold mbind, M_bind.
      destruct (main_prologue_runs args w (Hsql _)) as (l0 & ->).
      erewrite transform_weather_runs; [|exact Hsrc|exact Hne|exact Hval].
      edestruct (finish_weather_completes
                   (weather_curated_path (DATALAKE_BUCKET args))
                   (DATABASE_NAME args) raw_df curated_df report)
        as (l1 & ->); [exact Hcur|apply Hsql|].
      eexists. split; [reflexivity|]. split; reflexivity. }
    destruct Hmain as (w' & -> & Hcommitted & Hwritten).
    repeat split; assumption.
Qed.



Lemma sensor_inputs_resolved (cols : list string) :
  Forall (fun c => is_Some (resolve cols c)) sensor_rule_inputs ->
  Forall (fun c => is_Some (resolve cols c)) sensor_inputs.
Proof.
  intros Hcols. unfold sensor_rule_inputs in Hcols. split_columns Hcols.
  unfold sensor_inputs. repeat (constructor; [assumption|]). constructor.
Qed.



End Run.



(** *** Rule sequences: order and errors *)
Section RuleSequences.
Context `{SparkSession}.

Lemma add_rule_yields (self self' : DataValidator) (r : rule) :
  add_rule self r = Ok self'
  <-> exists x, yields (df self) r x /\ self' = append self x.
Proof.
  unfold yields. destruct r as [c|c lo hi|n]; cbn [add_rule].
  - unfold expect_column_values_to_not_be_null. cbn [df DataValidator_init].
    destruct (filter (df self) _) as [d|e]; cbn.
    + split.
      * intros [= <-]. eexists. split; reflexivity.
      * intros (x & [= <-] & ->). reflexivity.
    + split; [discriminate | intros (x & [=] & _)].
  - unfold expect_column_values_to_be_between. cbn [df DataValidator_init].
    destruct (filter (df self) _) as [d|e]; cbn.
    + split.
      * intros [= <-]. eexists. split; reflexivity.
      * intros (x & [= <-] & ->). reflexivity.
    + split; [discriminate | intros (x & [=] & _)].
  - unfold expect_table_row_count_to_be_greater_than.
    cbn [df DataValidator_init]. split.
    + intros [= <-]. eexists. split; reflexivity.
    + intros (x & [= <-] & ->). reflexivity.
Qed.

Lemma add_rules_yields (rs : list rule) (self self' : DataValidator) :
  add_rules self rs = Ok self'
  <-> exists xs, Forall2 (yields (df self)) rs xs
        /\ self' = mkDataValidator (df self) (dataset_name self)
                     (results self ++ xs).
Proof.
  revert self. induction rs as [|r rs IH]; intros self; cbn [add_rules].
  - split.
    + intros [= <-]. exists []. split; [constructor|].
      destruct self; cbn. now rewrite app_nil_r.
    + intros (xs & Hxs & ->). inversion Hxs; subst.
      destruct self; cbn. now rewrite app_nil_r.
  - split.
    + destruct (add_rule self r) as [v|e] eqn:Hr; cbn; [|discriminate].
      intros Hrs. apply add_rule_yields in Hr. destruct Hr as (x & Hx & ->).
      apply IH in Hrs. destruct Hrs as (xs & Hxs & ->).
      exists (x :: xs). split; [constructor; assumption|].
      cbn. now rewrite <- app_assoc.
    + intros (xs & Hxs & ->). inversion Hxs as [|r0 x rs0 xs' Hx Hxs']; subst.
      assert (Hr : add_rule self r = Ok (append self x))
        by (apply add_rule_yields; eauto).
      rewrite Hr. cbn. apply IH. exists xs'. split; [exact Hxs'|].
      cbn. now rewrite <- app_assoc.
Qed.

Lemma yields_permuted (df0 : DataFrame) (rs rs' : list rule)
    (xs : list ExpectationResult.t) :
  rs ≡ₚ rs' -> Forall2 (yields df0) rs xs ->
  exists xs', xs ≡ₚ xs' /\ Forall2 (yields df0) rs' xs'.
Proof.
  intros Hp. revert xs.
  induction Hp as [|r rs rs' Hp IH|r1 r2 rs|rs1 rs2 rs3 Hp1 IH1 Hp2 IH2];
    intros xs Hxs.
  - inversion Hxs; subst. exists []. split; constructor.
  - inversion Hxs as [|? x ? xs0 Hx Hxs0]; subst.
    destruct (IH _ Hxs0) as (xs' & Hperm & Hall).
    exists (x :: xs'). split; constructor; assumption.
  - inversion Hxs as [|? x1 ? xs0 Hx1 Hxs0]; subst.
    inversion Hxs0 as [|? x2 ? xs1 Hx2 Hxs1]; subst.
    exists (x2 :: x1 :: xs1).
    split; [apply perm_swap | repeat constructor; assumption].
  - destruct (IH1 _ Hxs) as (xs2 & Hperm2 & Hall2).
    destruct (IH2 _ Hall2) as (xs3 & Hperm3 & Hall3).
    exists xs3. split; [etransitivity; eassumption | exact Hall3].
Qed.

Lemma filter_length_permuted {A : Type} (p : A -> bool) (l l' : list A) :
  l ≡ₚ l' -> length (List.filter p l) = length (List.filter p l').
Proof.
  induction 1 as [|x l l' _ IH|x y l|l1 l2 l3 _ IH1 _ IH2]; cbn.
  - reflexivity.
  - destruct (p x); cbn; congruence.
  - destruct (p x), (p y); reflexivity.
  - congruence.
Qed.

(** X1. The builder is append-only and the rules do not see each other: a
    sequence of rules that is accepted appends one result per rule, in order,
    each the result the rule gives on the dataset alone. Adding the same
    rules in another order is accepted too, appends the same results in that
    order, and gives a report with the same counters and success flag. *)
Theorem rule_order_is_immaterial (self v : DataValidator)
    (rs rs' : list rule) :
  rs ≡ₚ rs' ->
  add_rules self rs = Ok v ->
  exists (v' : DataValidator) (xs xs' : list ExpectationResult.t),
    add_rules self rs' = Ok v'
    /\ results v = results self ++ xs
    /\ results v' = results self ++ xs'
    /\ Forall2 (yields (df self)) rs xs
    /\ Forall2 (yields (df self)) rs' xs'
    /\ xs ≡ₚ xs'
    /\ verdict (validate v') = verdict (validate v).
Proof.
  intros Hp Hrs. apply add_rules_yields in Hrs. destruct Hrs as (xs & Hxs & ->).
  destruct (yields_permuted _ _ _ _ Hp Hxs) as (xs' & Hperm & Hxs').
  exists (mkDataValidator (df self) (dataset_name self) (results self ++ xs')),
         xs, xs'.
  split; [apply add_rules_yields; eauto|].
  repeat (split; [first [reflexivity | assumption]|]).
  unfold verdict, validate. cbn [results Report.expectations_evaluated
    Report.expectations_passed Report.expectations_failed Report.success].
  assert (Hl : length (results self ++ xs') = length (results self ++ xs))
    by (rewrite !length_app; f_equal; symmetry; apply Permutation_length, Hperm).
  assert (Hf : length (List.filter ExpectationResult.success (results self ++ xs'))
               = length (List.filter ExpectationResult.success (results self ++ xs))).
  { apply filter_length_permuted. apply Permutation_app_head.
    symmetry. exact Hperm. }
  rewrite Hl, Hf. reflexivity.
Qed.

Lemma add_rule_outcome (self : DataValidator) (r : rule) :
  match rule_column r with
  | Some c =>
      match resolve (columns (df self)) c with
      | Some _ => exists x, add_rule self r = Ok (append self x)
      | None => add_rule self r = Raise (AnalysisException c)
      end
  | None => exists x, add_rule self r = Ok (append self x)
  end.
Proof.
  destruct r as [c|c lo hi|n]; cbn [rule_column add_rule].
  - destruct (resolve (columns (df self)) c) as [f|] eqn:Hc.
    + apply not_null_returns. rewrite Hc. now eexists.
    + apply not_null_raises, Hc.
  - destruct (resolve (columns (df self)) c) as [f|] eqn:Hc.
    + apply between_returns. rewrite Hc. now eexists.
    + apply between_raises, Hc.
  - eexists. reflexivity.
Qed.

Lemma add_rules_first_missing (self : DataValidator) (rs : list rule) :
  match first_missing (columns (df self)) rs with
  | Some c =>
      add_rules self rs = Raise (AnalysisException c)
      /\ resolve (columns (df self)) c = None
      /\ Forall (fun f => same_name c f = false) (columns (df self))
      /\ exists r, In r rs /\ rule_column r = Some c
  | None =>
      exists v, add_rules self rs = Ok v
                /\ df v = df self
                /\ length (results v)
                   = (length (results self) + length rs)%nat
  end.
Proof.
  revert self. induction rs as [|r rs IH]; intros self;
    cbn [first_missing add_rules].
  - exists self. cbn. repeat split. lia.
  - pose proof (add_rule_outcome self r) as Hr.
    destruct (rule_column r) as [c|] eqn:Hc.
    + destruct (resolve (columns (df self)) c) as [f|] eqn:Hres.
      * destruct Hr as (x & ->). cbn. specialize (IH (append self x)).
        cbn [df append] in IH.
        destruct (first_missing (columns (df self)) rs) as [c'|].
        -- destruct IH as (-> & Hno & Hall & r' & Hr' & Hc').
           split; [reflexivity|]. split; [exact Hno|]. split; [exact Hall|].
           exists r'. split; [right; exact Hr' | exact Hc'].
        -- destruct IH as (v & -> & Hd & Hl). exists v.
           split; [reflexivity|]. split; [exact Hd|].
           rewrite Hl. cbn. rewrite length_app. cbn. lia.
      * rewrite Hr. cbn. split; [reflexivity|]. split; [exact Hres|].
        split; [now apply resolve_None|].
        exists r. split; [left; reflexivity | exact Hc].
    + destruct Hr as (x & ->). cbn. specialize (IH (append self x)).
      cbn [df append] in IH.
      destruct (first_missing (columns (df self)) rs) as [c'|].
      * destruct IH as (-> & Hno & Hall & r' & Hr' & Hc').
        split; [reflexivity|]. split; [exact Hno|]. split; [exact Hall|].
        exists r'. split; [right; exact Hr' | exact Hc'].
      * destruct IH as (v & -> & Hd & Hl). exists v.
        split; [reflexivity|]. split; [exact Hd|].
        rewrite Hl. cbn. rewrite length_app. cbn. lia.
Qed.



Lemma validate_iot_sensors_as_rules (raw_df : DataFrame) :
  validate_iot_sensors raw_df
  = (v ← add_rules (DataValidator_init raw_df "raw_iot_sensors") sensor_rules;
     Ok (validate v)).
Proof.
  unfold validate_iot_sensors, sensor_rules. cbn [add_rules add_rule].
  repeat match goal with
         | |- context [expect_column_values_to_not_be_null ?v ?c] =>
             destruct (expect_column_values_to_not_be_null v c);
             cbn [mbind result_bind]; [|reflexivity]
         | |- context [expect_column_values_to_be_between ?v ?c ?lo ?hi] =>
             destruct (expect_column_values_to_be_between v c lo hi);
             cbn [mbind result_bind]; [|reflexivity]
         end.
  reflexivity.
Qed.

End RuleSequences.


(** *** When validation succeeds *)
Section ValidationOutcome.
Context `{SparkSession}.

Lemma validate_success (self : DataValidator) :
  Report.success (validate self) = true
  <-> Forall (fun r => ExpectationResult.success r = true) (results self).
Proof.
  cbn -[Z.of_nat Z.sub Z.eqb].
  pose proof (filter_length_le ExpectationResult.success (results self)) as Hle.
  rewrite Z.eqb_eq, <- filter_length_all. lia.
Qed.

Lemma validate_failed_le (self : DataValidator) (n : nat) :
  (n <= length (List.filter ExpectationResult.success (results self)))%nat ->
  Report.expectations_failed (validate self)
  <= Z.of_nat (length (results self)) - Z.of_nat n.
Proof. cbn -[Z.of_nat Z.sub]. lia. Qed.

Lemma not_null_passes (self : DataValidator) (column : string) :
  column ∈ columns (df self) ->
  exists r,
    expect_column_values_to_not_be_null self column = Ok (append self r)
    /\ (ExpectationResult.success r = true
        <-> Forall (fun record => cell record column <> VNull) (rows (df self))).
Proof.
  intros Hc.
  destruct (not_null_result self column column (resolve_exact _ _ Hc))
    as (r & Hr & Hs & _).
  exists r. split; [exact Hr|]. rewrite List.Forall_forall. split.
  - intros Ht record Hin Hnull.
    assert (Hf : ExpectationResult.success r = false)
      by (apply Hs; exists record; tauto).
    congruence.
  - intros Hall. destruct (ExpectationResult.success r) eqn:Hsucc; [reflexivity|].
    destruct (proj1 Hs eq_refl) as (record & Hin & Hnull).
    now destruct (Hall record Hin).
Qed.

Lemma between_passes (self : DataValidator) (column : string) (lo hi : Q) :
  column ∈ columns (df self) ->
  exists r,
    expect_column_values_to_be_between self column lo hi = Ok (append self r)
    /\ (ExpectationResult.success r = true
        <-> Forall (fun record => ~ out_of_range lo hi (cell record column))
              (rows (df self))).
Proof.
  intros Hc.
  destruct (between_result self column column lo hi (resolve_exact _ _ Hc))
    as (r & Hr & Hs & _).
  exists r. split; [exact Hr|]. rewrite List.Forall_forall. split.
  - intros Ht record Hin Hout.
    assert (Hf : ExpectationResult.success r = false)
      by (apply Hs; exists record; tauto).
    congruence.
  - intros Hall. destruct (ExpectationResult.success r) eqn:Hsucc; [reflexivity|].
    destruct (proj1 Hs eq_refl) as (record & Hin & Hout).
    now destruct (Hall record Hin).
Qed.

Lemma row_count_passes (self : DataValidator) :
  exists r,
    expect_table_row_count_to_be_greater_than self 0 = Ok (append self r)
    /\ ExpectationResult.expectation_type r
       = "expect_table_row_count_to_be_greater_than"
    /\ (ExpectationResult.success r = true <-> rows (df self) <> []).
Proof.
  eexists. split; [reflexivity|]. split; [reflexivity|].
  cbn [ExpectationResult.success]. unfold count. rewrite Z.ltb_lt.
  destruct (rows (df self)); cbn; split; intros; try lia; congruence.
Qed.

Ltac each_column Hc :=
  repeat match type of Hc with
         | Forall _ (_ :: _) =>
             apply Forall_cons in Hc; let Hx := fresh "Hcol" in
                                      destruct Hc as [Hx Hc]
         end.

Ltac pass_not_null c r E S :=
  match goal with
  | |- context [expect_column_values_to_not_be_null ?v c] =>
      destruct (not_null_passes v c) as (r & E & S);
      [cbn [df append DataValidator_init]; assumption|];
      rewrite E; cbn [mbind result_bind]; clear E;
      cbn [df append DataValidator_init rows] in S
  end.

Ltac pass_between c r E S :=
  match goal with
  | |- context [expect_column_values_to_be_between ?v c ?lo ?hi] =>
      destruct (between_passes v c lo hi) as (r & E & S);
      [cbn [df append DataValidator_init]; assumption|];
      rewrite E; cbn [mbind result_bind]; clear E;
      cbn [df append DataValidator_init rows] in S
  end.

Ltac pass_row_count r E T S :=
  match goal with
  | |- context [expect_table_row_count_to_be_greater_than ?v 0] =>
      destruct (row_count_passes v) as (r & E & T & S);
      rewrite E; cbn [mbind result_bind]; clear E;
      cbn [df append DataValidator_init rows] in S
  end.

Lemma validate_weather_report (raw_df : DataFrame) :
  Forall (fun c => c ∈ columns raw_df) weather_inputs ->
  exists r1 r2 r3 r4 r5 r6,
    validate_weather raw_df
    = Ok (validate (mkDataValidator raw_df "raw_weather"
                      [r1; r2; r3; r4; r5; r6]))
    /\ ExpectationResult.expectation_type r6
       = "expect_table_row_count_to_be_greater_than"
    /\ (ExpectationResult.success r6 = true <-> rows raw_df <> [])
    /\ (Forall (fun r => ExpectationResult.success r = true) [r1; r2; r3; r4; r5]
        <-> Forall weather_clean (rows raw_df)).
Proof.
  intros Hc. unfold weather_inputs in Hc. each_column Hc.
  unfold validate_weather.
  pass_not_null "city" r1 E1 S1. pass_not_null "timestamp" r2 E2 S2.
  pass_not_null "temperature_c" r3 E3 S3.
  pass_between "temperature_c" r4 E4 S4. pass_between "humidity_pct" r5 E5 S5.
  pass_row_count r6 E6 T6 S6.
  exists r1, r2, r3, r4, r5, r6.
  split; [reflexivity|]. split; [exact T6|]. split; [exact S6|].
  rewrite !Forall_cons, Forall_nil, S1, S2, S3, S4, S5.
  unfold weather_clean. rewrite !List.Forall_forall. split.
  - intros (H1 & H2 & H3 & H4 & H5 & _) record Hin. auto 10.
  - intros Hall. repeat split; intros record Hin;
      destruct (Hall record Hin) as (? & ? & ? & ? & ?); assumption.
Qed.


Lemma validate_iot_sensors_report (raw_df : DataFrame) :
  Forall (fun c => c ∈ columns raw_df) sensor_rule_inputs ->
  exists r1 r2 r3 r4 r5 r6 r7 r8 r9,
    validate_iot_sensors raw_df
    = Ok (validate (mkDataValidator raw_df "raw_iot_sensors"
                      [r1; r2; r3; r4; r5; r6; r7; r8; r9]))
    /\ ExpectationResult.expectation_type r9
       = "expect_table_row_count_to_be_greater_than"
    /\ (ExpectationResult.success r9 = true <-> rows raw_df <> [])
    /\ (Forall (fun r => ExpectationResult.success r = true)
          [r1; r2; r3; r4; r5; r6; r7; r8]
        <-> Forall sensor_clean (rows raw_df)).
Proof.
  intros Hc. unfold sensor_rule_inputs in Hc. each_column Hc.
  unfold validate_iot_sensors.
  pass_not_null "sensor_id" r1 E1 S1. pass_not_null "city" r2 E2 S2.
  pass_not_null "timestamp" r3 E3 S3. pass_not_null "temperature_c" r4 E4 S4.
  pass_between "temperature_c" r5 E5 S5. pass_between "humidity_pct" r6 E6 S6.
  pass_between "aqi" r7 E7 S7. pass_between "battery_level" r8 E8 S8.
  pass_row_count r9 E9 T9 S9.
  exists r1, r2, r3, r4, r5, r6, r7, r8, r9.
  split; [reflexivity|]. split; [exact T9|]. split; [exact S9|].
  rewrite !Forall_cons, Forall_nil, S1, S2, S3, S4, S5, S6, S7, S8.
  unfold sensor_clean. rewrite !List.Forall_forall. split.
  - intros (H1 & H2 & H3 & H4 & H5 & H6 & H7 & H8 & _) record Hin. auto 12.
  - intros Hall. repeat split; intros record Hin;
      destruct (Hall record Hin) as (? & ? & ? & ? & ? & ? & ? & ?); assumption.
Qed.


Ltac returns_not_null c r E :=
  match goal with
  | |- context [expect_column_values_to_not_be_null ?v c] =>
      destruct (not_null_returns v c) as (r & E);
      [cbn [df append DataValidator_init]; assumption|];
      rewrite E; cbn [mbind result_bind]; clear E
  end.

Ltac returns_between c r E :=
  match goal with
  | |- context [expect_column_values_to_be_between ?v c ?lo ?hi] =>
      destruct (between_returns v c lo hi) as (r & E);
      [cbn [df append DataValidator_init]; assumption|];
      rewrite E; cbn [mbind result_bind]; clear E
  end.

(** The reports of the two rule sets when the columns resolve. *)
Lemma validate_weather_shape (raw_df : DataFrame) :
  Forall (fun c => is_Some (resolve (columns raw_df) c)) weather_inputs ->
  exists r1 r2 r3 r4 r5 r6,
    validate_weather raw_df
    = Ok (validate (mkDataValidator raw_df "raw_weather"
                      [r1; r2; r3; r4; r5; r6]))
    /\ ExpectationResult.expectation_type r6
       = "expect_table_row_count_to_be_greater_than"
    /\ (ExpectationResult.success r6 = true <-> rows raw_df <> []).
Proof.
  intros Hc. unfold weather_inputs in Hc. each_column Hc.
  unfold validate_weather.
  returns_not_null "city" r1 E1. returns_not_null "timestamp" r2 E2.
  returns_not_null "temperature_c" r3 E3.
  returns_between "temperature_c" r4 E4. returns_between "humidity_pct" r5 E5.
  pass_row_count r6 E6 T6 S6.
  exists r1, r2, r3, r4, r5, r6.
  split; [reflexivity|]. split; [exact T6 | exact S6].
Qed.

Lemma validate_iot_sensors_shape (raw_df : DataFrame) :
  Forall (fun c => is_Some (resolve (columns raw_df) c)) sensor_rule_inputs ->
  exists r1 r2 r3 r4 r5 r6 r7 r8 r9,
    validate_iot_sensors raw_df
    = Ok (validate (mkDataValidator raw_df "raw_iot_sensors"
                      [r1; r2; r3; r4; r5; r6; r7; r8; r9]))
    /\ ExpectationResult.expectation_type r9
       = "expect_table_row_count_to_be_greater_than"
    /\ (ExpectationResult.success r9 = true <-> rows raw_df <> []).
Proof.
  intros Hc. unfold sensor_rule_inputs in Hc. each_column Hc.
  unfold validate_iot_sensors.
  returns_not_null "sensor_id" r1 E1. returns_not_null "city" r2 E2.
  returns_not_null "timestamp" r3 E3. returns_not_null "temperature_c" r4 E4.
  returns_between "temperature_c" r5 E5. returns_between "humidity_pct" r6 E6.
  returns_between "aqi" r7 E7. returns_between "battery_level" r8 E8.
  pass_row_count r9 E9 T9 S9.
  exists r1, r2, r3, r4, r5, r6, r7, r8, r9.
  split; [reflexivity|]. split; [exact T9 | exact S9].
Qed.

Lemma filter_length_last {A : Type} (p : A -> bool) (l : list A) (x : A) :
  p x = true ->
  (1 <= length (List.filter p (l ++ [x])))%nat.
Proof.
  intros Hp. rewrite List.filter_app, length_app. cbn. rewrite Hp. cbn. lia.
Qed.

(** X5. The job validates a dataset only after it has found it non-empty,
    and on a non-empty dataset the last expectation of either rule set, the
    row count, has passed in every report that validation returns: at most 5
    of the 6 weather expectations and 8 of the 9 sensor expectations can
    fail. *)
Theorem row_count_passes_in_a_run (raw_df : DataFrame) (report : Report.t) :
  rows raw_df <> [] ->
  (validate_weather raw_df = Ok report ->
   Report.expectations_failed report <= 5
   /\ exists rs r, Report.results report = rs ++ [r]
        /\ ExpectationResult.expectation_type r
           = "expect_table_row_count_to_be_greater_than"
        /\ ExpectationResult.success r = true)
  /\ (validate_iot_sensors raw_df = Ok report ->
      Report.expectations_failed report <= 8
      /\ exists rs r, Report.results report = rs ++ [r]
           /\ ExpectationResult.expectation_type r
              = "expect_table_row_count_to_be_greater_than"
           /\ ExpectationResult.success r = true).
Proof.
  intros Hne. split; intros Hval.
  - pose proof (validate_weather_columns raw_df report Hval) as Hc.
    destruct (validate_weather_shape raw_df Hc)
      as (r1 & r2 & r3 & r4 & r5 & r6 & Hv & T6 & S6).
    rewrite Hv in Hval. injection Hval as <-.
    apply S6 in Hne. split.
    + pose proof (validate_failed_le
                    (mkDataValidator raw_df "raw_weather"
                       [r1; r2; r3; r4; r5; r6]) 1
                    (filter_length_last _ [r1; r2; r3; r4; r5] r6 Hne)) as Hle.
      cbn [results length] in Hle. lia.
    + exists [r1; r2; r3; r4; r5], r6. cbn [validate Report.results results map].
      destruct r1, r2, r3, r4, r5, r6. tauto.
  - pose proof (validate_iot_sensors_columns raw_df report Hval) as Hc.
    destruct (validate_iot_sensors_shape raw_df Hc)
      as (r1 & r2 & r3 & r4 & r5 & r6 & r7 & r8 & r9 & Hv & T9 & S9).
    rewrite Hv in Hval. injection Hval as <-.
    apply S9 in Hne. split.
    + pose proof (validate_failed_le
                    (mkDataValidator raw_df "raw_iot_sensors"
                       [r1; r2; r3; r4; r5; r6; r7; r8; r9]) 1
                    (filter_length_last _ [r1; r2; r3; r4; r5; r6; r7; r8] r9 Hne))
        as Hle.
      cbn [results length] in Hle. lia.
    + exists [r1; r2; r3; r4; r5; r6; r7; r8], r9.
      cbn [validate Report.results results map].
      destruct r1, r2, r3, r4, r5, r6, r7, r8, r9. tauto.
Qed.

End ValidationOutcome.



(** *** Composing the column transforms *)
Section CurateMore.
Context `{SparkSession}.

(** The schema after [withColumn]: the columns in order, those the name
    matches under the name itself, and the name appended when it matched
    none. *)
Lemma renamed_extends (name : string) (cols : list string) :
  exists extra,
    renamed name cols
    = map (fun f => if same_name name f then name else f) cols ++ extra
    /\ forall c, c ∈ extra
         <-> c = name /\ Forall (fun f => same_name name f = false) cols.
Proof.
  unfold renamed. destruct (existsb (same_name name) cols) eqn:He.
  - exists []. split; [now rewrite app_nil_r|].
    intros c. rewrite elem_of_nil. split; [tauto|]. intros [_ Hall].
    apply existsb_exists in He. destruct He as (f & Hin & Hs).
    rewrite List.Forall_forall in Hall. now rewrite (Hall f Hin) in Hs.
  - assert (Hall : Forall (fun f => same_name name f = false) cols).
    { apply List.Forall_forall. intros f Hin.
      apply not_true_iff_false. intros Hs.
      assert (Hex : existsb (same_name name) cols = true)
        by (apply existsb_exists; eauto).
      congruence. }
    exists [name]. split.
    + f_equal. rewrite <- (map_id cols) at 1. apply map_ext_in.
      intros f Hin. rewrite List.Forall_forall in Hall.
      now rewrite (Hall f Hin).
    + intros c. rewrite list_elem_of_singleton. tauto.
Qed.

Lemma renamed_matching (name : string) (cols : list string) (f : string) :
  f ∈ renamed name cols -> same_name name f = true -> f = name.
Proof.
  destruct (renamed_extends name cols) as (extra & -> & Hextra).
  rewrite elem_of_app, list_elem_of_In, in_map_iff.
  intros [(g & Hg & _)|Hin] Hs.
  - destruct (same_name name g) eqn:Hng; [now subst|]. subst. congruence.
  - now apply Hextra in Hin.
Qed.

Lemma renamed_fixed (name : string) (cols : list string) :
  name ∈ cols ->
  (forall f, f ∈ cols -> same_name name f = true -> f = name) ->
  renamed name cols = cols.
Proof.
  intros Hin Hall. unfold renamed.
  assert (He : existsb (same_name name) cols = true).
  { apply existsb_exists. exists name.
    split; [now apply list_elem_of_In | apply same_name_refl]. }
  rewrite He. rewrite <- (map_id cols) at 2. apply map_ext_in.
  intros f Hf. destruct (same_name name f) eqn:Hs; [|reflexivity].
  symmetry. apply Hall; [now apply list_elem_of_In | exact Hs].
Qed.

Lemma weather_schema_again (cols : list string) :
  weather_schema (weather_schema cols) = weather_schema cols.
Proof.
  assert (Hfd : same_name "temperature_f" "date" = false) by apart.
  assert (Hdf : same_name "date" "temperature_f" = false) by apart.
  destruct (weather_schema_has cols) as (Hf & Hd & _).
  unfold weather_schema in *.
  rewrite (renamed_fixed "temperature_f"
             (renamed "date" (renamed "temperature_f" cols))).
  - apply renamed_fixed; [exact Hd|].
    intros f Hin Hs. exact (renamed_matching _ _ _ Hin Hs).
  - exact Hf.
  - intros f Hin Hs.
    apply renamed_apart in Hin;
      [|exact (same_name_apart "temperature_f" "date" f Hfd Hs)].
    exact (renamed_matching _ _ _ Hin Hs).
Qed.

Lemma put_again (name : string) (v : value) (r : row) :
  put name v (put name v r) = put name v r.
Proof.
  apply map_eq. intros k. rewrite !lookup_put.
  destruct (decide (k = name)); [reflexivity|].
  destruct (same_name name k); reflexivity.
Qed.

Lemma put_swap (a b : string) (x y : value) (r : row) :
  same_name a b = false ->
  put a x (put b y r) = put b y (put a x r).
Proof.
  intros Hab. apply map_eq. intros k. rewrite !lookup_put.
  assert (Hba : same_name b a = false) by now rewrite same_name_sym.
  destruct (decide (k = a)) as [Hka|Hka]; destruct (decide (k = b)) as [Hkb|Hkb].
  - subst. now rewrite same_name_refl in Hab.
  - subst. now rewrite Hba.
  - subst. now rewrite Hab.
  - destruct (same_name a k) eqn:Hak; destruct (same_name b k) eqn:Hbk;
      reflexivity.
Qed.

Lemma weather_record_again (cols cols' : list string) (r : row) :
  "temperature_c" ∈ cols -> "timestamp" ∈ cols ->
  "temperature_c" ∈ cols' -> "timestamp" ∈ cols' ->
  weather_record cols' (weather_record cols r) = weather_record cols r.
Proof.
  intros Ht Hs Ht' Hs'. unfold weather_record.
  rewrite !(bound_name_exact _ _ Ht), !(bound_name_exact _ _ Hs),
          !(bound_name_exact _ _ Ht'), !(bound_name_exact _ _ Hs').
  rewrite !(cell_put_apart "date") by apart.
  rewrite !(cell_put_apart "temperature_f") by apart.
  rewrite (put_swap "temperature_f" "date") by apart.
  now rewrite !put_again.
Qed.


(** X7. The weather transform is idempotent: applied to its own output it
    returns that output unchanged, because the derived fields are recomputed
    from fields it does not touch. *)
Theorem curate_weather_idempotent (raw_df : DataFrame) :
  "temperature_c" ∈ columns raw_df -> "timestamp" ∈ columns raw_df ->
  exists curated_df,
    curate_weather raw_df = Ok curated_df
    /\ curate_weather curated_df = Ok curated_df.
Proof.
  intros Ht Hs. eexists. split; [apply curate_weather_total; assumption|].
  destruct (weather_schema_has (columns raw_df)) as (_ & _ & Hold).
  assert (Ht' : "temperature_c" ∈ weather_schema (columns raw_df))
    by (apply Hold; [repeat constructor; apart | exact Ht]).
  assert (Hs' : "timestamp" ∈ weather_schema (columns raw_df))
    by (apply Hold; [repeat constructor; apart | exact Hs]).
  rewrite curate_weather_total by assumption.
  cbn [columns rows]. rewrite weather_schema_again.
  rewrite map_map. f_equal. f_equal.
  apply map_ext. intros r. now apply weather_record_again.
Qed.

(** X8. The sensor transform cannot be applied to its own output: the
    output has no [sensor_id] column, so both the transform and the sensor
    validation raise [AnalysisException] for [sensor_id] on it. *)
Theorem curate_iot_sensors_not_repeatable (raw_df : DataFrame) :
  Forall (fun c => c ∈ columns raw_df) sensor_inputs ->
  textual_ids raw_df ->
  exists transformed_df,
    curate_iot_sensors raw_df = Ok transformed_df
    /\ curate_iot_sensors transformed_df
       = Raise (AnalysisException "sensor_id")
    /\ validate_iot_sensors transformed_df
       = Raise (AnalysisException "sensor_id").
Proof.
  intros Hc Hi. eexists.
  split; [apply curate_iot_sensors_total; assumption|].
  match goal with
  | |- curate_iot_sensors ?d = _ /\ _ =>
      assert (Hno : resolve (columns d) "sensor_id" = None)
  end.
  { cbn [columns]. apply resolve_None, List.Forall_forall. intros f Hin.
    destruct (sensor_schema_has (columns raw_df)) as (_ & Hnone & _).
    apply Hnone. now apply list_elem_of_In. }
  split.
  - unfold curate_iot_sensors, iot_sensors_plan, pseudonymize_udf.
    erewrite withColumn_raises; [reflexivity | reflexivity | exact Hno].
  - unfold validate_iot_sensors.
    now rewrite not_null_raises by exact Hno.
Qed.

(** X9. On a sensor dataset that has the columns the transform reads, the
    transformations never raise: they are lazy, and only build the plan.
    Running the plan succeeds when the identifiers are strings or null.
    When they were read as a numeric column it fails, because the hash
    function calls [encode] on a number and raises [AttributeError]; the
    write, which is what runs the plan, then raises with that error as its
    cause and leaves nothing at the path. *)
Theorem curate_iot_sensors_numeric_id (raw_df : DataFrame) :
  Forall (fun c => c ∈ columns raw_df) sensor_inputs ->
  exists p,
    iot_sensors_plan raw_df = Ok p
    /\ schema p = sensor_schema (columns raw_df)
    /\ (numeric_ids raw_df ->
        run p = Raise (AttributeError "encode")
        /\ forall (path : string) (w : World),
             snd (write_parquet p "date" "snappy" path w)
             = Raise (Py4JJavaError (AttributeError "encode"))
             /\ written (fst (write_parquet p "date" "snappy" path w)) !! path
                = None)
    /\ (textual_ids raw_df ->
        exists transformed_df,
          run p = Ok (rows transformed_df)
          /\ curate_iot_sensors raw_df = Ok transformed_df).
Proof.
  intros Hc. eexists.
  split; [apply iot_sensors_plan_total, exact_resolve, Hc|].
  cbn [schema run]. split; [reflexivity|]. split.
  - intros [_ Hex].
    assert (Hrun : traverse (sensor_step (columns raw_df)) (rows raw_df)
                   = Raise (AttributeError "encode"))
      by now apply sensor_plan_fails.
    split; [exact Hrun|]. intros path w. unfold write_parquet. cbn [run].
    rewrite Hrun. cbn [fst snd written]. split; [reflexivity|].
    apply lookup_delete_eq.
  - intros Hids. eexists.
    split; [|apply curate_iot_sensors_total; assumption].
    cbn [rows]. apply traverse_total. intros r Hr.
    unfold sensor_step, sensor_record.
    unfold textual_ids in Hids. rewrite List.Forall_forall in Hids.
    now rewrite (pseudonymize_textual _ (Hids r Hr)).
Qed.

End CurateMore.


(** *** Runs of the job: what decides them *)
Section Regular.
Context `{SparkSession}.

Lemma same_inputs_refl (w : World) : same_inputs w w.
Proof. split; reflexivity. Qed.

Lemma same_inputs_sym (w w' : World) : same_inputs w w' -> same_inputs w' w.
Proof. intros [? ?]. split; congruence. Qed.

Lemma same_inputs_trans (w1 w2 w3 : World) :
  same_inputs w1 w2 -> same_inputs w2 w3 -> same_inputs w1 w3.
Proof. intros [? ?] [? ?]. split; congruence. Qed.

Lemma overwrite_app (ops1 ops2 : list (string * option ParquetDataset))
    (m : gmap string ParquetDataset) :
  overwrite (ops1 ++ ops2) m = overwrite ops2 (overwrite ops1 m).
Proof. unfold overwrite. apply fold_left_app. Qed.

Lemma regular_ret {A : Type} (a : A) : regular (mret a).
Proof.
  intros w w' Hs. split; [reflexivity|]. split; [split; reflexivity|].
  exists []. split; reflexivity.
Qed.

Lemma regular_bind {A B : Type} (m : M A) (f : A -> M B) :
  regular m -> (forall a, regular (f a)) -> regular (m ≫= f).
Proof.
  intros Hm Hf w w' Hs. unfold mbind, M_bind.
  destruct (Hm w w' Hs) as (Hr & Hin & ops1 & Hw & Hw').
  destruct (Hm w' w' (same_inputs_refl w')) as (_ & Hin' & _).
  destruct (m w) as [w1 r1], (m w') as [w1' r1']. cbn [fst snd] in *. subst r1'.
  destruct r1 as [a|e]; cbn [fst snd].
  - assert (Hs1 : same_inputs w1 w1').
    { eapply same_inputs_trans; [exact Hin|].
      eapply same_inputs_trans; [exact Hs|]. apply same_inputs_sym, Hin'. }
    destruct (Hf a w1 w1' Hs1) as (Hr2 & Hin2 & ops2 & Hw2 & Hw2').
    split; [exact Hr2|].
    split; [eapply same_inputs_trans; eassumption|].
    exists (ops1 ++ ops2). rewrite !overwrite_app, <- Hw, <- Hw'. tauto.
  - split; [reflexivity|]. split; [exact Hin|]. exists ops1. tauto.
Qed.

Lemma regular_try {A : Type} (m : M A) (h : exn -> M A) :
  regular m -> (forall e, regular (h e)) -> regular (try_except m h).
Proof.
  intros Hm Hh w w' Hs. unfold try_except.
  destruct (Hm w w' Hs) as (Hr & Hin & ops1 & Hw & Hw').
  destruct (Hm w' w' (same_inputs_refl w')) as (_ & Hin' & _).
  destruct (m w) as [w1 r1], (m w') as [w1' r1']. cbn [fst snd] in *. subst r1'.
  destruct r1 as [a|e]; cbn [fst snd].
  - split; [reflexivity|]. split; [exact Hin|]. exists ops1. tauto.
  - assert (Hs1 : same_inputs w1 w1').
    { eapply same_inputs_trans; [exact Hin|].
      eapply same_inputs_trans; [exact Hs|]. apply same_inputs_sym, Hin'. }
    destruct (Hh e w1 w1' Hs1) as (Hr2 & Hin2 & ops2 & Hw2 & Hw2').
    split; [exact Hr2|].
    split; [eapply same_inputs_trans; eassumption|].
    exists (ops1 ++ ops2). rewrite !overwrite_app, <- Hw, <- Hw'. tauto.
Qed.

Lemma regular_emit (name : string) (l : level) (fmt : string)
    (args : list log_arg) : regular (emit name l fmt args).
Proof.
  intros w w' Hs. split; [reflexivity|]. split; [split; reflexivity|].
  exists []. split; reflexivity.
Qed.

Lemma regular_lift {A : Type} (r : result A) : regular (lift r).
Proof.
  intros w w' Hs. split; [reflexivity|]. split; [split; reflexivity|].
  exists []. split; reflexivity.
Qed.

Lemma regular_read (path : string) : regular (read_json path).
Proof.
  intros w w' [Hj Ha]. split; [cbn; now rewrite Hj|].
  split; [split; reflexivity|]. exists []. split; reflexivity.
Qed.

Lemma regular_write (d : Plan) (p c path : string) :
  regular (write_parquet d p c path).
Proof.
  intros w w' Hs. unfold write_parquet. destruct (run d) as [rs|e].
  - split; [reflexivity|]. split; [split; reflexivity|].
    exists [(path, Some (mkParquet [p] c (mkDataFrame (schema d) rs)))].
    split; reflexivity.
  - split; [reflexivity|]. split; [split; reflexivity|].
    exists [(path, None)]. split; reflexivity.
Qed.

Lemma regular_sql (statement : string) : regular (sql statement).
Proof.
  intros w w' [Hj Ha]. split; [cbn; now rewrite Ha|].
  split; [split; reflexivity|]. exists []. split; reflexivity.
Qed.

Lemma regular_commit : regular commit.
Proof.
  intros w w' Hs. split; [reflexivity|]. split; [split; reflexivity|].
  exists []. split; reflexivity.
Qed.

Ltac regularity :=
  repeat first
    [ apply regular_emit | apply regular_lift | apply regular_read
    | apply regular_write | apply regular_sql | apply regular_commit
    | apply regular_ret
    | apply regular_bind; [|intros ?]
    | apply regular_try; [|intros ?]
    | match goal with
      | |- regular (if ?b then _ else _) => destruct b
      | |- regular (match ?o with Some _ => _ | None => _ end) => destruct o
      end ].

Lemma transform_weather_regular (bucket db : string) :
  regular (transform_weather bucket db).
Proof. unfold transform_weather, finish_weather. regularity. Qed.

Lemma transform_iot_sensors_regular (bucket db : string) :
  regular (transform_iot_sensors bucket db).
Proof. unfold transform_iot_sensors, finish_iot_sensors. regularity. Qed.

Lemma main_regular (args : Args) : regular (main args).
Proof. unfold main. regularity. Qed.

Lemma overwrite_snoc (ops : list (string * option ParquetDataset))
    (op : string * option ParquetDataset) (m : gmap string ParquetDataset) :
  overwrite (ops ++ [op]) m = leave (overwrite ops m) op.
Proof. now rewrite overwrite_app. Qed.

Lemma lookup_leave (m : gmap string ParquetDataset)
    (op : string * option ParquetDataset) (k : string) :
  leave m op !! k = if decide (fst op = k) then snd op else m !! k.
Proof.
  unfold leave. destruct (snd op) as [d|].
  - apply lookup_insert.
  - destruct (decide (fst op = k)) as [<-|Hne].
    + apply lookup_delete_eq.
    + now apply lookup_delete_ne.
Qed.

Lemma overwrite_twice (ops : list (string * option ParquetDataset))
    (m : gmap string ParquetDataset) :
  overwrite ops (overwrite ops m) = overwrite ops m.
Proof.
  apply map_eq. intros k.
  assert (Hgen : forall m1 m2 : gmap string ParquetDataset,
            (m1 !! k = m2 !! k \/ exists d, In (k, d) ops) ->
            overwrite ops m1 !! k = overwrite ops m2 !! k).
  { induction ops as [|op ops IH] using rev_ind; intros m1 m2 Hk.
    - destruct Hk as [Hk|(d & [])]. exact Hk.
    - rewrite !overwrite_snoc, !lookup_leave.
      destruct (decide (fst op = k)) as [Heq|Hne]; [reflexivity|].
      apply IH. destruct Hk as [Hk|(d & Hin)]; [left; exact Hk|].
      apply in_app_or in Hin. destruct Hin as [Hin|[Hop|[]]].
      + right. exists d. exact Hin.
      + subst op. now destruct Hne. }
  assert (Hcase : (exists d, In (k, d) ops) \/ overwrite ops m !! k = m !! k).
  { clear Hgen. induction ops as [|op ops IH] using rev_ind.
    - right. reflexivity.
    - rewrite overwrite_snoc, lookup_leave.
      destruct (decide (fst op = k)) as [Heq|Hne].
      + left. exists (snd op). apply in_or_app. right. left.
        destruct op; cbn in *; congruence.
      + destruct IH as [(d & Hin)|IH].
        * left. exists d. apply in_or_app. left. exact Hin.
        * right. exact IH. }
  apply Hgen. destruct Hcase as [Hin|Heq]; [right; exact Hin | left; exact Heq].
Qed.

(** X10. What a run of [main] returns, and what it writes over what was
    written before, is decided by the raw storage and the catalog alone:
    the log, the statements issued earlier and the commit flag have no
    influence, and the run changes neither the raw storage nor the catalog. *)
Theorem main_depends_on_inputs_only (args : Args) (w w' : World) :
  json_source w = json_source w' ->
  sql_answer w = sql_answer w' ->
  snd (main args w) = snd (main args w')
  /\ (written w = written w' ->
      written (fst (main args w)) = written (fst (main args w')))
  /\ json_source (fst (main args w)) = json_source w
  /\ sql_answer (fst (main args w)) = sql_answer w.
Proof.
  intros Hj Ha.
  destruct (main_regular args w w' (conj Hj Ha))
    as (Hr & [Hj' Ha'] & ops & Hw & Hw').
  split; [exact Hr|]. split; [|split; assumption].
  intros Heq. now rewrite Hw, Hw', Heq.
Qed.

(** X11. Running [main] a second time, from the world the first run left
    and with the raw storage and catalog unchanged, returns what the first
    run returned and leaves the written datasets exactly as the first run
    left them: the overwriting writes make the job idempotent. *)
Theorem main_rerun (args : Args) (w : World) :
  snd (main args (fst (main args w))) = snd (main args w)
  /\ written (fst (main args (fst (main args w))))
     = written (fst (main args w)).
Proof.
  destruct (main_regular args w w (same_inputs_refl w)) as (_ & Hin & _).
  destruct (main_regular args w (fst (main args w)) (same_inputs_sym _ _ Hin))
    as (Hr & _ & ops & Hw & Hw').
  split; [symmetry; exact Hr|].
  rewrite Hw', Hw. apply overwrite_twice.
Qed.

End Regular.


(** *** Runs of the job: commit, failures and the log *)
Section Failures.
Context `{SparkSession}.

Lemma keeps_commit_ret {A : Type} (a : A) : keeps_commit (mret a).
Proof. intros w. reflexivity. Qed.

Lemma keeps_commit_bind {A B : Type} (m : M A) (f : A -> M B) :
  keeps_commit m -> (forall a, keeps_commit (f a)) -> keeps_commit (m ≫= f).
Proof.
  intros Hm Hf w. unfold mbind, M_bind. specialize (Hm w).
  destruct (m w) as [w' [a|e]]; cbn in *; [|exact Hm].
  now rewrite Hf.
Qed.

Lemma keeps_commit_try {A : Type} (m : M A) (h : exn -> M A) :
  keeps_commit m -> (forall e, keeps_commit (h e)) ->
  keeps_commit (try_except m h).
Proof.
  intros Hm Hh w. unfold try_except. specialize (Hm w).
  destruct (m w) as [w' [a|e]]; cbn in *; [exact Hm|].
  now rewrite Hh.
Qed.

Lemma keeps_commit_write (d : Plan) (p c path : string) :
  keeps_commit (write_parquet d p c path).
Proof. intros w. unfold write_parquet. now destruct (run d). Qed.

Ltac commit_kept :=
  repeat first
    [ apply keeps_commit_ret
    | apply keeps_commit_write
    | apply keeps_commit_bind; [|intros ?]
    | apply keeps_commit_try; [|intros ?]
    | match goal with
      | |- keeps_commit (if ?b then _ else _) => destruct b
      | |- keeps_commit (match ?o with Some _ => _ | None => _ end) =>
          destruct o
      end
    | (intros ?; reflexivity) ].

Lemma transform_weather_keeps_commit (bucket db : string) :
  keeps_commit (transform_weather bucket db).
Proof. unfold transform_weather, finish_weather. commit_kept. Qed.

Lemma transform_iot_sensors_keeps_commit (bucket db : string) :
  keeps_commit (transform_iot_sensors bucket db).
Proof. unfold transform_iot_sensors, finish_iot_sensors. commit_kept. Qed.

Lemma main_prologue_keeps_commit (args : Args) :
  keeps_commit (main_prologue args).
Proof. unfold main_prologue. commit_kept. Qed.

(** X12. [main] commits the Glue job exactly when it returns normally: after
    a run the commit flag is set if the run returned, and is what it was
    before if the run raised, whatever the point of failure. *)
Theorem main_commits_iff_it_returns (args : Args) (w : World) :
  committed (fst (main args w))
  = committed w || is_ok (snd (main args w)).
Proof.
  rewrite main_unfold. unfold mbind, M_bind.
  pose proof (main_prologue_keeps_commit args w) as H0.
  destruct (main_prologue args w) as [w0 [[]|e]]; cbn [fst snd] in *;
    [|now rewrite H0, orb_false_r].
  pose proof (transform_weather_keeps_commit
                (DATALAKE_BUCKET args) (DATABASE_NAME args) w0) as H1.
  destruct (transform_weather _ _ w0) as [w1 [[]|e]]; cbn [fst snd] in *;
    [|now rewrite H1, H0, orb_false_r].
  pose proof (transform_iot_sensors_keeps_commit
                (DATALAKE_BUCKET args) (DATABASE_NAME args) w1) as H2.
  destruct (transform_iot_sensors _ _ w1) as [w2 [[]|e]]; cbn [fst snd] in *;
    [|now rewrite H2, H1, H0, orb_false_r].
  cbn. now rewrite orb_true_r.
Qed.

Lemma finish_weather_catalog_fails (path db : string)
    (raw_df curated_df : DataFrame) (report : Report.t) (w : World) (e : exn) :
  curate_weather raw_df = Ok curated_df ->
  sql_answer w (repair_weather db) = Raise e ->
  finish_weather path db raw_df report w
  = (mkWorld (json_source w)
             (<[path := mkParquet ["date"] "snappy" curated_df]> (written w))
             (sql_answer w) (issued w ++ [repair_weather db])
             (log w ++ weather_report_log report) (committed w), Raise e).
Proof.
  intros Hc Hsql.
  destruct (curate_weather_Ok _ _ Hc) as (p & rs & Hp & Hrun & ->).
  unfold finish_weather, weather_report_log, repair_weather in *.
  unfold mbind, M_bind, emit, lift, write_parquet, sql, mret, M_ret.
  rewrite Hp, Hrun.
  destruct (Report.success report); cbn; rewrite Hsql; cbn;
    rewrite <- ?app_assoc; reflexivity.
Qed.

(** X13. A catalog failure is fatal and ends the run where it occurs. If
    [USE] is refused, [main] raises that error having read and written
    nothing. If the weather partition repair is refused, [main] raises that
    error with the curated weather dataset already written, and the sensor
    variant is never started: nothing of it is logged, written or issued.
    In neither case is the job committed. *)
Theorem catalog_failure_is_fatal (args : Args) (w : World) (e : exn) :
  (sql_answer w (use_statement args) = Raise e ->
   main args w
   = (mkWorld (json_source w) (written w) (sql_answer w)
              (issued w ++ [use_statement args])
              (log w ++ [mkLog "glue_transform" INFO
                           "Starting Glue transform job. Bucket=%s, DB=%s, Env=%s"
                           [ArgStr (DATALAKE_BUCKET args);
                            ArgStr (DATABASE_NAME args);
                            ArgStr (ENVIRONMENT args)]])
              (committed w), Raise e))
  /\ (forall (raw_df curated_df : DataFrame) (report : Report.t),
        sql_answer w (use_statement args) = Ok tt ->
        json_source w (weather_raw_path (DATALAKE_BUCKET args)) = Ok raw_df ->
        rows raw_df <> [] ->
        validate_weather raw_df = Ok report ->
        curate_weather raw_df = Ok curated_df ->
        sql_answer w (repair_weather (DATABASE_NAME args)) = Raise e ->
        exists l,
          main args w
          = (mkWorld (json_source w)
               (<[weather_curated_path (DATALAKE_BUCKET args)
                  := mkParquet ["date"] "snappy" curated_df]> (written w))
               (sql_answer w)
               (issued w ++ [use_statement args;
                             repair_weather (DATABASE_NAME args)])
               (log w ++ l) (committed w), Raise e)
          /\ Forall (fun r => logger_name r <> "transform_iot_sensors") l).
Proof.
  split.
  - intros Hsql. unfold use_statement in Hsql.
    unfold main, mbind, M_bind, emit, sql. cbn. now rewrite Hsql.
  - intros raw_df curated_df report Huse Hsrc Hne Hval Hcur Hsql.
    rewrite main_unfold. unfold mbind, M_bind.
    destruct (main_prologue_runs args w Huse) as (l0 & Hp).
    assert (Hl0 : l0 = [mkLog "glue_transform" INFO
                          "Starting Glue transform job. Bucket=%s, DB=%s, Env=%s"
                          [ArgStr (DATALAKE_BUCKET args);
                           ArgStr (DATABASE_NAME args);
                           ArgStr (ENVIRONMENT args)]]).
    { unfold main_prologue, mbind, M_bind, emit, sql in Hp. cbn in Hp.
      unfold use_statement in Huse. rewrite Huse in Hp.
      injection Hp as Hp. apply app_inv_head in Hp. now symmetry. }
    rewrite Hp.
    erewrite transform_weather_runs; [|exact Hsrc|exact Hne|exact Hval].
    erewrite finish_weather_catalog_fails; [|exact Hcur|exact Hsql].
    unfold logged. cbn [json_source written sql_answer issued log committed].
    eexists. split.
    + rewrite <- !app_assoc. unfold use_statement. cbn [app]. reflexivity.
    + subst l0. unfold weather_report_log.
      destruct (Report.success report); repeat constructor; discriminate.
Qed.


Lemma validate_iot_sensors_missing (raw_df : DataFrame) (c : string) :
  first_missing (columns raw_df) sensor_rules = Some c ->
  validate_iot_sensors raw_df = Raise (AnalysisException c).
Proof.
  intros Hm. rewrite validate_iot_sensors_as_rules.
  pose proof (add_rules_first_missing
                (DataValidator_init raw_df "raw_iot_sensors") sensor_rules) as Ha.
  cbn [df DataValidator_init] in Ha. rewrite Hm in Ha.
  destruct Ha as (-> & _). reflexivity.
Qed.


(** X15. The validation report is always logged before the transform, and
    a failed report is logged as an error: after validation has returned a
    report, the variant's log continues with the report record, followed by
    one ERROR record exactly when the report's success flag is false; what
    the rest of the run adds is at INFO level, whether or not it raises. *)
Theorem report_is_logged (path db : string) (raw_df : DataFrame)
    (report : Report.t) (w : World) :
  (exists rest,
      log (fst (finish_weather path db raw_df report w))
      = log w ++ weather_report_log report ++ rest
      /\ Forall (fun r => log_level r = INFO) rest)
  /\ (exists rest,
        log (fst (finish_iot_sensors path db raw_df report w))
        = log w ++ sensor_report_log report ++ rest
        /\ Forall (fun r => log_level r = INFO) rest)
  /\ (Exists (fun r => log_level r = ERROR) (weather_report_log report)
      <-> Report.success report = false)
  /\ (Exists (fun r => log_level r = ERROR) (sensor_report_log report)
      <-> Report.success report = false).
Proof.
  split; [|split; [|split]].
  - unfold finish_weather, weather_report_log.
    unfold mbind, M_bind, emit, lift, write_parquet, sql, mret, M_ret.
    destruct (Report.success report); cbn;
      (destruct (weather_plan raw_df) as [d|e]; cbn;
       [destruct (run d) as [rs|e]; cbn;
        [destruct (sql_answer w _) as [[]|e]; cbn|]|]);
      rewrite <- ?app_assoc; cbn [app];
      first [ exists []; split; [now rewrite ?app_nil_r | constructor]
            | eexists [_]; split; [reflexivity | repeat constructor] ].
  - unfold finish_iot_sensors, sensor_report_log.
    unfold mbind, M_bind, emit, lift, write_parquet, sql, mret, M_ret.
    destruct (Report.success report); cbn;
      (destruct (iot_sensors_plan raw_df) as [d|e]; cbn;
       [destruct (run d) as [rs|e]; cbn;
        [destruct (sql_answer w _) as [[]|e]; cbn|]|]);
      rewrite <- ?app_assoc; cbn [app];
      first [ exists []; split; [now rewrite ?app_nil_r | constructor]
            | eexists [_]; split; [reflexivity | repeat constructor] ].
  - unfold weather_report_log. destruct (Report.success report); split;
      try discriminate; try reflexivity.
    + intros Hex. inversion Hex as [? ? Hl|? ? Hl]; subst;
        [discriminate Hl | inversion Hl].
    + intros _. apply Exists_cons_tl, Exists_cons_hd. reflexivity.
  - unfold sensor_report_log. destruct (Report.success report); split;
      try discriminate; try reflexivity.
    + intros Hex. inversion Hex as [? ? Hl|? ? Hl]; subst;
        [discriminate Hl | inversion Hl].
    + intros _. apply Exists_cons_tl, Exists_cons_hd. reflexivity.
Qed.

(** X16. A sensor dataset whose identifiers were read as a numeric
    column passes through validation and then stops the run in the write.
    The report is logged and the plan is built; the write, which runs the
    plan, raises, with the [AttributeError] of the hash function as the
    cause, after the overwrite has removed what was at the curated path.
    No statement is issued for the sensor table. *)
Theorem numeric_id_stops_the_run (bucket db : string) (w : World)
    (raw_df : DataFrame) (report : Report.t) :
  json_source w (sensor_raw_path bucket) = Ok raw_df ->
  validate_iot_sensors raw_df = Ok report ->
  numeric_ids raw_df ->
  snd (transform_iot_sensors bucket db w)
  = Raise (Py4JJavaError (AttributeError "encode"))
  /\ written (fst (transform_iot_sensors bucket db w))
     = delete (sensor_curated_path bucket) (written w)
  /\ issued (fst (transform_iot_sensors bucket db w)) = issued w
  /\ log (fst (transform_iot_sensors bucket db w))
     = log w ++ mkLog "transform_iot_sensors" INFO
                  "Starting IoT sensor transform" []
             :: sensor_report_log report.
Proof.
  intros Hsrc Hval [_ Hnum].
  assert (Hne : rows raw_df <> []).
  { intros Hnil. rewrite Hnil in Hnum. inversion Hnum. }
  pose proof (sensor_inputs_resolved _
                (validate_iot_sensors_columns raw_df report Hval)) as Hin.
  rewrite (transform_iot_sensors_runs bucket db w raw_df report Hsrc Hne Hval).
  unfold finish_iot_sensors, sensor_report_log.
  unfold mbind, M_bind, emit, lift, write_parquet, sql, mret, M_ret, logged.
  rewrite (iot_sensors_plan_total raw_df Hin). cbn [run].
  rewrite (sensor_plan_fails raw_df Hnum).
  destruct (Report.success report); cbn; rewrite <- ?app_assoc; repeat split.
Qed.

End Failures.



(** *** The sensor generator *)

Section GeneratorFacts.
Context `{StreamGenerate.Python}.

Lemma city_records_length (s : StreamGenerate.Surroundings)
    (city : StreamGenerate.City) (indices : list nat) (k : nat) :
  length (StreamGenerate.city_records s city k indices) = length indices.
Proof.
  revert k. induction indices as [|i rest IH]; intros k; cbn; [reflexivity|].
  now rewrite IH.
Qed.

Lemma all_records_length (s : StreamGenerate.Surroundings)
    (CITIES : list StreamGenerate.City) (n : Z) (k : nat) :
  length (StreamGenerate.all_records s CITIES n k)
  = (length CITIES * Z.to_nat n)%nat.
Proof.
  revert k. induction CITIES as [|city rest IH]; intros k; cbn [StreamGenerate.all_records]; [reflexivity|].
  rewrite length_app, city_records_length, length_seq, IH. cbn [length]. lia.
Qed.

Lemma city_records_lookup (s : StreamGenerate.Surroundings)
    (city : StreamGenerate.City) (indices : list nat) (k j i : nat) :
  indices !! j = Some i ->
  StreamGenerate.city_records s city k indices !! j
  = Some (record_data s city i (k + j)).
Proof.
  revert k j. induction indices as [|i0 rest IH]; intros k j Hj; [discriminate|].
  destruct j as [|j]; cbn [StreamGenerate.city_records].
  - injection Hj as ->. unfold record_data, reading_of.
    now rewrite Nat.add_0_r.
  - etrans; [exact (IH (S k) j Hj)|]. do 2 f_equal. lia.
Qed.

Lemma all_records_lookup (s : StreamGenerate.Surroundings)
    (CITIES : list StreamGenerate.City) (n : Z) (k c i : nat)
    (city : StreamGenerate.City) :
  CITIES !! c = Some city -> (i < Z.to_nat n)%nat ->
  StreamGenerate.all_records s CITIES n k !! (c * Z.to_nat n + i)%nat
  = Some (record_data s city i (k + c * Z.to_nat n + i)).
Proof.
  revert k c. induction CITIES as [|city0 rest IH]; intros k c Hc Hi;
    [discriminate|].
  cbn [StreamGenerate.all_records].
  destruct c as [|c]; cbn in Hc.
  - injection Hc as ->. cbn [Nat.mul Nat.add].
    rewrite lookup_app_l by (rewrite city_records_length, length_seq; exact Hi).
    rewrite (city_records_lookup s city _ k i i).
    + do 2 f_equal. lia.
    + rewrite lookup_seq. now split.
  - rewrite lookup_app_r
      by (rewrite city_records_length, length_seq; cbn; lia).
    rewrite city_records_length, length_seq.
    replace (S c * Z.to_nat n + i - Z.to_nat n)%nat
      with (c * Z.to_nat n + i)%nat by (cbn; lia).
    rewrite (IH _ c Hc Hi). do 2 f_equal. cbn. lia.
Qed.

(** X18. Whatever the city name and the index, a generated sensor id is
    the text "sensor-" followed by twelve lowercase hexadecimal digits,
    nineteen characters in all; as a string it is accepted by the
    pseudonymisation of the transform job. *)
Theorem generate_sensor_id_format (city_name : ustring) (sensor_index : Z) :
  exists h,
    StreamGenerate.generate_sensor_id city_name sensor_index
    = ustr "sensor-" ++ h
    /\ length h = 12%nat
    /\ Forall (fun u => In u lower_hex) h
    /\ length (StreamGenerate.generate_sensor_id city_name sensor_index)
       = 19%nat
    /\ exists p,
         pseudonymize_column
           (VStr (StreamGenerate.generate_sensor_id city_name sensor_index))
         = Ok (VStr p)
         /\ length p = 64%nat.
Proof.
  unfold StreamGenerate.generate_sensor_id.
  set (raw := _ ++ _ ++ StreamGenerate.format_03d sensor_index).
  destruct (hexdigest_lower (utf8_encode raw)) as [Hhex Hlen].
  exists (firstn 12 (SHA256.hexdigest (utf8_encode raw))).
  split; [reflexivity|].
  assert (H12 : length (firstn 12 (SHA256.hexdigest (utf8_encode raw)))
                = 12%nat) by (rewrite length_firstn, Hlen; reflexivity).
  split; [exact H12|]. split.
  - apply Forall_take, Hhex.
  - split; [rewrite length_app, H12; reflexivity|].
    eexists. split; [reflexivity|]. apply hexdigest_lower.
Qed.

(** X19. The handler generates one record for every sensor of every city,
    city by city and sensor by sensor, each ending in a newline and built
    from the id of that city and index. It calls Firehose once with all of
    them, and not at all when there are none; it returns the summary unless
    Firehose raises or reports a positive FailedRecordCount, in which case
    it raises after the batch has been pushed. *)
Theorem stream_handler_spec (s : StreamGenerate.Surroundings)
    (CITIES : list StreamGenerate.City) (SENSORS_PER_CITY : Z)
    (ENVIRONMENT : ustring) :
  let run := StreamGenerate.handler s CITIES SENSORS_PER_CITY ENVIRONMENT in
  let n := Z.to_nat SENSORS_PER_CITY in
  let summary :=
    StreamGenerate.mkSummary (Z.of_nat (length CITIES * n))
      (Z.of_nat (length CITIES)) SENSORS_PER_CITY ENVIRONMENT in
  ((length CITIES * n)%nat = 0%nat
   /\ StreamGenerate.pushed run = []
   /\ StreamGenerate.outcome run = Ok summary
   /\ (WARNING, "No records generated"%string) ∈ StreamGenerate.logged run)
  \/ exists records,
       (length CITIES * n)%nat <> 0%nat
       /\ StreamGenerate.pushed run = [records]
       /\ length records = (length CITIES * n)%nat
       /\ (forall c city i,
             CITIES !! c = Some city -> (i < n)%nat ->
             records !! (c * n + i)%nat
             = Some (record_data s city i (c * n + i)))
       /\ match StreamGenerate.put_record_batch s records with
          | Raise e => StreamGenerate.outcome run = Raise e
          | Ok response =>
              (0 < default 0 response ->
               StreamGenerate.outcome run
               = Raise (OtherError
                          (StreamGenerate.decimal (default 0 response)
                           +:+ " records failed to deliver to Firehose")))
              /\ (default 0 response <= 0 ->
                  StreamGenerate.outcome run = Ok summary)
          end.
Proof.
  intros run n summary. subst run summary. unfold StreamGenerate.handler.
  pose proof (all_records_length s CITIES SENSORS_PER_CITY 0) as Hlen.
  pose proof (fun c city i => all_records_lookup s CITIES SENSORS_PER_CITY 0 c i city)
    as Hlook.
  fold n in Hlen, Hlook.
  destruct (StreamGenerate.all_records s CITIES SENSORS_PER_CITY 0)
    as [|r records] eqn:Hrec.
  - left. cbn in Hlen. rewrite <- Hlen. cbn.
    repeat split. apply list_elem_of_In. right. left. reflexivity.
  - right. exists (r :: records).
    split; [rewrite <- Hlen; discriminate|].
    split.
    { destruct (StreamGenerate.put_record_batch s (r :: records)) as [resp|e];
        [destruct (0 <? default 0 resp)|]; reflexivity. }
    split; [exact Hlen|]. split.
    { intros c city i Hc Hi. rewrite (Hlook c city i Hc Hi). reflexivity. }
    rewrite <- Hlen.
    destruct (StreamGenerate.put_record_batch s (r :: records)) as [resp|e];
      [|reflexivity].
    destruct (0 <? default 0 resp) eqn:Hf; cbn [StreamGenerate.outcome].
    + apply Z.ltb_lt in Hf. split; [reflexivity | lia].
    + apply Z.ltb_ge in Hf. split; [lia | reflexivity].
Qed.

End GeneratorFacts.

(** *** From the generator to the transform *)

Section GeneratorThrough.
Context `{SparkSession} `{StreamGenerate.Python}.

Lemma reading_cells (city : StreamGenerate.City) (i : Z)
    (rnd : StreamGenerate.Random) (now : ustring) :
  let d := draw_of (city, i, rnd, now) in
  let r := reading_of (city, i, rnd, now) in
  cell r "sensor_id"
  = VStr (StreamGenerate.generate_sensor_id (StreamGenerate.name city) i)
  /\ cell r "city" = VStr (StreamGenerate.name city)
  /\ cell r "timestamp" = VStr now
  /\ cell r "temperature_c" = VNum (StreamGenerate.temperature_c d)
  /\ cell r "humidity_pct" = VNum (StreamGenerate.humidity_pct d)
  /\ cell r "aqi" = VNum (StreamGenerate.aqi d)
  /\ cell r "battery_level" = VNum (StreamGenerate.battery_level d).
Proof. repeat split. Qed.

Lemma within_range (lo hi x : Q) :
  ~ out_of_range lo hi (VNum x) <-> (lo <= x /\ x <= hi)%Q.
Proof.
  unfold out_of_range. cbn [as_num]. split.
  - intros Hn. split; apply Qnot_lt_le; intros Hlt; apply Hn; eauto.
  - intros [Hlo Hhi] (y & [= <-] & [Hy|Hy]).
    + exact (Qlt_not_le _ _ Hy Hlo).
    + exact (Qlt_not_le _ _ Hy Hhi).
Qed.

Lemma reading_clean (e : emission) :
  sensor_clean (reading_of e) <-> in_rule_ranges (draw_of e).
Proof.
  destruct e as [[[city i] rnd] now].
  destruct (reading_cells city i rnd now) as (Hid & Hc & Ht & Htc & Hh & Ha & Hb).
  unfold sensor_clean, in_rule_ranges.
  rewrite Hid, Hc, Ht, Htc, Hh, Ha, Hb, !within_range.
  split.
  - intros (_ & _ & _ & _ & H1 & H2 & H3 & H4). auto.
  - intros (H1 & H2 & H3 & H4). repeat split; try discriminate; tauto.
Qed.

Lemma reading_score (e : emission) :
  classify (cell (reading_of e) "battery_level")
           (cell (reading_of e) "temperature_c")
           (cell (reading_of e) "humidity_pct")
           (cell (reading_of e) "aqi")
  = battery_score (StreamGenerate.battery_level (draw_of e)).
Proof.
  destruct e as [[[city i] rnd] now].
  destruct (reading_cells city i rnd now) as (Hid & Hc & Ht & Htc & Hh & Ha & Hb).
  rewrite Htc, Hh, Ha, Hb.
  unfold classify, battery_score, compare, Q_leb. cbn [as_num lit_type lit_num mbind option_bind is_null negb].
  change (inject_Z 50) with 50%Q. change (inject_Z 20) with 20%Q.
  destruct (Qle_bool 50 _); cbn [and3 negb]; [reflexivity|].
  destruct (Qle_bool 20 _); reflexivity.
Qed.

(** X20. A dataset made of generated readings, under any schema that has
    the seven sensor columns, goes through the transform job: the sensor
    validation returns a report, which succeeds exactly when there is a
    reading and every reading's four measurements lie in the rule ranges;
    the transform never raises on it and gives, per reading and in order, a
    record without [sensor_id], whose [sensor_id_hash] is the SHA-256 of the
    generated id, whose [quality_score] is decided by the battery level
    alone, and whose [date] is the first ten characters of the clock
    reading. *)
Theorem generated_readings_through_the_transform (cols : list string)
    (emissions : list emission) :
  Forall (fun c => c ∈ cols) sensor_rule_inputs ->
  let raw_df := mkDataFrame cols (map reading_of emissions) in
  (exists report,
      validate_iot_sensors raw_df = Ok report
      /\ (Report.success report = true
          <-> emissions <> []
              /\ Forall (fun e => in_rule_ranges (draw_of e)) emissions))
  /\ exists transformed_df,
       curate_iot_sensors raw_df = Ok transformed_df
       /\ length (rows transformed_df) = length emissions
       /\ forall (i : nat) (e : emission),
            emissions !! i = Some e ->
            exists curated,
              rows transformed_df !! i = Some curated
              /\ curated !! "sensor_id" = None
              /\ curated !! "sensor_id_hash"
                 = Some (VStr (SHA256.hexdigest
                                 (utf8_encode (sensor_id_of e))))
              /\ curated !! "quality_score"
                 = Some (battery_score
                           (StreamGenerate.battery_level (draw_of e)))
              /\ curated !! "date" = Some (VStr (firstn 10 (snd e)))
              /\ curated !! "city"
                 = Some (VStr (StreamGenerate.name (fst (fst (fst e))))).
Proof.
  intros Hcols raw_df. split.
  - destruct (validate_iot_sensors_report raw_df Hcols)
      as (r1 & r2 & r3 & r4 & r5 & r6 & r7 & r8 & r9 & Hv & _ & S9 & S18).
    eexists. split; [exact Hv|].
    rewrite validate_success. cbn [results].
    assert (Hclean : Forall sensor_clean (rows raw_df)
                     <-> Forall (fun e => in_rule_ranges (draw_of e)) emissions).
    { subst raw_df. cbn [rows]. rewrite Forall_map.
      apply Forall_proper; [|reflexivity]. intros e. apply reading_clean. }
    assert (Hne : rows raw_df <> [] <-> emissions <> []).
    { subst raw_df. cbn [rows]. destruct emissions; cbn; split; congruence. }
    rewrite <- Hclean, <- Hne, <- S9, <- S18, !Forall_cons, Forall_nil. tauto.
  - assert (Hin : Forall (fun c => c ∈ columns raw_df) sensor_inputs).
    { pose proof Hcols as Hc. unfold sensor_rule_inputs in Hc.
      repeat match goal with
             | Hc : Forall _ (_ :: _) |- _ =>
                 apply Forall_cons in Hc; destruct Hc as [? Hc]
             end.
      unfold sensor_inputs. cbn [columns]. repeat constructor; assumption. }
    assert (Hids : textual_ids raw_df).
    { unfold textual_ids. subst raw_df. cbn [rows]. rewrite Forall_map.
      inversion Hin as [|? ? Hsid _]; subst. cbn [columns] in Hsid |- *.
      rewrite (bound_name_exact _ _ Hsid).
      apply Forall_forall. intros [[[city k] rnd] now] _.
      destruct (reading_cells city k rnd now) as (-> & _). exact I. }
    eexists. split; [apply curate_iot_sensors_total; assumption|].
    subst raw_df. cbn [rows]. split; [now rewrite !length_map|].
    intros i e He. eexists. split.
    { rewrite !lookup_map, He. reflexivity. }
    pose proof (reading_score e) as Hscore.
    unfold sensor_inputs in Hin. cbn [columns] in Hin.
    inversion Hin as [|? ? Hsid Hc1]; subst.
    inversion Hc1 as [|? ? Hts Hc2]; subst.
    inversion Hc2 as [|? ? Htc Hc3]; subst.
    inversion Hc3 as [|? ? Hhp Hc4]; subst.
    inversion Hc4 as [|? ? Haq Hc5]; subst.
    inversion Hc5 as [|? ? Hbl _]; subst.
    cbn [columns]. unfold sensor_record.
    destruct (sensor_record_fields cols
                (pseudonym (cell (reading_of e) (bound_name cols "sensor_id")))
                (reading_of e))
      as (Hgone & Hhash & Hsc & Hdate & Hframe).
    unfold score_of in Hsc.
    rewrite (bound_name_exact _ _ Hsid) in *.
    rewrite (bound_name_exact _ _ Hts) in Hdate.
    rewrite (bound_name_exact _ _ Hbl), (bound_name_exact _ _ Htc),
            (bound_name_exact _ _ Hhp), (bound_name_exact _ _ Haq), Hscore
      in Hsc.
    destruct e as [[[city k] rnd] now]. cbn [fst snd] in *.
    destruct (reading_cells city k rnd now) as (Hid & Hc & Ht & _).
    rewrite Hid in Hhash. rewrite Ht in Hdate.
    split; [apply Hgone, same_name_refl|].
    split; [exact Hhash|]. split; [exact Hsc|]. split; [exact Hdate|].
    rewrite Hframe by (repeat constructor; apart).
    reflexivity.
Qed.
End GeneratorThrough.


(** *** The weather ingest *)

Section IngestFacts.
Context `{StreamGenerate.Python} (s : BatchIngest.Surroundings).

Lemma flatten_run (city : BatchIngest.City) (ingestion_id : ustring)
    (temps humidity wind precip times : list value) (i : nat)
    (st : BatchIngest.State) :
  exists records,
    BatchIngest.flatten s city ingestion_id temps humidity wind precip i times st
    = (ticked (length times) st, Ok records)
    /\ length records = length times
    /\ forall j t, times !! j = Some t ->
         exists r : row,
           records !! j = Some r
           /\ r !! "ingestion_id" = Some (VStr ingestion_id)
           /\ r !! "city" = Some (VStr (BatchIngest.name city))
           /\ r !! "latitude" = Some (VNum (BatchIngest.latitude city))
           /\ r !! "longitude" = Some (VNum (BatchIngest.longitude city))
           /\ r !! "timestamp" = Some t
           /\ r !! "temperature_c"
              = Some (BatchIngest.item_or_none temps (i + j))
           /\ r !! "humidity_pct"
              = Some (BatchIngest.item_or_none humidity (i + j))
           /\ r !! "windspeed_kmh"
              = Some (BatchIngest.item_or_none wind (i + j))
           /\ r !! "precipitation_mm"
              = Some (BatchIngest.item_or_none precip (i + j))
           /\ r !! "ingested_at"
              = Some (VStr (BatchIngest.isoformat
                              (BatchIngest.now s (BatchIngest.ticks st + j)))).
Proof.
  revert i st. induction times as [|t rest IH]; intros i st.
  - exists []. cbn. unfold ticked. rewrite Nat.add_0_r. destruct st.
    split; [reflexivity|]. split; [reflexivity|]. intros j t [=].
  - cbn [BatchIngest.flatten]. unfold mbind, BatchIngest.L_bind.
    unfold BatchIngest.read_clock at 1.
    match goal with
    | |- context [BatchIngest.flatten _ _ _ _ _ _ _ (S i) rest ?st1] =>
        destruct (IH (S i) st1) as (records & Hrun & Hlen & Hrec)
    end.
    rewrite Hrun. eexists. split.
    { unfold mret, BatchIngest.L_ret, ticked. cbn. do 2 f_equal. lia. }
    split; [cbn; now rewrite Hlen|].
    intros [|j] t' Hj.
    + injection Hj as <-. eexists. split; [reflexivity|].
      rewrite !Nat.add_0_r. repeat split.
    + destruct (Hrec j t' Hj) as (r & Hr & Hfields). exists r.
      split; [exact Hr|]. cbn [BatchIngest.ticks] in Hfields.
      replace (i + S j)%nat with (S i + j)%nat by lia.
      replace (BatchIngest.ticks st + S j)%nat
        with (S (BatchIngest.ticks st) + j)%nat by lia.
      exact Hfields.
Qed.


(** X22. [transform_response] gives one record per entry of the [time]
    array, in order, and reads the clock once per record and touches nothing
    else. A record carries its city, the ingestion id, the time and the
    entries at the same index of the four series; where a series is absent
    or too short the field is null. A response without [hourly] or without
    [time] gives no record. *)
Theorem transform_response_spec (city : BatchIngest.City)
    (weather_data : BatchIngest.WeatherData) (ingestion_id : ustring)
    (st : BatchIngest.State) :
  exists records,
    BatchIngest.transform_response s city weather_data ingestion_id st
    = (ticked (length (times_of weather_data)) st, Ok records)
    /\ length records = length (times_of weather_data)
    /\ forall j t, times_of weather_data !! j = Some t ->
         exists r : row,
           records !! j = Some r
           /\ r !! "ingestion_id" = Some (VStr ingestion_id)
           /\ r !! "city" = Some (VStr (BatchIngest.name city))
           /\ r !! "latitude" = Some (VNum (BatchIngest.latitude city))
           /\ r !! "longitude" = Some (VNum (BatchIngest.longitude city))
           /\ r !! "timestamp" = Some t
           /\ r !! "temperature_c"
              = Some (default VNull
                        (series_of BatchIngest.temperature_2m weather_data !! j))
           /\ r !! "humidity_pct"
              = Some (default VNull
                        (series_of BatchIngest.relative_humidity_2m
                                   weather_data !! j))
           /\ r !! "windspeed_kmh"
              = Some (default VNull
                        (series_of BatchIngest.wind_speed_10m weather_data !! j))
           /\ r !! "precipitation_mm"
              = Some (default VNull
                        (series_of BatchIngest.precipitation weather_data !! j))
           /\ r !! "ingested_at"
              = Some (VStr (BatchIngest.isoformat
                              (BatchIngest.now s (BatchIngest.ticks st + j)))).
Proof.
  unfold BatchIngest.transform_response, times_of, series_of.
  destruct weather_data as [[h|]]; cbn [BatchIngest.hourly default];
    apply flatten_run.
Qed.

Lemma transform_response_weather_fields (city : BatchIngest.City)
    (weather_data : BatchIngest.WeatherData) (ingestion_id : ustring)
    (st : BatchIngest.State) :
  exists records,
    BatchIngest.transform_response s city weather_data ingestion_id st
    = (ticked (length (times_of weather_data)) st, Ok records)
    /\ length records = length (times_of weather_data)
    /\ forall j t, times_of weather_data !! j = Some t ->
         exists r : row,
           records !! j = Some r
           /\ r !! "city" = Some (VStr (BatchIngest.name city))
           /\ r !! "timestamp" = Some t
           /\ r !! "temperature_c"
              = Some (default VNull
                        (series_of BatchIngest.temperature_2m weather_data !! j)).
Proof.
  unfold BatchIngest.transform_response, times_of, series_of.
  destruct weather_data as [[h|]]; cbn [BatchIngest.hourly default];
    match goal with
    | |- context [BatchIngest.flatten _ ?c ?i ?a ?b ?d ?e ?k ?ts ?st] =>
        destruct (flatten_run c i a b d e ts k st)
          as (records & Hrun & Hlen & Hrec)
    end;
    (exists records; split; [exact Hrun|]; split; [exact Hlen|];
     intros j t Hj;
     destruct (Hrec j t Hj) as (r & Hr & _ & Hc & _ & _ & Ht & Htc & _);
     exists r; repeat split; assumption).
Qed.

Lemma transform_response_run (city : BatchIngest.City)
    (weather_data : BatchIngest.WeatherData) (ingestion_id : ustring)
    (st : BatchIngest.State) :
  exists records,
    BatchIngest.transform_response s city weather_data ingestion_id st
    = (ticked (length (times_of weather_data)) st, Ok records)
    /\ length records = length (times_of weather_data).
Proof.
  unfold BatchIngest.transform_response, times_of.
  destruct weather_data as [[h|]]; cbn [BatchIngest.hourly default];
    match goal with
    | |- context [BatchIngest.flatten _ ?c ?i ?a ?b ?d ?e ?k ?ts ?st] =>
        destruct (flatten_run c i a b d e ts k st) as (records & Hrun & Hlen & _)
    end;
    exists records; split; assumption.
Qed.

Lemma write_to_s3_run (records : list row) (city_name date_str : ustring)
    (st : BatchIngest.State) :
  (forall key body, BatchIngest.put_object s key body = Ok tt) ->
  exists st' new extra,
    BatchIngest.write_to_s3 s records city_name date_str st = (st', Ok tt)
    /\ BatchIngest.requests st' = BatchIngest.requests st
    /\ BatchIngest.objects st' = BatchIngest.objects st ++ new
    /\ length new = (if (length records =? 0)%nat then 0 else 1)%nat
    /\ Forall (fun o => in_partition date_str (fst o)) new
    /\ BatchIngest.log st' = BatchIngest.log st ++ extra.
Proof.
  intros Hput. destruct records as [|r records].
  - eexists. exists []. eexists. split; [reflexivity|].
    cbn [BatchIngest.requests BatchIngest.objects BatchIngest.log length
         Nat.eqb].
    rewrite app_nil_r. split; [reflexivity|]. split; [reflexivity|].
    split; [reflexivity|]. split; [constructor | reflexivity].
  - cbn [BatchIngest.write_to_s3 length Nat.eqb].
    unfold mbind, BatchIngest.L_bind, BatchIngest.uuid4_hex,
      BatchIngest.s3_put_object, BatchIngest.emit.
    rewrite Hput.
    do 3 eexists. split; [reflexivity|].
    cbn [BatchIngest.requests BatchIngest.objects BatchIngest.log].
    split; [reflexivity|]. split; [reflexivity|]. split; [reflexivity|].
    split; [|reflexivity].
    constructor; [|constructor]. cbn [fst].
    exists (StreamGenerate.lower (StreamGenerate.replace_char " " "_" city_name)
            ++ ustr "_" ++ firstn 8 (BatchIngest.uuid4 s (BatchIngest.uuids st))).
    rewrite <- !app_assoc. reflexivity.
Qed.

Lemma ingest_run (date_str ingestion_id : ustring)
    (CITIES : list BatchIngest.City) (total_records errors : Z)
    (st : BatchIngest.State) :
  Forall (fun a => crashes a = false)
         (answers s (BatchIngest.requests st) CITIES) ->
  (forall key body, BatchIngest.put_object s key body = Ok tt) ->
  exists st' new extra,
    BatchIngest.ingest s date_str ingestion_id CITIES total_records errors st
    = (st',
       Ok (total_records
           + Z.of_nat (total_in (answers s (BatchIngest.requests st) CITIES)),
           errors
           + Z.of_nat (length (List.filter unreachable
                                 (answers s (BatchIngest.requests st) CITIES)))))
    /\ BatchIngest.requests st'
       = (BatchIngest.requests st + length CITIES)%nat
    /\ BatchIngest.objects st' = BatchIngest.objects st ++ new
    /\ length new
       = length (List.filter has_records
                   (answers s (BatchIngest.requests st) CITIES))
    /\ Forall (fun o => in_partition date_str (fst o)) new
    /\ BatchIngest.log st' = BatchIngest.log st ++ extra.
Proof.
  intros Hok Hput. revert total_records errors st Hok.
  induction CITIES as [|city rest IH]; intros total_records errors st Hok.
  - exists st, [], []. cbn. rewrite !Z.add_0_r, !app_nil_r, Nat.add_0_r.
    repeat split. constructor.
  - cbn [answers] in Hok |- *. apply Forall_cons in Hok.
    destruct Hok as [Hhere Hrest].
    cbn [BatchIngest.ingest]. unfold mbind at 1, BatchIngest.L_bind at 1.
    unfold BatchIngest.fetch_weather, mbind at 1, BatchIngest.L_bind at 1.
    unfold BatchIngest.request at 1.
    set (st1 := BatchIngest.mkState _ _ (S _) _ _).
    assert (Hreq1 : BatchIngest.requests st1 = S (BatchIngest.requests st))
      by reflexivity.
    destruct (BatchIngest.urlopen s (BatchIngest.requests st) city)
      as [weather_data| |e] eqn:Hans; [| |discriminate].
    + cbn [mret BatchIngest.L_ret].
      unfold mret, BatchIngest.L_ret.
      destruct (transform_response_run city weather_data ingestion_id st1)
        as (records & Hrun & Hlen).
      unfold mbind at 1, BatchIngest.L_bind at 1. rewrite Hrun.
      destruct (write_to_s3_run records (BatchIngest.name city) date_str
                  (ticked (length (times_of weather_data)) st1) Hput)
        as (st2 & new1 & extra1 & Hw & Hr2 & Ho2 & Hn1 & Hp1 & Hl2).
      unfold mbind at 1, BatchIngest.L_bind at 1. rewrite Hw.
      assert (Hreq2 : BatchIngest.requests st2 = S (BatchIngest.requests st))
        by (rewrite Hr2; reflexivity).
      rewrite <- Hreq2 in Hrest.
      destruct (IH (total_records + Z.of_nat (length records)) errors st2 Hrest)
        as (st' & new & extra & Hi & Hr & Ho & Hn & Hp & Hl).
      rewrite Hi, Hreq2. exists st', (new1 ++ new), (extra1 ++ extra).
      split.
      { cbn [total_in fold_right List.filter unreachable records_in].
        fold (total_in (answers s (S (BatchIngest.requests st)) rest)).
        do 3 f_equal. rewrite Hlen. lia. }
      split; [rewrite Hr, Hreq2; cbn; lia|].
      split; [rewrite Ho, Ho2; cbn; now rewrite app_assoc|].
      split.
      { rewrite length_app, Hn, Hn1, Hreq2. cbn [List.filter].
        unfold has_records at 2. cbn [records_in]. rewrite Hlen.
        destruct (length (times_of weather_data) =? 0)%nat; reflexivity. }
      split; [apply Forall_app; split; assumption|].
      rewrite Hl, Hl2. cbn. now rewrite app_assoc.
    + unfold mbind at 1, BatchIngest.L_bind at 1, BatchIngest.emit at 1.
      cbn [mret BatchIngest.L_ret]. unfold mret, BatchIngest.L_ret.
      set (st2 := BatchIngest.mkState _ (_ ++ _) _ _ _).
      assert (Hreq2 : BatchIngest.requests st2 = S (BatchIngest.requests st))
        by reflexivity.
      rewrite <- Hreq2 in Hrest.
      destruct (IH total_records (errors + 1) st2 Hrest)
        as (st' & new & extra & Hi & Hr & Ho & Hn & Hp & Hl).
      rewrite Hi, Hreq2. exists st', new,
        ((ERROR, "Failed to fetch weather for %s: %s"%string) :: extra).
      split.
      { cbn [total_in fold_right List.filter unreachable records_in length].
        fold (total_in (answers s (S (BatchIngest.requests st)) rest)).
        do 3 f_equal. lia. }
      split; [rewrite Hr, Hreq2; cbn; lia|].
      split; [rewrite Ho; reflexivity|].
      split; [rewrite Hn, Hreq2; reflexivity|].
      split; [exact Hp|].
      rewrite Hl. cbn. rewrite <- app_assoc. reflexivity.
Qed.

(** X23. When no request raises anything but [URLError] and S3 accepts every
    object, the ingest handler requests every city, whatever happened to the
    cities before it; it puts one object for each city whose response holds
    records, all of them in the day's partition of [raw/weather/]; it logs
    the summary last; and it returns the summary when no city was
    unreachable, and otherwise raises, after the writes, an exception that
    counts the unreachable cities. *)
Theorem batch_handler_accounting (CITIES : list BatchIngest.City)
    (ENVIRONMENT : ustring) (st : BatchIngest.State) :
  let replies := answers s (BatchIngest.requests st) CITIES in
  let failures := length (List.filter unreachable replies) in
  let date_str := BatchIngest.ymd (BatchIngest.now s (BatchIngest.ticks st)) in
  let summary :=
    BatchIngest.mkSummary (BatchIngest.uuid4 s (BatchIngest.uuids st)) date_str
      (Z.of_nat (length CITIES) - Z.of_nat failures) (Z.of_nat failures)
      (Z.of_nat (total_in replies)) ENVIRONMENT in
  Forall (fun a => crashes a = false) replies ->
  (forall key body, BatchIngest.put_object s key body = Ok tt) ->
  exists st' new,
    BatchIngest.handler s CITIES ENVIRONMENT st
    = (st',
       if (failures =? 0)%nat then Ok summary
       else Raise (OtherError
                     ("Batch ingest completed with "
                      +:+ StreamGenerate.decimal (Z.of_nat failures)
                      +:+ " city failures")))
    /\ BatchIngest.requests st'
       = (BatchIngest.requests st + length CITIES)%nat
    /\ BatchIngest.objects st' = BatchIngest.objects st ++ new
    /\ length new = length (List.filter has_records replies)
    /\ Forall (fun o => in_partition date_str (fst o)) new
    /\ last (BatchIngest.log st')
       = Some (INFO, "Batch ingest complete: %s"%string).
Proof.
  intros replies failures date_str summary Hok Hput.
  unfold BatchIngest.handler.
  unfold mbind at 1, BatchIngest.L_bind at 1, BatchIngest.emit at 1.
  unfold mbind at 1, BatchIngest.L_bind at 1, BatchIngest.read_clock at 1.
  unfold mbind at 1, BatchIngest.L_bind at 1, BatchIngest.uuid4_hex at 1.
  cbn [BatchIngest.objects BatchIngest.log BatchIngest.requests
       BatchIngest.ticks BatchIngest.uuids].
  set (st2 := BatchIngest.mkState _ _ _ _ _).
  assert (Hreq : BatchIngest.requests st2 = BatchIngest.requests st)
    by reflexivity.
  fold date_str.
  destruct (ingest_run date_str (BatchIngest.uuid4 s (BatchIngest.uuids st))
              CITIES 0 0 st2)
    as (st3 & new & extra & Hi & Hr & Ho & Hn & Hp & Hl);
    [rewrite Hreq; exact Hok | exact Hput |].
  rewrite Hreq in Hi, Hr, Hn. fold replies in Hi, Hn. fold failures in Hi.
  unfold mbind at 1, BatchIngest.L_bind at 1. rewrite Hi.
  rewrite !Z.add_0_l.
  unfold mbind at 1, BatchIngest.L_bind at 1, BatchIngest.emit at 1.
  assert (Hif : (0 <? Z.of_nat failures) = negb (failures =? 0)%nat).
  { destruct failures; reflexivity. }
  rewrite Hif.
  destruct (failures =? 0)%nat eqn:Hf; cbn [negb].
  - eexists. exists new. split; [reflexivity|].
    cbn [BatchIngest.objects BatchIngest.log BatchIngest.requests].
    split; [exact Hr|]. split; [exact Ho|]. split; [exact Hn|].
    split; [exact Hp|]. apply last_snoc.
  - eexists. exists new. split; [reflexivity|].
    cbn [BatchIngest.objects BatchIngest.log BatchIngest.requests].
    split; [exact Hr|]. split; [exact Ho|]. split; [exact Hn|].
    split; [exact Hp|]. apply last_snoc.
Qed.

Lemma ingest_put_fails (date_str ingestion_id : ustring)
    (city : BatchIngest.City) (rest : list BatchIngest.City)
    (total_records errors : Z) (st : BatchIngest.State)
    (weather_data : BatchIngest.WeatherData) (e : exn) :
  BatchIngest.urlopen s (BatchIngest.requests st) city
  = BatchIngest.Body weather_data ->
  times_of weather_data <> [] ->
  (forall key body, BatchIngest.put_object s key body = Raise e) ->
  exists st',
    BatchIngest.ingest s date_str ingestion_id (city :: rest) total_records
                       errors st = (st', Raise e)
    /\ BatchIngest.objects st' = BatchIngest.objects st
    /\ BatchIngest.requests st' = S (BatchIngest.requests st)
    /\ BatchIngest.log st' = BatchIngest.log st.
Proof.
  intros Hans Htimes Hput.
  cbn [BatchIngest.ingest]. unfold mbind at 1, BatchIngest.L_bind at 1.
  unfold BatchIngest.fetch_weather, mbind at 1, BatchIngest.L_bind at 1.
  unfold BatchIngest.request at 1. rewrite Hans.
  unfold mret, BatchIngest.L_ret.
  set (st1 := BatchIngest.mkState _ _ (S _) _ _).
  destruct (transform_response_run city weather_data ingestion_id st1)
    as (records & Hrun & Hlen).
  unfold mbind at 1, BatchIngest.L_bind at 1. rewrite Hrun.
  destruct records as [|r records].
  { destruct (times_of weather_data); [now destruct Htimes | discriminate]. }
  unfold mbind at 1, BatchIngest.L_bind at 1.
  cbn [BatchIngest.write_to_s3].
  unfold mbind at 1, BatchIngest.L_bind at 1, BatchIngest.uuid4_hex at 1.
  unfold mbind at 1, BatchIngest.L_bind at 1, BatchIngest.s3_put_object at 1.
  rewrite Hput.
  eexists. split; [reflexivity|].
  cbn [BatchIngest.objects BatchIngest.log BatchIngest.requests ticked].
  repeat split.
Qed.

(** X24. A failure of S3 is not contained the way an unreachable city is:
    when the put for the first city raises, the handler raises the same
    exception at once; no object is stored, the later cities are never
    requested and no summary is logged. *)
Theorem put_failure_aborts (city : BatchIngest.City)
    (rest : list BatchIngest.City) (ENVIRONMENT : ustring)
    (st : BatchIngest.State) (weather_data : BatchIngest.WeatherData)
    (e : exn) :
  BatchIngest.urlopen s (BatchIngest.requests st) city
  = BatchIngest.Body weather_data ->
  times_of weather_data <> [] ->
  (forall key body, BatchIngest.put_object s key body = Raise e) ->
  exists st',
    BatchIngest.handler s (city :: rest) ENVIRONMENT st = (st', Raise e)
    /\ BatchIngest.objects st' = BatchIngest.objects st
    /\ BatchIngest.requests st' = S (BatchIngest.requests st)
    /\ BatchIngest.log st'
       = BatchIngest.log st
         ++ [(INFO, "Starting batch ingest for %d cities"%string)].
Proof.
  intros Hans Htimes Hput.
  unfold BatchIngest.handler.
  unfold mbind at 1, BatchIngest.L_bind at 1, BatchIngest.emit at 1.
  unfold mbind at 1, BatchIngest.L_bind at 1, BatchIngest.read_clock at 1.
  unfold mbind at 1, BatchIngest.L_bind at 1, BatchIngest.uuid4_hex at 1.
  cbn [BatchIngest.objects BatchIngest.log BatchIngest.requests
       BatchIngest.ticks BatchIngest.uuids].
  set (st2 := BatchIngest.mkState _ _ _ _ _).
  destruct (ingest_put_fails
              (BatchIngest.ymd (BatchIngest.now s (BatchIngest.ticks st)))
              (BatchIngest.uuid4 s (BatchIngest.uuids st))
              city rest 0 0 st2 weather_data e Hans Htimes Hput)
    as (st' & Hi & Ho & Hr & Hl).
  unfold mbind at 1, BatchIngest.L_bind at 1. rewrite Hi.
  exists st'. split; [reflexivity|].
  rewrite Ho, Hr, Hl. repeat split.
Qed.

End IngestFacts.

Section IngestThrough.
Context `{SparkSession} `{StreamGenerate.Python} (s : BatchIngest.Surroundings).

(** X25. The records of the ingest carry the four columns the weather
    rules name, so on a dataset made of them validation returns a report and
    the transform returns a dataset. The time entries and the temperatures
    of the response are taken to be of one JSON type each, as the columns
    that Spark reads from them are. A curated record has the date of the
    response's time entry and, for the temperature at the same index,
    round(temperature * 9 / 5 + 32, 2) as Spark computes it, null where
    there is no temperature. When the temperature series is shorter than
    the time series the validation fails. *)
Theorem ingested_records_through_the_transform (city : BatchIngest.City)
    (weather_data : BatchIngest.WeatherData) (ingestion_id : ustring)
    (st : BatchIngest.State) (cols : list string) :
  Forall (fun c => c ∈ cols) weather_inputs ->
  one_type (times_of weather_data) ->
  one_type (series_of BatchIngest.temperature_2m weather_data) ->
  exists records st',
    BatchIngest.transform_response s city weather_data ingestion_id st
    = (st', Ok records)
    /\ (exists report,
          validate_weather (mkDataFrame cols records) = Ok report
          /\ ((length (series_of BatchIngest.temperature_2m weather_data)
               < length (times_of weather_data))%nat ->
              Report.success report = false))
    /\ exists curated_df,
         curate_weather (mkDataFrame cols records) = Ok curated_df
         /\ length (rows curated_df) = length (times_of weather_data)
         /\ forall j t, times_of weather_data !! j = Some t ->
              exists curated : row,
                rows curated_df !! j = Some curated
                /\ curated !! "date" = Some (date_of t)
                /\ (forall v,
                      series_of BatchIngest.temperature_2m weather_data !! j
                      = Some v ->
                      curated !! "temperature_f"
                      = Some (rounded
                                (plus (over (times v (IntLit 9)) (IntLit 5))
                                      (IntLit 32))
                                2))
                /\ (series_of BatchIngest.temperature_2m weather_data !! j
                    = None ->
                    curated !! "temperature_f" = Some VNull)
                /\ curated !! "city" = Some (VStr (BatchIngest.name city)).
Proof.
  intros Hcols _ _.
  destruct (transform_response_weather_fields s city weather_data ingestion_id
              st) as (records & Hrun & Hlen & Hrec).
  exists records. eexists. split; [exact Hrun|]. split.
  - destruct (validate_weather_report (mkDataFrame cols records) Hcols)
      as (r1 & r2 & r3 & r4 & r5 & r6 & Hv & _ & _ & S15).
    eexists. split; [exact Hv|]. intros Hshort.
    apply not_true_is_false. rewrite validate_success. cbn [results].
    intros Hall.
    assert (H15 : Forall (fun r => ExpectationResult.success r = true)
                         [r1; r2; r3; r4; r5]).
    { rewrite !Forall_cons in Hall. rewrite !Forall_cons, Forall_nil. tauto. }
    apply S15 in H15. cbn [rows] in H15.
    destruct (lookup_lt_is_Some_2 (times_of weather_data)
                (length (series_of BatchIngest.temperature_2m weather_data))
                Hshort) as [t Ht].
    destruct (Hrec _ t Ht) as (r & Hr & _ & _ & Htemp).
    rewrite Forall_lookup in H15. specialize (H15 _ _ Hr).
    destruct H15 as (_ & _ & Hnn & _). apply Hnn. unfold cell.
    rewrite Htemp, lookup_ge_None_2 by lia. reflexivity.
  - assert (Ht : "temperature_c" ∈ cols /\ "timestamp" ∈ cols).
    { unfold weather_inputs in Hcols.
      rewrite !Forall_cons in Hcols. tauto. }
    eexists. split; [apply curate_weather_total; cbn [columns]; tauto|].
    cbn [rows]. split; [now rewrite length_map|].
    intros j t Hj.
    destruct (Hrec j t Hj) as (r & Hr & Hcity & Hts & Htemp).
    exists (weather_record cols r).
    split; [rewrite lookup_map, Hr; reflexivity|].
    destruct (weather_record_fields cols r) as (Hf & Hd & Hframe).
    rewrite (bound_name_exact _ _ (proj1 Ht)) in Hf.
    rewrite (bound_name_exact _ _ (proj2 Ht)) in Hd.
    unfold cell in Hf, Hd. rewrite Htemp in Hf. rewrite Hts in Hd.
    cbn [default] in Hf, Hd.
    split; [exact Hd|]. split; [|split].
    + intros v Hv. rewrite Hf, Hv. reflexivity.
    + intros Hnone. rewrite Hf, Hnone. reflexivity.
    + rewrite Hframe by (repeat constructor; apart). exact Hcity.
Qed.

End IngestThrough.


(** *** Worked instances *)

(** The four classifications listed in the specification. *)
Example classify_pass :
  @eval no_casts quality_score
    {["battery_level" := VNum 60; "temperature_c" := VNum 1;
      "humidity_pct" := VNum 1; "aqi" := VNum 1]} = Ok PASS.
Proof. vm_compute. reflexivity. Qed.

Example classify_warn :
  @eval no_casts quality_score
    {["battery_level" := VNum 30; "temperature_c" := VNull;
      "humidity_pct" := VNum 1; "aqi" := VNum 1]} = Ok WARN.
Proof. vm_compute. reflexivity. Qed.

Example classify_fail :
  @eval no_casts quality_score
    {["battery_level" := VNum 10; "temperature_c" := VNum 1;
      "humidity_pct" := VNum 1; "aqi" := VNum 1]} = Ok FAIL.
Proof. vm_compute. reflexivity. Qed.

Example classify_null_battery :
  @eval no_casts quality_score
    {["battery_level" := VNull; "temperature_c" := VNum 1;
      "humidity_pct" := VNum 1; "aqi" := VNum 1]} = Ok FAIL.
Proof. vm_compute. reflexivity. Qed.

(** A weather dataset with 61 degrees fails validation: one of the six
    expectations fails. *)
Example hot_weather_report :
  exists report, @validate_weather no_casts hot_df = Ok report
    /\ Report.expectations_failed report = 1
    /\ Report.success report = false.
Proof. eexists. split; [vm_compute; reflexivity|]. split; reflexivity. Qed.

Ltac in_columns := apply list_elem_of_In; simpl; tauto.


(** Three rules on the weather dataset that fails validation. *)
Lemma validate_counts_witness :
  exists self,
    @add_rules no_casts (DataValidator_init hot_df "raw_weather")
      [not_null "city"; between "temperature_c" (-90) 60;
       row_count_greater_than 0] = Ok self
    /\ Report.expectations_evaluated (validate self) = 3
    /\ Report.expectations_passed (validate self)
       + Report.expectations_failed (validate self) = 3.
Proof.
  assert (Hex : exists self,
             @add_rules no_casts (DataValidator_init hot_df "raw_weather")
               [not_null "city"; between "temperature_c" (-90) 60;
                row_count_greater_than 0] = Ok self)
    by (eexists; vm_compute; reflexivity).
  destruct Hex as (self & Hrs). exists self. split; [exact Hrs|].
  destruct (@validate_counts no_casts self) as (Hsum & _ & _ & _ & _ & Hrules).
  destruct (Hrules _ _ _ Hrs) as [He _].
  split; [exact He|]. rewrite Hsum. exact He.
Defined.



(** Both variants skip in the world where neither dataset is available;
    with an empty weather dataset and the two sensor records, [main] runs
    the sensor variant, returns normally and commits. *)
Lemma unavailable_dataset_witness :
  unavailable (json_source dry_lake (weather_raw_path "lake"))
  /\ unavailable (json_source dry_lake (sensor_raw_path "lake"))
  /\ snd (@transform_weather no_casts "lake" "db" dry_lake) = Ok tt
  /\ written (fst (@transform_weather no_casts "lake" "db" dry_lake)) = ∅
  /\ snd (@transform_iot_sensors no_casts "lake" "db" dry_lake) = Ok tt
  /\ written (fst (@transform_iot_sensors no_casts "lake" "db" dry_lake)) = ∅
  /\ snd (@main no_casts lake_args
            (lake (Ok (mkDataFrame weather_inputs [])) (Ok sensors_df)))
     = Ok tt
  /\ committed (fst (@main no_casts lake_args
                       (lake (Ok (mkDataFrame weather_inputs []))
                             (Ok sensors_df))))
     = true.
Proof.
  assert (Hw : unavailable (json_source dry_lake (weather_raw_path "lake")))
    by reflexivity.
  assert (Hs : unavailable (json_source dry_lake (sensor_raw_path "lake")))
    by exact I.
  split; [exact Hw|]. split; [exact Hs|].
  destruct (@unavailable_dataset_is_skipped no_casts lake_args dry_lake)
    as [Hweather Hsensor].
  destruct (Hweather Hw) as (Hrun & Hwritten & _).
  destruct (Hsensor Hs) as (Hrun' & Hwritten' & _).
  cbn [DATALAKE_BUCKET DATABASE_NAME lake_args] in *.
  rewrite Hwritten, Hwritten', Hrun, Hrun'.
  do 4 (split; [reflexivity|]).
  destruct (@unavailable_dataset_is_skipped no_casts lake_args
              (lake (Ok (mkDataFrame weather_inputs [])) (Ok sensors_df)))
    as [Hother _].
  destruct (Hother eq_refl) as (_ & _ & _ & _ & Hcompletes).
  assert (Hval : exists report,
             @validate_iot_sensors no_casts sensors_df = Ok report)
    by (eexists; vm_compute; reflexivity).
  assert (Hcur : exists transformed_df,
             @curate_iot_sensors no_casts sensors_df = Ok transformed_df)
    by (eexists; vm_compute; reflexivity).
  destruct Hval as (report & Hval). destruct Hcur as (transformed_df & Hcur).
  destruct (Hcompletes sensors_df transformed_df report eq_refl
              ltac:(discriminate) Hval Hcur (fun _ => eq_refl))
    as (Hok & Hcommitted & _).
  split; [exact Hok | exact Hcommitted].
Defined.


(** The two sensor records. *)
Lemma curate_iot_sensors_spec_witness :
  Forall (fun c => c ∈ columns sensors_df) sensor_inputs
  /\ @textual_ids no_casts sensors_df
  /\ exists transformed_df,
       @curate_iot_sensors no_casts sensors_df = Ok transformed_df
       /\ ("sensor_id" ∉ columns transformed_df)
       /\ length (rows transformed_df) = 2%nat.
Proof.
  assert (Hc : Forall (fun c => c ∈ columns sensors_df) sensor_inputs)
    by (repeat (constructor; [in_columns|]); constructor).
  assert (Hi : @textual_ids no_casts sensors_df)
    by (repeat (constructor; [vm_compute; exact I|]); constructor).
  split; [exact Hc|]. split; [exact Hi|].
  destruct (@curate_iot_sensors_spec no_casts sensors_df Hc Hi)
    as (transformed_df & Ht & Hno & _ & _ & _ & Hl & _).
  exists transformed_df. split; [exact Ht|]. split; [exact Hno | exact Hl].
Defined.


(** Two rules on the weather dataset that fails validation, in both orders. *)
Lemma rule_order_witness :
  [not_null "city"; between "temperature_c" (-90) 60]
  ≡ₚ [between "temperature_c" (-90) 60; not_null "city"]
  /\ exists v v',
       @add_rules no_casts (DataValidator_init hot_df "raw_weather")
         [not_null "city"; between "temperature_c" (-90) 60] = Ok v
       /\ @add_rules no_casts (DataValidator_init hot_df "raw_weather")
            [between "temperature_c" (-90) 60; not_null "city"] = Ok v'
       /\ verdict (validate v') = verdict (validate v).
Proof.
  assert (Hp : [not_null "city"; between "temperature_c" (-90) 60]
               ≡ₚ [between "temperature_c" (-90) 60; not_null "city"])
    by apply perm_swap.
  split; [exact Hp|].
  assert (Hex : exists v,
             @add_rules no_casts (DataValidator_init hot_df "raw_weather")
               [not_null "city"; between "temperature_c" (-90) 60] = Ok v)
    by (eexists; vm_compute; reflexivity).
  destruct Hex as (v & Hv). exists v.
  destruct (@rule_order_is_immaterial no_casts _ v _ _ Hp Hv)
    as (v' & xs & xs' & Hv' & _ & _ & _ & _ & _ & Heq).
  exists v'. split; [exact Hv|]. split; [exact Hv' | exact Heq].
Defined.

Ltac all_in_columns := repeat (constructor; [in_columns|]); constructor.



(** The weather dataset that fails validation: its row count passes. *)
Lemma row_count_witness :
  rows hot_df <> []
  /\ exists report, @validate_weather no_casts hot_df = Ok report
       /\ Report.expectations_failed report <= 5.
Proof.
  assert (Hne : rows hot_df <> []) by discriminate.
  split; [exact Hne|].
  assert (Hex : exists report, @validate_weather no_casts hot_df = Ok report)
    by (eexists; vm_compute; reflexivity).
  destruct Hex as (report & Hv). exists report. split; [exact Hv|].
  destruct (@row_count_passes_in_a_run no_casts hot_df report Hne) as [Hw _].
  destruct (Hw Hv) as [Hle _]. exact Hle.
Defined.


Lemma curate_weather_idempotent_witness :
  ("temperature_c" ∈ columns austin_df) /\ ("timestamp" ∈ columns austin_df)
  /\ exists curated_df,
       @curate_weather no_casts austin_df = Ok curated_df
       /\ @curate_weather no_casts curated_df = Ok curated_df.
Proof.
  assert (Ht : "temperature_c" ∈ columns austin_df) by in_columns.
  assert (Hs : "timestamp" ∈ columns austin_df) by in_columns.
  split; [exact Ht|]. split; [exact Hs|].
  exact (@curate_weather_idempotent no_casts austin_df Ht Hs).
Defined.

(** The two sensor records. *)
Lemma curate_iot_sensors_not_repeatable_witness :
  Forall (fun c => c ∈ columns sensors_df) sensor_inputs
  /\ @textual_ids no_casts sensors_df
  /\ exists transformed_df,
       @curate_iot_sensors no_casts sensors_df = Ok transformed_df
       /\ @curate_iot_sensors no_casts transformed_df
          = Raise (AnalysisException "sensor_id").
Proof.
  assert (Hc : Forall (fun c => c ∈ columns sensors_df) sensor_inputs)
    by all_in_columns.
  assert (Hi : @textual_ids no_casts sensors_df)
    by (repeat (constructor; [vm_compute; exact I|]); constructor).
  split; [exact Hc|]. split; [exact Hi|].
  destruct (@curate_iot_sensors_not_repeatable no_casts sensors_df Hc Hi)
    as (transformed_df & Ht & Hr & _).
  exists transformed_df. split; [exact Ht | exact Hr].
Defined.

(** The sensor dataset whose identifiers are integers. *)
Lemma curate_iot_sensors_numeric_id_witness :
  Forall (fun c => c ∈ columns numeric_ids_df) sensor_inputs
  /\ @numeric_ids no_casts numeric_ids_df
  /\ exists p, @iot_sensors_plan no_casts numeric_ids_df = Ok p
                /\ run p = Raise (AttributeError "encode").
Proof.
  assert (Hc : Forall (fun c => c ∈ columns numeric_ids_df) sensor_inputs)
    by all_in_columns.
  assert (Hn : @numeric_ids no_casts numeric_ids_df).
  { split.
    - repeat (constructor; [right; vm_compute; exact I|]). constructor.
    - left. vm_compute. exact I. }
  split; [exact Hc|]. split; [exact Hn|].
  destruct (@curate_iot_sensors_numeric_id no_casts numeric_ids_df Hc)
    as (p & Hp & _ & Hfail & _).
  destruct (Hfail Hn) as [Hrun _].
  exists p. split; [exact Hp | exact Hrun].
Defined.

(** The same lake with and without an earlier log record. *)
Lemma main_depends_on_inputs_only_witness :
  json_source (lake (Ok hot_df) (Ok sensors_df))
  = json_source (logged (lake (Ok hot_df) (Ok sensors_df))
                   [mkLog "earlier" INFO "run" []])
  /\ snd (@main no_casts lake_args (lake (Ok hot_df) (Ok sensors_df)))
     = snd (@main no_casts lake_args
              (logged (lake (Ok hot_df) (Ok sensors_df))
                 [mkLog "earlier" INFO "run" []])).
Proof.
  split; [reflexivity|].
  apply (@main_depends_on_inputs_only no_casts lake_args
           (lake (Ok hot_df) (Ok sensors_df))
           (logged (lake (Ok hot_df) (Ok sensors_df))
              [mkLog "earlier" INFO "run" []]) eq_refl eq_refl).
Defined.

(** A catalog that refuses [USE]. *)
Lemma catalog_failure_witness :
  sql_answer (refusing (use_statement lake_args)
                (lake (Ok hot_df) (Ok sensors_df)))
    (use_statement lake_args)
  = Raise (OtherError "catalog unavailable")
  /\ snd (@main no_casts lake_args
            (refusing (use_statement lake_args)
               (lake (Ok hot_df) (Ok sensors_df))))
     = Raise (OtherError "catalog unavailable").
Proof.
  split; [reflexivity|].
  destruct (@catalog_failure_is_fatal no_casts lake_args
              (refusing (use_statement lake_args)
                 (lake (Ok hot_df) (Ok sensors_df)))
              (OtherError "catalog unavailable")) as [Huse _].
  rewrite (Huse eq_refl). reflexivity.
Defined.


(** The sensor dataset whose identifiers are integers, in a run over an
    earlier curated dataset. *)
Lemma numeric_id_stops_the_run_witness :
  json_source (lake (Ok hot_df) (Ok numeric_ids_df)) (sensor_raw_path "lake")
  = Ok numeric_ids_df
  /\ (exists report, @validate_iot_sensors no_casts numeric_ids_df = Ok report)
  /\ @numeric_ids no_casts numeric_ids_df
  /\ snd (@transform_iot_sensors no_casts "lake" "db"
            (lake (Ok hot_df) (Ok numeric_ids_df)))
     = Raise (Py4JJavaError (AttributeError "encode"))
  /\ written (fst (@transform_iot_sensors no_casts "lake" "db"
                     (lake (Ok hot_df) (Ok numeric_ids_df)))) = ∅.
Proof.
  assert (Hex : exists report,
             @validate_iot_sensors no_casts numeric_ids_df = Ok report)
    by (eexists; vm_compute; reflexivity).
  assert (Hn : @numeric_ids no_casts numeric_ids_df).
  { split.
    - repeat (constructor; [right; vm_compute; exact I|]). constructor.
    - left. vm_compute. exact I. }
  split; [reflexivity|]. split; [exact Hex|]. split; [exact Hn|].
  destruct Hex as (report & Hv).
  destruct (@numeric_id_stops_the_run no_casts "lake" "db"
              (lake (Ok hot_df) (Ok numeric_ids_df)) numeric_ids_df report
              eq_refl Hv Hn) as (Hr & Hw & _).
  split; [exact Hr|]. rewrite Hw. reflexivity.
Defined.

Example format_03d_examples :
  StreamGenerate.format_03d 7 = ustr "007"
  /\ StreamGenerate.format_03d 42 = ustr "042"
  /\ StreamGenerate.format_03d 1234 = ustr "1234"
  /\ StreamGenerate.format_03d (-5) = ustr "-05".
Proof. repeat split; vm_compute; reflexivity. Qed.

(** The id of sensor 7 of New York, as [hashlib] gives it for
    ["new_york_007"]. *)
Example sensor_id_new_york :
  @StreamGenerate.generate_sensor_id ascii_lower (ustr "New York") 7
  = ustr "sensor-8cfcfabcdcb5".
Proof. vm_compute. reflexivity. Qed.

(** The key and the log of an ingest of Austin. *)
Example ingest_austin :
  exists st',
    @BatchIngest.handler ascii_lower (open_meteo (Ok tt)) [austin_city]
      (ustr "dev") fresh
    = (st',
       Ok (BatchIngest.mkSummary (ustr "0123456789abcdef0123456789abcdef")
             (ustr "2024-01-01") 1 0 1 (ustr "dev")))
    /\ map fst (BatchIngest.objects st')
       = [ustr "raw/weather/date=2024-01-01/austin_01234567.json"]
    /\ map fst (BatchIngest.log st') = [INFO; INFO; INFO].
Proof. eexists. split; [vm_compute; reflexivity|]. split; reflexivity. Qed.

(** One generated reading. *)
Lemma generated_readings_witness :
  Forall (fun c => c ∈ sensor_rule_inputs) sensor_rule_inputs
  /\ exists transformed_df,
       @curate_iot_sensors no_casts
         (mkDataFrame sensor_rule_inputs
            (map (@reading_of ascii_lower) [austin_emission]))
       = Ok transformed_df
       /\ length (rows transformed_df) = 1%nat.
Proof.
  assert (Hc : Forall (fun c => c ∈ sensor_rule_inputs) sensor_rule_inputs)
    by (repeat (constructor; [apply list_elem_of_In; simpl; tauto|]); constructor).
  split; [exact Hc|].
  destruct (@generated_readings_through_the_transform no_casts ascii_lower
              sensor_rule_inputs [austin_emission] Hc)
    as (_ & transformed_df & Hrun & Hlen & _).
  exists transformed_df. split; [exact Hrun | exact Hlen].
Defined.

(** Austin answers, Boston is unreachable. *)
Lemma batch_handler_accounting_witness :
  Forall (fun a => crashes a = false)
         (answers (open_meteo (Ok tt)) (BatchIngest.requests fresh)
                  [austin_city; boston_city])
  /\ (forall key body,
        BatchIngest.put_object (open_meteo (Ok tt)) key body = Ok tt)
  /\ exists st',
       @BatchIngest.handler ascii_lower (open_meteo (Ok tt))
         [austin_city; boston_city] (ustr "dev") fresh
       = (st', Raise (OtherError
                        "Batch ingest completed with 1 city failures"))
       /\ length (BatchIngest.objects st') = 1%nat
       /\ BatchIngest.requests st' = 2%nat.
Proof.
  assert (Hok : Forall (fun a => crashes a = false)
                  (answers (open_meteo (Ok tt)) (BatchIngest.requests fresh)
                           [austin_city; boston_city]))
    by (repeat constructor).
  assert (Hput : forall key body,
             BatchIngest.put_object (open_meteo (Ok tt)) key body = Ok tt)
    by reflexivity.
  split; [exact Hok|]. split; [exact Hput|].
  destruct (@batch_handler_accounting ascii_lower (open_meteo (Ok tt))
              [austin_city; boston_city] (ustr "dev") fresh Hok Hput)
    as (st' & new & Hrun & Hreq & Hobj & Hlen & _).
  exists st'. split; [exact Hrun|].
  split; [rewrite Hobj, length_app, Hlen; reflexivity | exact Hreq].
Defined.

(** Austin answers and S3 refuses the object. *)
Lemma put_failure_witness :
  BatchIngest.urlopen (open_meteo (Raise (OtherError "AccessDenied")))
    (BatchIngest.requests fresh) austin_city
  = BatchIngest.Body one_hour
  /\ times_of one_hour <> []
  /\ (forall key body,
        BatchIngest.put_object (open_meteo (Raise (OtherError "AccessDenied")))
          key body = Raise (OtherError "AccessDenied"))
  /\ exists st',
       @BatchIngest.handler ascii_lower
         (open_meteo (Raise (OtherError "AccessDenied")))
         [austin_city; boston_city] (ustr "dev") fresh
       = (st', Raise (OtherError "AccessDenied"))
       /\ BatchIngest.objects st' = [].
Proof.
  assert (Hans : BatchIngest.urlopen
                   (open_meteo (Raise (OtherError "AccessDenied")))
                   (BatchIngest.requests fresh) austin_city
                 = BatchIngest.Body one_hour) by reflexivity.
  assert (Htimes : times_of one_hour <> []) by discriminate.
  assert (Hput : forall key body,
             BatchIngest.put_object
               (open_meteo (Raise (OtherError "AccessDenied"))) key body
             = Raise (OtherError "AccessDenied")) by reflexivity.
  split; [exact Hans|]. split; [exact Htimes|]. split; [exact Hput|].
  destruct (@put_failure_aborts ascii_lower
              (open_meteo (Raise (OtherError "AccessDenied")))
              austin_city [boston_city] (ustr "dev") fresh one_hour
              (OtherError "AccessDenied") Hans Htimes Hput)
    as (st' & Hrun & Hobj & _).
  exists st'. split; [exact Hrun | exact Hobj].
Defined.

(** The one-hour response for Austin. *)
Lemma ingested_records_witness :
  Forall (fun c => c ∈ weather_inputs) weather_inputs
  /\ one_type (times_of one_hour)
  /\ one_type (series_of BatchIngest.temperature_2m one_hour)
  /\ exists records st',
       BatchIngest.transform_response (open_meteo (Ok tt)) austin_city
         one_hour (ustr "run") fresh = (st', Ok records)
       /\ exists curated_df,
            @curate_weather no_casts (mkDataFrame weather_inputs records)
            = Ok curated_df
            /\ length (rows curated_df) = 1%nat.
Proof.
  assert (Hc : Forall (fun c => c ∈ weather_inputs) weather_inputs)
    by (repeat (constructor; [apply list_elem_of_In; simpl; tauto|]); constructor).
  assert (Ht : one_type (times_of one_hour))
    by (left; constructor; [right; eexists; reflexivity | constructor]).
  assert (Hs : one_type (series_of BatchIngest.temperature_2m one_hour))
    by (right; right; constructor;
        [right; eexists; reflexivity | constructor]).
  split; [exact Hc|]. split; [exact Ht|]. split; [exact Hs|].
  destruct (@ingested_records_through_the_transform no_casts
              (open_meteo (Ok tt)) austin_city one_hour (ustr "run") fresh
              weather_inputs Hc Ht Hs)
    as (records & st' & Hrun & _ & curated_df & Hcur & Hlen & _).
  exists records, st'. split; [exact Hrun|].
  exists curated_df. split; [exact Hcur | exact Hlen].
Defined.

End Properties.
